(** * LegalTagExtractor: a shallow embedding of [tag_extractor.py]

    The classifier of [scripts/tags_extractor/tag_extractor.py] reads a file
    name, tags it through a table of regular expressions, extracts a date and
    a location, and the scanner folds the per-file metadata into three indices
    and four counters.  The development below follows the Python text
    function by function.

    Conventions.
    - A Python [str] is a [string]; its characters are code points below 256,
      which covers every literal of the pattern tables (the pound sign is
      code point 163).  The one literal outside that range, the arrow of the
      proof-chain name, is kept as the bytes Rocq reads from this file.
    - A Python [dict] is an association list in insertion order: assigning to
      a key that is present replaces the value where it stands, a new key goes
      to the end.
    - A Python [set] of tags is a duplicate-free list; Python leaves the
      iteration order of a set open, the model iterates in insertion order.
    - Code that can raise lives in the monad [result]; [try_except] is the
      bare [except:] clause of the source. *)

From Stdlib Require Import Bool Arith ZArith List Lia.
From Stdlib Require Import Strings.Ascii Strings.String Numbers.DecimalString.
From Stdlib Require Import Sorting.Permutation Sorting.Sorted.
Import ListNotations.

Open Scope list_scope.
Open Scope string_scope.

(** ** Exceptions *)

Inductive exn : Type :=
| ValueError
| TypeError
| AttributeError
| KeyError
| OSError.

Inductive result (A : Type) : Type :=
| Ok (a : A)
| Raise (e : exn).

Arguments Ok {A} a.
Arguments Raise {A} e.

Definition bind {A B : Type} (m : result A) (k : A -> result B) : result B :=
  match m with
  | Ok a => k a
  | Raise e => Raise e
  end.

Notation "x <- m ;; k" := (bind m (fun x => k))
  (at level 61, m at next level, right associativity).

(** [try: body  except: handler] *)
Definition try_except {A : Type} (body : result A) (handler : result A) : result A :=
  match body with
  | Ok a => Ok a
  | Raise _ => handler
  end.

(** ** Characters and the [str] methods the source calls *)

Module Py.

Definition code (c : ascii) : N := N_of_ascii c.

Definition in_range (lo hi : N) (c : ascii) : bool :=
  (lo <=? code c)%N && (code c <=? hi)%N.

Definition is_code (n : N) (c : ascii) : bool := (code c =? n)%N.

(** [str.isdecimal] on one character, also the class [\d]. *)
Definition isdecimal (c : ascii) : bool := in_range 48 57 c.

(** [str.isdigit] on one character: the decimal digits and the superscripts
    one, two and three. *)
Definition isdigit_char (c : ascii) : bool :=
  isdecimal c || is_code 178 c || is_code 179 c || is_code 185 c.

(** [str.isnumeric]: the above and the three vulgar fractions. *)
Definition isnumeric (c : ascii) : bool :=
  isdigit_char c || in_range 188 190 c.

Definition isalpha (c : ascii) : bool :=
  in_range 65 90 c || in_range 97 122 c
  || is_code 170 c || is_code 181 c || is_code 186 c
  || in_range 192 214 c || in_range 216 246 c || in_range 248 255 c.

(** [str.isspace] on one character, also the class [\s]. *)
Definition isspace (c : ascii) : bool :=
  in_range 9 13 c || in_range 28 32 c || is_code 133 c || is_code 160 c.

(** The class [\w]. *)
Definition isword (c : ascii) : bool :=
  isalpha c || isnumeric c || is_code 95 c.

Definition lower_char (c : ascii) : ascii :=
  if in_range 65 90 c || (in_range 192 222 c && negb (is_code 215 c))
  then ascii_of_N (code c + 32)
  else c.

Fixpoint map_str (f : ascii -> ascii) (s : string) : string :=
  match s with
  | EmptyString => EmptyString
  | String c r => String (f c) (map_str f r)
  end.

Fixpoint all_str (p : ascii -> bool) (s : string) : bool :=
  match s with
  | EmptyString => true
  | String c r => p c && all_str p r
  end.

(** [s.lower()] *)
Definition lower (s : string) : string := map_str lower_char s.

(** [s.isdigit()]: every character is a digit and there is at least one. *)
Definition isdigit (s : string) : bool :=
  match s with
  | EmptyString => false
  | _ => all_str isdigit_char s
  end.

(** [s[:n]] and [s[n:]] for [n >= 0]. *)
Fixpoint take (n : nat) (s : string) : string :=
  match n, s with
  | S m, String c r => String c (take m r)
  | _, _ => EmptyString
  end.

Fixpoint drop (n : nat) (s : string) : string :=
  match n, s with
  | S m, String _ r => drop m r
  | _, _ => s
  end.

Fixpoint repeat_char (c : ascii) (n : nat) : string :=
  match n with
  | O => EmptyString
  | S m => String c (repeat_char c m)
  end.

(** [s.zfill(width)]: zeros go after a leading sign. *)
Definition zfill (width : nat) (s : string) : string :=
  let fill := repeat_char "0" (width - String.length s) in
  match s with
  | String c r =>
      if Ascii.eqb c "+" || Ascii.eqb c "-"
      then String c (fill ++ r)
      else fill ++ s
  | EmptyString => fill
  end.

Fixpoint lstrip_by (p : ascii -> bool) (s : string) : string :=
  match s with
  | String c r => if p c then lstrip_by p r else s
  | EmptyString => EmptyString
  end.

(** Drops the trailing characters of class [p]: a character is kept when
    something outside the class follows it or it is outside itself. *)
Fixpoint rstrip_by (p : ascii -> bool) (s : string) : string :=
  match s with
  | EmptyString => EmptyString
  | String c r =>
      match rstrip_by p r with
      | EmptyString => if p c then EmptyString else String c EmptyString
      | r' => String c r'
      end
  end.

(** [s.strip()] *)
Definition strip (s : string) : string := rstrip_by isspace (lstrip_by isspace s).

(** The white space [int] skips around a literal: that of [str.isspace]
    without the four separators 28 to 31. *)
Definition int_space (c : ascii) : bool :=
  in_range 9 13 c || is_code 32 c || is_code 133 c || is_code 160 c.

Definition digit_value (c : ascii) : Z := Z.of_N (code c) - 48.

(** The digits of an integer literal: single underscores may separate
    digits. *)
Fixpoint int_digits (acc : Z) (after_digit : bool) (s : string) : option Z :=
  match s with
  | EmptyString => if after_digit then Some acc else None
  | String c r =>
      if isdecimal c then int_digits (10 * acc + digit_value c) true r
      else if is_code 95 c && after_digit then int_digits acc false r
      else None
  end.

(** [int(s)] for a [str] argument. *)
Definition int (s : string) : result Z :=
  let t := rstrip_by int_space (lstrip_by int_space s) in
  let '(neg, body) :=
    match t with
    | String c r =>
        if Ascii.eqb c "-" then (true, r)
        else if Ascii.eqb c "+" then (false, r)
        else (false, t)
    | EmptyString => (false, t)
    end in
  match int_digits 0 false body with
  | Some v => Ok (if neg then (- v)%Z else v)
  | None => Raise ValueError
  end.

(** [str(n)] for an integer, as an f-string prints it. *)
Definition str_of_int (n : Z) : string := NilZero.string_of_int (Z.to_int n).

(** [s.startswith(p)] *)
Fixpoint startswith (p s : string) : bool :=
  match p, s with
  | EmptyString, _ => true
  | String a p', String b s' => Ascii.eqb a b && startswith p' s'
  | String _ _, EmptyString => false
  end.

(** [p in s] for strings. *)
Fixpoint contains (p s : string) : bool :=
  startswith p s
  || match s with
     | String _ r => contains p r
     | EmptyString => false
     end.

(** [s.endswith(p)] *)
Definition endswith (p s : string) : bool :=
  (String.length p <=? String.length s)%nat
  && String.eqb (drop (String.length s - String.length p) s) p.

(** [s.rfind(c)] for a one-character [c]; [-1] when absent. *)
Fixpoint rfind_from (c : ascii) (i : Z) (last : Z) (s : string) : Z :=
  match s with
  | EmptyString => last
  | String a r => rfind_from c (i + 1) (if Ascii.eqb a c then i else last) r
  end.

Definition rfind (c : ascii) (s : string) : Z := rfind_from c 0 (-1) s.

End Py.

(** ** [os.path] on POSIX *)

Module OsPath.

(** The loop of [genericpath._splitext] that skips leading dots: is there a
    character other than the dot in [p[i:dot]]? *)
Fixpoint has_non_dot (p : string) (n : nat) : bool :=
  match n, p with
  | S m, String c r => negb (Ascii.eqb c ".") || has_non_dot r m
  | _, _ => false
  end.

(** [os.path.splitext(p)] *)
Definition splitext (p : string) : string * string :=
  let sepIndex := Py.rfind "/" p in
  let dotIndex := Py.rfind "." p in
  if (sepIndex <? dotIndex)%Z then
    let filenameIndex := Z.to_nat (sepIndex + 1) in
    if has_non_dot (Py.drop filenameIndex p) (Z.to_nat dotIndex - filenameIndex)
    then (Py.take (Z.to_nat dotIndex) p, Py.drop (Z.to_nat dotIndex) p)
    else (p, EmptyString)
  else (p, EmptyString).

(** [os.path.basename(p)] *)
Definition basename (p : string) : string :=
  Py.drop (Z.to_nat (Py.rfind "/" p + 1)) p.

End OsPath.

(** ** Regular expressions: the fragment of [re] the tables use

    Every quantifier of the source's patterns ([*], [+], [{m,n}]) stands on
    a single-character item, which [Rep] records; [?] also stands on the
    non-capturing groups [(?:ness)] and [(?:d)], hence [Opt] on a regex.  The
    matcher is the backtracking one of [re]: alternatives left to right,
    quantifiers greedy, the search starting at the leftmost position. *)

Module Re.

Inductive regex : Type :=
| Eps                                                 (* the empty pattern *)
| Chr (c : ascii)                                     (* a literal character *)
| Cls (p : ascii -> bool)                             (* [.], [\s], [\d], [[...]] *)
| Cat (r1 r2 : regex)
| Alt (r1 r2 : regex)                                 (* [r1|r2] *)
| Opt (r : regex)                                     (* [r?] *)
| Rep (p : ascii -> bool) (lo : nat) (hi : option nat) (* [p*], [p+], [p{lo,hi}] *)
| Grp (i : nat) (r : regex)                           (* capturing group number [i] *)
| Bnd.                                                (* [\b] *)

(** The captures so far: group number and text, the latest binding first. *)
Definition captures : Type := list (nat * string).

(** What follows a partial match: the character just before the position,
    the rest of the subject and the captures. *)
Definition cont : Type := option ascii -> string -> captures -> option captures.

Definition word_before (prev : option ascii) : bool :=
  match prev with
  | Some c => Py.isword c
  | None => false
  end.

Definition word_after (s : string) : bool :=
  match s with
  | String c _ => Py.isword c
  | EmptyString => false
  end.

Definition under (hi : option nat) (n : nat) : bool :=
  match hi with
  | Some h => (n <? h)%nat
  | None => true
  end.

(** Greedy repetition of a character class, [n] characters taken so far. *)
Fixpoint rep (p : ascii -> bool) (lo : nat) (hi : option nat) (n : nat)
    (prev : option ascii) (s : string) (cs : captures) (k : cont) : option captures :=
  let stop := if (lo <=? n)%nat then k prev s cs else None in
  match s with
  | String a r =>
      if p a && under hi n then
        match rep p lo hi (S n) (Some a) r cs k with
        | Some m => Some m
        | None => stop
        end
      else stop
  | EmptyString => stop
  end.

Fixpoint run (r : regex) (prev : option ascii) (s : string) (cs : captures)
    (k : cont) : option captures :=
  match r with
  | Eps => k prev s cs
  | Chr c =>
      match s with
      | String a s' => if Ascii.eqb a c then k (Some a) s' cs else None
      | EmptyString => None
      end
  | Cls p =>
      match s with
      | String a s' => if p a then k (Some a) s' cs else None
      | EmptyString => None
      end
  | Cat r1 r2 => run r1 prev s cs (fun prev' s' cs' => run r2 prev' s' cs' k)
  | Alt r1 r2 =>
      match run r1 prev s cs k with
      | Some m => Some m
      | None => run r2 prev s cs k
      end
  | Opt r1 =>
      match run r1 prev s cs k with
      | Some m => Some m
      | None => k prev s cs
      end
  | Rep p lo hi => rep p lo hi 0 prev s cs k
  | Grp i r1 =>
      run r1 prev s cs
        (fun prev' s' cs' =>
           k prev' s' ((i, Py.take (String.length s - String.length s') s) :: cs'))
  | Bnd => if xorb (word_before prev) (word_after s) then k prev s cs else None
  end.

Definition accept : cont := fun _ _ cs => Some cs.

(** The leftmost position at which the pattern matches. *)
Fixpoint search_from (r : regex) (prev : option ascii) (s : string) : option captures :=
  match run r prev s [] accept with
  | Some cs => Some cs
  | None =>
      match s with
      | String a s' => search_from r (Some a) s'
      | EmptyString => None
      end
  end.

Fixpoint group_count (r : regex) : nat :=
  match r with
  | Cat r1 r2 | Alt r1 r2 => Nat.max (group_count r1) (group_count r2)
  | Opt r1 => group_count r1
  | Grp i r1 => Nat.max i (group_count r1)
  | _ => 0
  end.

Fixpoint lookup (i : nat) (cs : captures) : option string :=
  match cs with
  | [] => None
  | (j, t) :: rest => if (i =? j)%nat then Some t else lookup i rest
  end.

(** A match object, as far as the source looks at it: [match.groups()], a
    group that took no part in the match being [None]. *)
Definition match_object : Type := list (option string).

(** [re.search(pattern, s)] *)
Definition search (r : regex) (s : string) : option match_object :=
  match search_from r None s with
  | Some cs => Some (map (fun i => lookup i cs) (seq 1 (group_count r)))
  | None => None
  end.

(** Pattern syntax. *)
Fixpoint lit (s : string) : regex :=
  match s with
  | EmptyString => Eps
  | String c EmptyString => Chr c
  | String c r => Cat (Chr c) (lit r)
  end.

Fixpoint cat (rs : list regex) : regex :=
  match rs with
  | [] => Eps
  | [r] => r
  | r :: rest => Cat r (cat rest)
  end.

Fixpoint alt (rs : list regex) : regex :=
  match rs with
  | [] => Eps
  | [r] => r
  | r :: rest => Alt r (alt rest)
  end.

(** [.] matches everything but the line feed. *)
Definition dot (c : ascii) : bool := negb (Py.is_code 10 c).
Definition one_of (cs : string) (c : ascii) : bool := Py.contains (String c EmptyString) cs.

Definition any_star : regex := Rep dot 0 None.                    (* [.*] *)
Definition space_star : regex := Rep Py.isspace 0 None.           (* [\s*] *)
Definition space_plus : regex := Rep Py.isspace 1 None.           (* [\s+] *)
Definition digits (lo hi : nat) : regex := Rep Py.isdecimal lo (Some hi). (* [\d{lo,hi}] *)

End Re.

Import Re.

(** ** The tables of [__init__] *)

(** [(y|ied|ial)] *)
Definition den_suffix : regex := Grp 1 (alt [lit "y"; lit "ied"; lit "ial"]).

Definition tag_patterns : list (string * list regex) :=
  [ ("housing_denial",
      [ cat [lit "housing"; any_star; lit "den"; den_suffix];
        cat [lit "not"; any_star; lit "homeless"];
        cat [lit "accommodation"; any_star; lit "refus"];
        cat [lit "shelter"; any_star; lit "reject"] ]);
    ("section_202",
      [ cat [lit "section"; space_star; lit "202"];
        cat [lit "s"; Opt (Chr "."); space_star; lit "202"];
        cat [lit "housing"; space_star; lit "act"; space_star; lit "1996"] ]);
    ("homelessness",
      [ cat [lit "homeless"; Opt (lit "ness")];
        cat [lit "no"; space_star; lit "fixed"; space_star; lit "abode"];
        cat [lit "rough"; space_star; lit "sleep"] ]);
    ("mental_health",
      [ cat [lit "mental"; space_star; lit "health"];
        lit "psychiatric";
        lit "psychological" ]);
    ("ellingham",
      [ lit "ellingham";
        cat [lit "hospital"; any_star; lit "placement"];
        cat [lit "institutional"; any_star; lit "care"] ]);
    ("child_protection",
      [ cat [lit "child"; any_star; lit "protection"];
        cat [lit "under"; space_star; lit "18"];
        cat [lit "minor"; any_star; lit "care"];
        cat [lit "age"; Opt (lit "d"); space_star; Chr "1"; Cls (Py.in_range 53 55)] ]);
    ("sar_denial",
      [ cat [lit "sar"; any_star; lit "den"; den_suffix];
        cat [lit "subject"; space_star; lit "access"; any_star; lit "refus"];
        cat [lit "data"; any_star; lit "request"; any_star; lit "reject"] ]);
    ("discrimination",
      [ lit "discriminat";
        cat [lit "disability"; any_star; lit "bias"];
        cat [lit "unequal"; any_star; lit "treatment"] ]);
    ("compensation",
      [ lit "compensat";
        lit "damages";
        cat [Chr (ascii_of_N 163); Rep Py.isdecimal 1 None; any_star; lit "million"];
        cat [lit "financial"; any_star; lit "remedy"] ]);
    ("entrapment",
      [ lit "entrap";
        cat [lit "circular"; any_star; lit "refer"];
        cat [lit "system"; any_star; lit "loop"] ]);
    ("negligence",
      [ lit "negligen";
        cat [lit "breach"; any_star; lit "duty"];
        cat [lit "fail"; any_star; lit "care"] ]) ].

(** [[-/.]] *)
Definition date_sep : regex := Cls (one_of "-/.").

Definition month_abbrevs : list string :=
  ["Jan"; "Feb"; "Mar"; "Apr"; "May"; "Jun"; "Jul"; "Aug"; "Sep"; "Oct"; "Nov"; "Dec"].

Definition month_names : list string :=
  ["January"; "February"; "March"; "April"; "May"; "June"; "July"; "August";
   "September"; "October"; "November"; "December"].

Definition date_patterns : list regex :=
  [ (* DD-MM-YYYY or DD/MM/YYYY *)
    cat [Bnd; Grp 1 (digits 1 2); date_sep; Grp 2 (digits 1 2); date_sep;
         Grp 3 (digits 2 4); Bnd];
    (* YYYY-MM-DD *)
    cat [Bnd; Grp 1 (digits 2 4); date_sep; Grp 2 (digits 1 2); date_sep;
         Grp 3 (digits 1 2); Bnd];
    cat [Bnd; Grp 1 (digits 1 2); space_plus; Grp 2 (alt (map lit month_abbrevs));
         Rep (Py.in_range 97 122) 0 None; space_plus; Grp 3 (digits 2 4); Bnd];
    cat [Bnd; Grp 1 (alt (map lit month_names)); space_plus; Grp 2 (digits 1 2);
         Opt (Chr ","); space_plus; Grp 3 (digits 2 4); Bnd] ].

Definition locations : list (string * list string) :=
  [ ("thurrock", ["thurrock"; "council"; "borough"]);
    ("ellingham", ["ellingham"; "hospital"]);
    ("ak_housing", ["ak"; "housing"; "association"]) ].

Definition critical_markers : list string :=
  ["verdict"; "judgment"; "decision"; "ruling";
   "evidence"; "proof"; "exhibit"; "statement"].

(** ** Dictionaries and sets *)

Section Dict.

Context {V : Type}.

Definition dict : Type := list (string * V).

(** [d.get(k)] *)
Fixpoint dict_get (k : string) (d : dict) : option V :=
  match d with
  | [] => None
  | (k', v) :: rest => if String.eqb k k' then Some v else dict_get k rest
  end.

(** [k in d] *)
Definition dict_mem (k : string) (d : dict) : bool :=
  match dict_get k d with
  | Some _ => true
  | None => false
  end.

(** [d[k] = v] *)
Fixpoint dict_set (k : string) (v : V) (d : dict) : dict :=
  match d with
  | [] => [(k, v)]
  | (k', v') :: rest =>
      if String.eqb k k' then (k, v) :: rest else (k', v') :: dict_set k v rest
  end.

(** [d.keys()] *)
Definition dict_keys (d : dict) : list string := map fst d.

End Dict.

Arguments dict V : clear implicits.

(** [s.add(x)] *)
Definition set_add (x : string) (s : list string) : list string :=
  if existsb (String.eqb x) s then s else (s ++ [x])%list.

(** [x in s] *)
Definition set_mem (x : string) (s : list string) : bool := existsb (String.eqb x) s.

(** ** The filename classifier *)

(** The dictionary [extract_from_filename] returns. *)
Record file_metadata : Type := {
  original_filename : string;
  normalized_name : string;
  tags : list string;
  extracted_date : option string;
  location : option string
}.

(** [re.sub(r'[_\-\.]', ' ', name)] *)
Definition sub_separators (name : string) : string :=
  Py.map_str (fun c => if one_of "_-." c then " "%char else c) name.

(** [re.sub(r'\s+', ' ', name)]: [in_run] says that the previous character
    was white space, already replaced. *)
Fixpoint sub_space_runs (in_run : bool) (name : string) : string :=
  match name with
  | EmptyString => EmptyString
  | String c r =>
      if Py.isspace c then
        if in_run then sub_space_runs true r
        else String " " (sub_space_runs true r)
      else String c (sub_space_runs false r)
  end.

Definition _normalize_filename (filename : string) : string :=
  let name := fst (OsPath.splitext filename) in
  let name := sub_separators name in
  let name := sub_space_runs false name in
  Py.strip name.

(** A method call on a group: [None] has no [str] methods. *)
Definition str_attr (g : option string) : result string :=
  match g with
  | Some s => Ok s
  | None => Raise AttributeError
  end.

(** [if len(year) == 2: year = '20' + year if int(year) < 50 else '19' + year] *)
Definition expand_year (g : option string) : result string :=
  match g with
  | None => Raise TypeError
  | Some year =>
      if (String.length year =? 2)%nat then
        v <- Py.int year ;;
        Ok (if (v <? 50)%Z then "20" ++ year else "19" ++ year)
      else Ok year
  end.

Definition months : dict string :=
  [ ("jan", "01"); ("feb", "02"); ("mar", "03"); ("apr", "04");
    ("may", "05"); ("jun", "06"); ("jul", "07"); ("aug", "08");
    ("sep", "09"); ("oct", "10"); ("nov", "11"); ("dec", "12") ].

(** The [try] block of [_parse_date]; falling out of it is [Ok None]. *)
Definition _parse_date_try (groups : match_object) : result (option string) :=
  match groups with
  | [g0; g1; g2] =>
      s1 <- str_attr g1 ;;
      if Py.isdigit s1 then
        (* DD-MM-YYYY format *)
        year <- expand_year g2 ;;
        day <- str_attr g0 ;;
        Ok (Some (Py.zfill 2 day ++ "-" ++ Py.zfill 2 s1 ++ "-" ++ year))
      else
        (* Month name format *)
        let month :=
          match dict_get (Py.lower (Py.take 3 s1)) months with
          | Some m => m
          | None => "00"
          end in
        year <- expand_year g2 ;;
        day <- str_attr g0 ;;
        Ok (Some (Py.zfill 2 day ++ "-" ++ month ++ "-" ++ year))
  | _ => Ok None
  end.

Definition _parse_date (groups : match_object) : result (option string) :=
  try_except (_parse_date_try groups) (Ok None).

(** The two loops over [tag_patterns]. *)
Definition tag_loop (name_lower : string) : list string :=
  fold_left
    (fun tags '(tag, patterns) =>
       fold_left
         (fun tags pattern =>
            match Re.search pattern name_lower with
            | Some _ => set_add tag tags
            | None => tags
            end)
         patterns tags)
    tag_patterns [].

(** The loop over [date_patterns], left at the first pattern that matches. *)
Fixpoint date_loop (patterns : list regex) (name_only : string) : result (option string) :=
  match patterns with
  | [] => Ok None
  | date_pattern :: rest =>
      match Re.search date_pattern name_only with
      | Some m => _parse_date m
      | None => date_loop rest name_only
      end
  end.

(** The loop over [locations], left at the first location with a keyword in
    the name. *)
Fixpoint location_loop (locs : list (string * list string)) (name_lower : string)
    : option string :=
  match locs with
  | [] => None
  | (loc, keywords) :: rest =>
      if existsb (fun keyword => Py.contains keyword name_lower) keywords
      then Some loc
      else location_loop rest name_lower
  end.

Definition has_critical_marker (name_lower : string) : bool :=
  existsb (fun marker => Py.contains marker name_lower) critical_markers.

Definition extract_from_filename (filename : string) : result file_metadata :=
  (* Remove extension for analysis *)
  let name_only := fst (OsPath.splitext filename) in
  let name_lower := Py.lower name_only in
  (* Extract tags from filename *)
  let tags := tag_loop name_lower in
  (* Extract date from filename *)
  date <- date_loop date_patterns name_only ;;
  (* Extract location *)
  let loc := location_loop locations name_lower in
  (* Check for critical evidence *)
  let tags :=
    if has_critical_marker name_lower then set_add "critical_evidence" tags else tags in
  Ok {| original_filename := filename;
        normalized_name := _normalize_filename filename;
        tags := tags;
        extracted_date := date;
        location := loc |}.

(** ** The corpus scanner *)

(** The metadata dictionary once [analyze_directory] has added its three
    keys. *)
Record document : Type := {
  doc_meta : file_metadata;
  relative_path : string;
  category : string;
  file_hash : string
}.

Record stats : Type := {
  total_documents : Z;
  tagged_documents : Z;
  dated_documents : Z;
  critical_documents : Z
}.

Record analysis_results : Type := {
  scan_date : string;
  base_directory : string;
  documents : dict document;
  tag_index : dict (list string);
  location_index : dict (list string);
  date_index : dict (list string);
  statistics : stats
}.

(** What the file system hands the scanner for one file of [files]: its name,
    what [os.path.relpath] makes of its path, and how hashing its content
    ends, with the digest in hexadecimal or with the exception that opening
    or reading raised. *)
Record dir_file : Type := {
  file_name : string;
  file_relpath : string;
  file_digest : result string
}.

(** What [os.walk] yields: each directory with its files. *)
Definition walk : Type := list (string * list dir_file).

(** The [try] block is the hashing itself, [digest]. *)
Definition _calculate_file_hash (digest : result string) : result string :=
  try_except digest (Ok "hash_error").

(** [if key not in index: index[key] = []] and then [index[key].append(doc_id)] *)
Definition index_append (key doc_id : string) (index : dict (list string))
    : dict (list string) :=
  match dict_get key index with
  | None => dict_set key [doc_id] index
  | Some ids => dict_set key (ids ++ [doc_id])%list index
  end.

(** Truth value of an optional string: [None] and the empty string are false. *)
Definition truthy (o : option string) : bool :=
  match o with
  | Some (String _ _) => true
  | _ => false
  end.

(** Truth value of a set: the empty one is false. *)
Definition nonempty (s : list string) : bool :=
  match s with
  | [] => false
  | _ :: _ => true
  end.

Definition bump (b : bool) (n : Z) : Z := if b then (n + 1)%Z else n.

Fixpoint foldM {A B : Type} (f : A -> B -> result A) (l : list B) (a : A) : result A :=
  match l with
  | [] => Ok a
  | b :: rest => a' <- f a b ;; foldM f rest a'
  end.

(** The first half of the body of the inner loop: the metadata of the file
    and its document id. *)
Definition file_document (root : string) (file : dir_file) : result (string * document) :=
  metadata <- extract_from_filename (file_name file) ;;
  hash <- _calculate_file_hash (file_digest file) ;;
  (* Short hash for ID *)
  Ok (Py.take 12 hash,
      {| doc_meta := metadata;
         relative_path := file_relpath file;
         category := OsPath.basename root;
         file_hash := hash |}).

(** The second half: store the document, update the indices and the
    statistics. *)
Definition record_document (results : analysis_results) (entry : string * document)
    : analysis_results :=
  let '(doc_id, doc) := entry in
  let metadata := doc_meta doc in
  let st := statistics results in
  {| scan_date := scan_date results;
     base_directory := base_directory results;
     documents := dict_set doc_id doc (documents results);
     tag_index :=
       fold_left (fun index tag => index_append tag doc_id index)
         (tags metadata) (tag_index results);
     location_index :=
       match location metadata with
       | Some loc =>
           if truthy (Some loc)
           then index_append loc doc_id (location_index results)
           else location_index results
       | None => location_index results
       end;
     date_index :=
       match extracted_date metadata with
       | Some date =>
           if truthy (Some date)
           then (* YYYY-MM *)
                index_append (Py.take 7 date) doc_id (date_index results)
           else date_index results
       | None => date_index results
       end;
     statistics :=
       {| total_documents := (total_documents st + 1)%Z;
          tagged_documents := bump (nonempty (tags metadata)) (tagged_documents st);
          dated_documents := bump (truthy (extracted_date metadata)) (dated_documents st);
          critical_documents :=
            bump (set_mem "critical_evidence" (tags metadata)) (critical_documents st) |} |}.

Definition is_pdf (file : dir_file) : bool :=
  Py.endswith ".pdf" (Py.lower (file_name file)).

(** The body of the inner loop of [analyze_directory]. *)
Definition scan_file (root : string) (results : analysis_results) (file : dir_file)
    : result analysis_results :=
  if is_pdf file then
    entry <- file_document root file ;;
    Ok (record_document results entry)
  else Ok results.

Definition empty_results (now directory_path : string) : analysis_results :=
  {| scan_date := now;
     base_directory := directory_path;
     documents := [];
     tag_index := [];
     location_index := [];
     date_index := [];
     statistics := {| total_documents := 0; tagged_documents := 0;
                      dated_documents := 0; critical_documents := 0 |} |}.

(** [now] is what [datetime.now().isoformat()] returns, [tree] what
    [os.walk(directory_path)] yields. *)
Definition analyze_directory (now directory_path : string) (tree : walk)
    : result analysis_results :=
  foldM (fun results '(root, files) => foldM (scan_file root) files results)
    tree (empty_results now directory_path).

(** ** The index builder *)

Record doc_summary : Type := {
  summary_id : string;
  summary_filename : string;
  summary_path : string;
  summary_date : option string;
  summary_location : option string
}.

Record tag_entry : Type := {
  document_count : Z;
  entry_documents : list doc_summary
}.

Record proof_chain : Type := {
  chain_name : string;
  start_tag : string;
  end_tag : string;
  intermediate_tags : list string
}.

Record critical_entry : Type := {
  critical_id : string;
  critical_filename : string;
  critical_tags : list string;
  importance : string
}.

Record search_index : Type := {
  index_version : string;
  index_created : string;
  index_total_documents : Z;
  index_tags : dict (dict tag_entry);
  search_aliases : dict (list string);
  proof_chains : list proof_chain;
  index_critical_documents : list critical_entry
}.

Definition category_mapping : list (string * list string) :=
  [ ("housing", ["housing_denial"; "section_202"; "homelessness"]);
    ("mental_health", ["mental_health"; "ellingham"; "child_protection"]);
    ("legal", ["sar_denial"; "discrimination"; "compensation"]);
    ("system_failure", ["entrapment"; "negligence"]);
    ("evidence", ["critical_evidence"]) ].

Fixpoint category_loop (mapping : list (string * list string)) (tag : string) : string :=
  match mapping with
  | [] => "other"
  | (cat_name, cat_tags) :: rest =>
      if set_mem tag cat_tags then cat_name else category_loop rest tag
  end.

Definition _get_tag_category (tag : string) : string :=
  category_loop category_mapping tag.

Fixpoint mapM {A B : Type} (f : A -> result B) (l : list A) : result (list B) :=
  match l with
  | [] => Ok []
  | a :: rest => b <- f a ;; bs <- mapM f rest ;; Ok (b :: bs)
  end.

(** [analysis_results['documents'][doc_id]] and the summary made of it. *)
Definition summarize (docs : dict document) (doc_id : string) : result doc_summary :=
  match dict_get doc_id docs with
  | None => Raise KeyError
  | Some doc =>
      Ok {| summary_id := doc_id;
            summary_filename := original_filename (doc_meta doc);
            summary_path := relative_path doc;
            summary_date := extracted_date (doc_meta doc);
            summary_location := location (doc_meta doc) |}
  end.

(** The body of the loop that builds the tag hierarchy. *)
Definition add_tag_entry (docs : dict document) (tags : dict (dict tag_entry))
    (item : string * list string) : result (dict (dict tag_entry)) :=
  let '(tag, doc_ids) := item in
  summaries <- mapM (summarize docs) doc_ids ;;
  let cat_name := _get_tag_category tag in
  let inner :=
    match dict_get cat_name tags with
    | Some d => d
    | None => []
    end in
  let entry := {| document_count := Z.of_nat (List.length summaries);
                  entry_documents := summaries |} in
  Ok (dict_set cat_name (dict_set tag entry inner) tags).

Definition aliases : dict (list string) :=
  [ ("housing_denial", ["housing denial"; "denied housing"; "accommodation refused"]);
    ("section_202", ["section 202"; "s202"; "s.202"; "housing act 1996"]);
    ("ellingham", ["ellingham hospital"; "ellingham placement"]);
    ("sar", ["subject access request"; "data request"; "sar denial"]);
    ("compensation", ["damages"; "financial remedy"; "181 million"]) ].

Definition housing_compensation_chain : proof_chain :=
  {| chain_name := "Housing Denial → Compensation";
     start_tag := "housing_denial";
     end_tag := "compensation";
     intermediate_tags := ["discrimination"; "negligence"] |}.

Definition critical_entries (docs : dict document) : list critical_entry :=
  flat_map
    (fun '(doc_id, metadata) =>
       if set_mem "critical_evidence" (tags (doc_meta metadata))
       then [ {| critical_id := doc_id;
                 critical_filename := original_filename (doc_meta metadata);
                 critical_tags := tags (doc_meta metadata);
                 importance := "high" |} ]
       else [])
    docs.

Definition create_searchable_index (now : string) (results : analysis_results)
    : result search_index :=
  tag_tree <- foldM (add_tag_entry (documents results)) (tag_index results) [] ;;
  Ok {| index_version := "1.0";
        index_created := now;
        index_total_documents := total_documents (statistics results);
        index_tags := tag_tree;
        search_aliases := aliases;
        proof_chains :=
          if dict_mem "housing_denial" (tag_index results)
             && dict_mem "compensation" (tag_index results)
          then [housing_compensation_chain]
          else [];
        index_critical_documents := critical_entries (documents results) |}.

(** ** The report generator *)

Definition nl : string := String (ascii_of_N 10) EmptyString.

(** Stable insertion into a list sorted by descending count: the new item
    comes from further left, so it goes before the items of equal count. *)
Fixpoint insert_by_count (x : string * Z) (l : list (string * Z)) : list (string * Z) :=
  match l with
  | [] => [x]
  | y :: rest =>
      if (snd y <=? snd x)%Z then x :: l else y :: insert_by_count x rest
  end.

(** [tag_counts.sort(key=lambda x: x[1], reverse=True)] *)
Definition sort_by_count (l : list (string * Z)) : list (string * Z) :=
  fold_right insert_by_count [] l.

Fixpoint insert_str (x : string) (l : list string) : list string :=
  match l with
  | [] => [x]
  | y :: rest => if String.leb x y then x :: l else y :: insert_str x rest
  end.

(** [sorted(keys)] *)
Definition sorted (l : list string) : list string := fold_right insert_str [] l.

Definition report_header (results : analysis_results) : string :=
  let st := statistics results in
  "# Document Tag Analysis Report" ++ nl ++
  nl ++
  "**Generated**: " ++ scan_date results ++ nl ++
  "**Base Directory**: " ++ base_directory results ++ nl ++
  nl ++
  "## Summary Statistics" ++ nl ++
  "- Total Documents: " ++ Py.str_of_int (total_documents st) ++ nl ++
  "- Tagged Documents: " ++ Py.str_of_int (tagged_documents st) ++ nl ++
  "- Documents with Dates: " ++ Py.str_of_int (dated_documents st) ++ nl ++
  "- Critical Evidence Documents: " ++ Py.str_of_int (critical_documents st) ++ nl ++
  nl ++
  "## Tag Distribution" ++ nl.

Definition count_of (ids : list string) : Z := Z.of_nat (List.length ids).

Definition tag_distribution (results : analysis_results) : string :=
  let tag_counts := map (fun '(tag, docs) => (tag, count_of docs)) (tag_index results) in
  String.concat ""
    (map (fun '(tag, count) =>
            "- **" ++ tag ++ "** (" ++ _get_tag_category tag ++ "): "
            ++ Py.str_of_int count ++ " documents" ++ nl)
       (sort_by_count tag_counts)).

Definition location_distribution (results : analysis_results) : string :=
  String.concat ""
    (map (fun '(loc, doc_ids) =>
            "- **" ++ loc ++ "**: " ++ Py.str_of_int (count_of doc_ids) ++ " documents" ++ nl)
       (location_index results)).

Definition temporal_distribution (results : analysis_results) : string :=
  match sorted (dict_keys (date_index results)) with
  | [] => ""
  | (first :: _) as sorted_dates =>
      "- Earliest: " ++ first ++ nl ++
      "- Latest: " ++ last sorted_dates first ++ nl ++
      "- Date range spans: " ++ Py.str_of_int (count_of sorted_dates) ++ " months" ++ nl
  end.

(** The loop over the documents that lists the critical ones; [total] is
    the counter [critical_documents] of the statistics. *)
Fixpoint critical_loop (items : dict document) (critical_count total : Z) : string :=
  match items with
  | [] => ""
  | (doc_id, metadata) :: rest =>
      if set_mem "critical_evidence" (tags (doc_meta metadata)) then
        let line := "- " ++ original_filename (doc_meta metadata) ++ nl in
        let critical_count := (critical_count + 1)%Z in
        if (10 <=? critical_count)%Z then
          (* Limit to first 10 *)
          line ++ "  ... and " ++ Py.str_of_int (total - 10) ++ " more" ++ nl
        else line ++ critical_loop rest critical_count total
      else critical_loop rest critical_count total
  end.

Definition critical_section (results : analysis_results) : string :=
  critical_loop (documents results) 0 (critical_documents (statistics results)).

Definition generate_report (results : analysis_results) : string :=
  report_header results ++
  tag_distribution results ++
  nl ++ "## Location Distribution" ++ nl ++
  location_distribution results ++
  nl ++ "## Temporal Distribution" ++ nl ++
  temporal_distribution results ++
  nl ++ "## Critical Evidence" ++ nl ++
  critical_section results.

(** ** The metadata files *)

(** What a [metadata.json] holds for one filename. *)
Record metadata_record : Type := {
  record_doc_id : string;
  record_tags : list string;
  record_date : option string;
  record_location : option string;
  record_hash : string
}.

(** The body of the loop that groups the documents by category. *)
Definition group_document (documents_by_category : dict (dict metadata_record))
    (item : string * document) : dict (dict metadata_record) :=
  let '(doc_id, metadata) := item in
  let cat_name := category metadata in
  let inner :=
    match dict_get cat_name documents_by_category with
    | Some d => d
    | None => []
    end in
  let filename := original_filename (doc_meta metadata) in
  dict_set cat_name
    (dict_set filename
       {| record_doc_id := doc_id;
          record_tags := tags (doc_meta metadata);
          record_date := extracted_date (doc_meta metadata);
          record_location := location (doc_meta metadata);
          record_hash := file_hash metadata |}
       inner)
    documents_by_category.

(** Group documents by category *)
Definition group_by_category (results : analysis_results) : dict (dict metadata_record) :=
  fold_left group_document (documents results) [].

(** [os.path.join(a, b)] on POSIX. *)
Definition path_join (a b : string) : string :=
  if Py.startswith "/" b then b
  else if String.eqb a "" || Py.endswith "/" a then a ++ b
  else a ++ "/" ++ b.

(** What the second loop does to the world: a file written with its content,
    a line printed. *)
Inductive event : Type :=
| Written (path : string) (content : dict metadata_record)
| Printed (line : string).

(** The body of the loop that writes the files.  [path_exists] is
    [os.path.exists]; [write_json path] is how opening [path] for writing and
    dumping into it ends. *)
Definition write_category (path_exists : string -> bool)
    (write_json : string -> result unit) (output_dir : string)
    (item : string * dict metadata_record) : list event * result unit :=
  let '(cat_name, documents) := item in
  let category_path := path_join output_dir cat_name in
  if path_exists category_path then
    let metadata_path := path_join category_path "metadata.json" in
    match write_json metadata_path with
    | Ok _ =>
        ([ Written metadata_path documents;
           Printed ("Generated metadata for " ++ cat_name ++ ": "
                    ++ Py.str_of_int (Z.of_nat (List.length documents)) ++ " documents") ],
         Ok tt)
    | Raise e => ([], Raise e)
    end
  else ([], Ok tt).

(** A loop over [items] that stops at the first exception, with the events
    up to there. *)
Fixpoint write_loop (step : string * dict metadata_record -> list event * result unit)
    (items : dict (dict metadata_record)) : list event * result unit :=
  match items with
  | [] => ([], Ok tt)
  | item :: rest =>
      match step item with
      | (events, Ok _) =>
          let '(more, outcome) := write_loop step rest in
          ((events ++ more)%list, outcome)
      | (events, Raise e) => (events, Raise e)
      end
  end.

Definition generate_metadata_files (path_exists : string -> bool)
    (write_json : string -> result unit) (analysis : analysis_results)
    (output_dir : string) : list event * result unit :=
  write_loop (write_category path_exists write_json output_dir)
    (group_by_category analysis).

(** * Vocabulary of the statements

    Observations on the model: the names the theorems below use to say what
    a scan read, what an index holds and what the search index counts. *)

(** The match object the loop over [date_patterns] hands to [_parse_date]:
    that of the first pattern that matches. *)
Fixpoint first_date_match (patterns : list regex) (name_only : string)
    : option match_object :=
  match patterns with
  | [] => None
  | date_pattern :: rest =>
      match Re.search date_pattern name_only with
      | Some m => Some m
      | None => first_date_match rest name_only
      end
  end.

(** The canonical shape [DD-MM-YYYY]: two digits, two digits and four
    digits, with hyphens between. *)
Definition canonical_date (d : string) : bool :=
  match list_ascii_of_string d with
  | [a; b; s1; c; e; s2; y1; y2; y3; y4] =>
      forallb Py.isdecimal [a; b; c; e; y1; y2; y3; y4]
      && Ascii.eqb s1 "-" && Ascii.eqb s2 "-"
  | _ => false
  end.

Definition readable (name digest : string) : dir_file :=
  {| file_name := name; file_relpath := "letters/" ++ name; file_digest := Ok digest |}.

Definition unreadable (name : string) : dir_file :=
  {| file_name := name; file_relpath := "letters/" ++ name; file_digest := Raise OSError |}.

Definition scan (files : list dir_file) : result analysis_results :=
  analyze_directory "2024-05-01T09:00:00" "/case" [("/case/letters", files)].

Definition digest0 : string :=
  "843da78aeb0f5457cc812d3858719cd83a3d9f35ffa3579b4ea9d2b8feee5b6b".
Definition digest1 : string :=
  "89a73715766dc457f5819afefc3cb1a75a08bc530e14bd00220b463124177a04".
Definition digest2 : string :=
  "6e858fd78c642eccabe366784a5f4bf5c09fd3a7f5c53038ebfa3d82488d9628".
Definition digest3 : string :=
  "96ec17af463ed00b694a542cd76754f7f25bc5fc8c99082a9794172a4fcbd72d".
Definition digest4 : string :=
  "c03b67a3dc18892be799016906bdb1467713ba9a9f4c7787018213edf667c5c0".
Definition digest5 : string :=
  "411d5700170dd5ffc0a054fa4ea2335edd7aeb8624aa401403b59d40c33143b6".
Definition digest6 : string :=
  "82f4d3e7e2d5a199919b75d2949ceb3213ba69771388ddf7b388a35a904d56da".
Definition digest7 : string :=
  "2e04ab62e8b54c2bcd84a138de4a4a925ed4dfc032a1890e0f8cb2096c4ed252".
Definition digest8 : string :=
  "82a8ed5c4ede17f65e46c490df89812049b5a7b555f77cd51ddd42774e4f51bd".
Definition digest9 : string :=
  "e52159c40ae688332c7ed83e514ca7c2763bc7a60be0e8fba9c15be0d476abb2".

Definition ten_exhibits : list dir_file :=
  [ readable "exhibit 0.pdf" digest0; readable "exhibit 1.pdf" digest1;
    readable "exhibit 2.pdf" digest2; readable "exhibit 3.pdf" digest3;
    readable "exhibit 4.pdf" digest4; readable "exhibit 5.pdf" digest5;
    readable "exhibit 6.pdf" digest6; readable "exhibit 7.pdf" digest7;
    readable "exhibit 8.pdf" digest8; readable "exhibit 9.pdf" digest9 ].

(** The matching as the specification words it: tags, location and the
    critical-evidence check against the normalized name, lowercased. *)
Definition spec_match_name (filename : string) : string :=
  Py.lower (_normalize_filename filename).

Definition spec_tags (filename : string) : list string :=
  let name := spec_match_name filename in
  if has_critical_marker name then set_add "critical_evidence" (tag_loop name)
  else tag_loop name.

Definition spec_location (filename : string) : option string :=
  location_loop locations (spec_match_name filename).

(** The name the source matches against: the filename without its
    extension, lowercased. *)
Definition name_lower_of (filename : string) : string :=
  Py.lower (fst (OsPath.splitext filename)).

Definition pattern_step (name_lower tag : string) (tags : list string) (pattern : regex)
    : list string :=
  match Re.search pattern name_lower with
  | Some _ => set_add tag tags
  | None => tags
  end.

Definition table_step (name_lower : string) (tags : list string)
    (row : string * list regex) : list string :=
  fold_left (pattern_step name_lower (fst row)) (snd row) tags.

(** Does some pattern of the tag table match the name? *)
Definition matches_tag_pattern (name_lower : string) : bool :=
  existsb
    (fun row =>
       existsb
         (fun pattern =>
            match Re.search pattern name_lower with
            | Some _ => true
            | None => false
            end)
         (snd row))
    tag_patterns.

(** Does anything of the registry that makes a tag match the name: a pattern
    of the tag table or a critical-evidence marker? *)
Definition matches_registry (name_lower : string) : bool :=
  matches_tag_pattern name_lower || has_critical_marker name_lower.

(** The files of a walk in scan order, each with the directory it is in. *)
Definition walk_files (tree : walk) : list (string * dir_file) :=
  flat_map (fun dir => map (pair (fst dir)) (snd dir)) tree.

Definition pdf_files (tree : walk) : list (string * dir_file) :=
  filter (fun rf => is_pdf (snd rf)) (walk_files tree).

(** The document id and the metadata of every PDF file, in scan order. *)
Definition scanned_entries (tree : walk) : result (list (string * document)) :=
  mapM (fun rf => file_document (fst rf) (snd rf)) (pdf_files tree).

Definition results_of (now directory_path : string) (entries : list (string * document))
    : analysis_results :=
  fold_left record_document entries (empty_results now directory_path).

Definition tags_nodup (e : string * document) : Prop := NoDup (tags (doc_meta (snd e))).

(** A bucket of an index is never empty: a key with no document is absent. *)
Definition bucket (ids : list string) : option (list string) :=
  match ids with
  | [] => None
  | _ :: _ => Some ids
  end.

(** [index.get(key, [])] *)
Definition ids_of (key : string) (index : dict (list string)) : list string :=
  match dict_get key index with
  | Some ids => ids
  | None => []
  end.

(** Does the document of the entry carry the tag? *)
Definition carries (tag : string) (e : string * document) : bool :=
  set_mem tag (tags (doc_meta (snd e))).

(** The key under which the entry goes to the location index, if any. *)
Definition location_key (e : string * document) : option string :=
  match location (doc_meta (snd e)) with
  | Some loc => if truthy (Some loc) then Some loc else None
  | None => None
  end.

(** The key under which the entry goes to the date index, if any. *)
Definition date_key (e : string * document) : option string :=
  match extracted_date (doc_meta (snd e)) with
  | Some date => if truthy (Some date) then Some (Py.take 7 date) else None
  | None => None
  end.

Definition has_key (key : string) (k : option string) : bool :=
  match k with
  | Some k' => String.eqb key k'
  | None => false
  end.

Definition append_optional (k : option string) (doc_id : string)
    (index : dict (list string)) : dict (list string) :=
  match k with
  | Some key => index_append key doc_id index
  | None => index
  end.

(** [index['tags'][category][tag]] for the category of the tag. *)
Definition lookup_tag (tree : dict (dict tag_entry)) (tag : string) : option tag_entry :=
  match dict_get (_get_tag_category tag) tree with
  | Some inner => dict_get tag inner
  | None => None
  end.

(** The tag index has documents for the tag. *)
Definition has_documents (tag : string) (r : analysis_results) : Prop :=
  exists id ids, dict_get tag (tag_index r) = Some (id :: ids).

Definition plain_space_only (c : ascii) : bool := negb (Py.isspace c) || Ascii.eqb c " ".

Definition no_separator (c : ascii) : bool := negb (one_of "_-." c).

(** The tags the classifier knows: the keys of [tag_patterns] and the
    synthetic tag. *)
Definition tag_vocabulary : list string :=
  ["housing_denial"; "section_202"; "homelessness"; "mental_health"; "ellingham";
   "child_protection"; "sar_denial"; "discrimination"; "compensation"; "entrapment";
   "negligence"; "critical_evidence"].

(** The categories of [category_mapping]. *)
Definition categories : list string :=
  ["housing"; "mental_health"; "legal"; "system_failure"; "evidence"].

(** An entry of a scan: the id is cut from the hash of the document. *)
Definition id_of_hash (e : string * document) : Prop :=
  fst e = Py.take 12 (file_hash (snd e)).

(** One report line per name. *)
Fixpoint bullet_lines (names : list string) : string :=
  match names with
  | [] => ""
  | name :: rest => "- " ++ name ++ nl ++ bullet_lines rest
  end.

(** The filenames of the documents of the mapping that carry
    [critical_evidence], in the order of the mapping. *)
Definition critical_filenames (docs : dict document) : list string :=
  map critical_filename (critical_entries docs).

Definition remainder_line (total : Z) : string :=
  "  ... and " ++ Py.str_of_int (total - 10) ++ " more" ++ nl.

(** The pairs of tag and count the report sorts. *)
Definition tag_counts (results : analysis_results) : list (string * Z) :=
  map (fun '(tag, docs) => (tag, count_of docs)) (tag_index results).

(** The line of the report for a tag and its count. *)
Definition tag_line (item : string * Z) : string :=
  "- **" ++ fst item ++ "** (" ++ _get_tag_category (fst item) ++ "): "
  ++ Py.str_of_int (snd item) ++ " documents" ++ nl.

(** Comes before, in the report: the count is not smaller. *)
Definition count_ge (x y : string * Z) : Prop := (snd y <= snd x)%Z.

Definition has_count (c : Z) (x : string * Z) : bool := (snd x =? c)%Z.

(** Every inner dictionary of the hierarchy has a tag, and every tag in it
    belongs to the category it stands under and satisfies [P]. *)
Definition well_categorized (P : string -> Prop) (tree : dict (dict tag_entry)) : Prop :=
  forall cat_name inner,
    In (cat_name, inner) tree ->
    inner <> []
    /\ forall tag entry,
        In (tag, entry) inner -> _get_tag_category tag = cat_name /\ P tag.

(** The summary of a document of the mapping, as [create_searchable_index]
    makes it. *)
Definition summary_of (docs : dict document) (s : doc_summary) : Prop :=
  exists doc,
    dict_get (summary_id s) docs = Some doc
    /\ summary_filename s = original_filename (doc_meta doc)
    /\ summary_path s = relative_path doc
    /\ summary_date s = extracted_date (doc_meta doc)
    /\ summary_location s = location (doc_meta doc).

(** The record [generate_metadata_files] makes of a document. *)
Definition record_of (item : string * document) : metadata_record :=
  {| record_doc_id := fst item;
     record_tags := tags (doc_meta (snd item));
     record_date := extracted_date (doc_meta (snd item));
     record_location := location (doc_meta (snd item));
     record_hash := file_hash (snd item) |}.

(** [documents_by_category[category][filename]], if both keys are there. *)
Definition lookup_record (by_category : dict (dict metadata_record))
    (cat_name filename : string) : option metadata_record :=
  match dict_get cat_name by_category with
  | Some inner => dict_get filename inner
  | None => None
  end.

(** The document is of this category and has this filename. *)
Definition filed_as (cat_name filename : string) (item : string * document) : bool :=
  String.eqb cat_name (category (snd item))
  && String.eqb filename (original_filename (doc_meta (snd item))).

(** A result with one document, in the directory [letters]. *)
Definition one_letter : analysis_results :=
  record_document (empty_results "2024-05-01T09:00:00" "/case")
    ("843da78aeb0f",
     {| doc_meta := {| original_filename := "damages.pdf";
                       normalized_name := "damages";
                       tags := ["compensation"];
                       extracted_date := None;
                       location := None |};
        relative_path := "letters/damages.pdf";
        category := "letters";
        file_hash := digest0 |}).

(** The texts a pattern can consume, whatever stands around them. *)
Fixpoint lang (r : regex) (text : string) : Prop :=
  match r with
  | Eps | Bnd => text = ""
  | Chr c => text = String c ""
  | Cls p => exists a, text = String a "" /\ p a = true
  | Cat r1 r2 => exists t1 t2, text = t1 ++ t2 /\ lang r1 t1 /\ lang r2 t2
  | Alt r1 r2 => lang r1 text \/ lang r2 text
  | Opt r1 => text = "" \/ lang r1 text
  | Rep p lo hi =>
      Py.all_str p text = true
      /\ lo <= String.length text
      /\ forall h, hi = Some h -> String.length text <= h
  | Grp _ r1 => lang r1 text
  end.

(** The groups every match of the pattern binds. *)
Fixpoint binds (r : regex) : list nat :=
  match r with
  | Cat r1 r2 => (binds r1 ++ binds r2)%list
  | Grp i r1 => i :: binds r1
  | _ => []
  end.

(** Group [i] of the pattern captures texts with [G i] only. *)
Fixpoint respects (G : nat -> string -> Prop) (r : regex) : Prop :=
  match r with
  | Cat r1 r2 | Alt r1 r2 => respects G r1 /\ respects G r2
  | Opt r1 => respects G r1
  | Grp i r1 => (forall text, lang r1 text -> G i text) /\ respects G r1
  | _ => True
  end.

(** Every capture has the property of its group. *)
Definition captures_in (G : nat -> string -> Prop) (cs : captures) : Prop :=
  forall i text, In (i, text) cs -> G i text.

(** A text of decimal digits, at least [lo] and at most [hi] of them. *)
Definition decimal_text (lo hi : nat) (text : string) : Prop :=
  Py.all_str Py.isdecimal text = true /\ lo <= String.length text <= hi.

(** What the groups of the four date patterns have in common: the third
    group, which [_parse_date] reads as the year, is made of decimal
    digits. *)
Definition date_groups (i : nat) (text : string) : Prop :=
  i = 3 -> Py.all_str Py.isdecimal text = true.

(** The groups of the first date pattern, day first. *)
Definition day_first_groups (i : nat) (text : string) : Prop :=
  (i = 1 -> decimal_text 1 2 text)
  /\ (i = 2 -> decimal_text 1 2 text)
  /\ (i = 3 -> decimal_text 2 4 text).

(** How a successful run ends: it consumed a prefix of the subject that is a
    text of the pattern, kept the captures in their properties, bound the
    groups of the pattern, and the continuation gave the result. *)
Definition run_ends (G : nat -> string -> Prop) (r : regex) (s : string) (cs : captures)
    (k : cont) (res : captures) : Prop :=
  exists text prev' s' cs',
    s = text ++ s'
    /\ lang r text
    /\ captures_in G cs'
    /\ (forall i, In i (binds r) \/ Re.lookup i cs <> None -> Re.lookup i cs' <> None)
    /\ k prev' s' cs' = Some res.

(** The first of the date patterns, day first. *)
Definition day_first_pattern : regex := nth 0 date_patterns Eps.

(** Not after, in the order of the code points. *)
Definition str_le (a b : string) : Prop := String.leb a b = true.

(** * Properties *)

(** ** Dictionaries *)

Section DictFacts.

Context {V : Type}.
Implicit Types (d : dict V) (k : string) (v : V).

Lemma dict_get_set_same k v d : dict_get k (dict_set k v d) = Some v.
Proof.
  induction d as [|[k' v'] d IH]; simpl.
  - now rewrite String.eqb_refl.
  - destruct (String.eqb k k') eqn:E; simpl.
    + now rewrite String.eqb_refl.
    + now rewrite E.
Qed.

Lemma dict_get_set_other k k' v d :
  k' <> k -> dict_get k' (dict_set k v d) = dict_get k' d.
Proof.
  intros Hne. induction d as [|[k0 v0] d IH]; simpl.
  - apply String.eqb_neq in Hne. now rewrite Hne.
  - destruct (String.eqb k k0) eqn:E; simpl.
    + apply String.eqb_eq in E. subst k0.
      apply String.eqb_neq in Hne. now rewrite Hne.
    + now rewrite IH.
Qed.

Lemma dict_get_In k v d : dict_get k d = Some v -> In (k, v) d.
Proof.
  induction d as [|[k' v'] d IH]; simpl; [discriminate|].
  destruct (String.eqb k k') eqn:E.
  - apply String.eqb_eq in E. intros [= ->]. left. now subst.
  - intros H. right. now apply IH.
Qed.

Lemma In_dict_mem k v d : In (k, v) d -> dict_mem k d = true.
Proof.
  unfold dict_mem. induction d as [|[k' v'] d IH]; simpl; [tauto|].
  intros [[= -> ->]|H].
  - now rewrite String.eqb_refl.
  - destruct (String.eqb k k'); [reflexivity|]. now apply IH.
Qed.

Lemma dict_set_In k v d k' v' :
  In (k', v') (dict_set k v d) -> (k' = k /\ v' = v) \/ In (k', v') d.
Proof.
  induction d as [|[k0 v0] d IH]; simpl.
  - intros [[= <- <-]|[]]. now left.
  - destruct (String.eqb k k0); simpl.
    + intros [[= <- <-]|H]; [now left | right; now right].
    + intros [H|H]; [right; now left|].
      destruct (IH H) as [?|?]; [now left | right; now right].
Qed.

Lemma dict_mem_set_same k v d : dict_mem k (dict_set k v d) = true.
Proof. unfold dict_mem. now rewrite dict_get_set_same. Qed.

Lemma dict_mem_set_mono k k' v d :
  dict_mem k' d = true -> dict_mem k' (dict_set k v d) = true.
Proof.
  destruct (String.eqb_spec k' k) as [->|Hne].
  - intros _. apply dict_mem_set_same.
  - unfold dict_mem. now rewrite dict_get_set_other.
Qed.

Lemma dict_keys_set k v d :
  dict_keys (dict_set k v d)
  = if dict_mem k d then dict_keys d else (dict_keys d ++ [k])%list.
Proof.
  unfold dict_mem, dict_keys. induction d as [|[k0 v0] d IH]; simpl; [reflexivity|].
  destruct (String.eqb_spec k k0) as [->|Hne]; simpl; [reflexivity|].
  rewrite IH. now destruct (dict_get k d).
Qed.

Lemma dict_get_None_keys k d : dict_get k d = None -> ~ In k (dict_keys d).
Proof.
  unfold dict_keys. induction d as [|[k0 v0] d IH]; simpl; [tauto|].
  destruct (String.eqb_spec k k0) as [->|Hne]; [discriminate|].
  intros H [E|HIn]; [now subst | now apply IH].
Qed.

Lemma dict_keys_set_NoDup k v d :
  NoDup (dict_keys d) -> NoDup (dict_keys (dict_set k v d)).
Proof.
  intros Hnd. rewrite dict_keys_set. unfold dict_mem.
  destruct (dict_get k d) eqn:E; [assumption|].
  apply NoDup_app; repeat split; try assumption.
  - constructor; [tauto | constructor].
  - intros x Hx [<-|[]]. now apply (dict_get_None_keys _ _ E).
Qed.

End DictFacts.

(** ** The monad *)

Lemma foldM_ok {A B : Type} (f : A -> B -> result A) (g : A -> B -> A) (l : list B) :
  (forall a b, In b l -> f a b = Ok (g a b)) ->
  forall a, foldM f l a = Ok (fold_left g l a).
Proof.
  induction l as [|b l IH]; simpl; intros Hf a; [reflexivity|].
  rewrite Hf by now left. simpl. apply IH. intros; apply Hf; now right.
Qed.

Lemma mapM_ok {A B : Type} (f : A -> result B) (g : A -> B) (l : list A) :
  (forall a, In a l -> f a = Ok (g a)) -> mapM f l = Ok (map g l).
Proof.
  induction l as [|a l IH]; simpl; intros Hf; [reflexivity|].
  rewrite Hf by now left. simpl. rewrite IH; [reflexivity|].
  intros; apply Hf; now right.
Qed.

(** ** The classifier returns *)

Lemma _parse_date_returns groups : exists d, _parse_date groups = Ok d.
Proof.
  unfold _parse_date, try_except.
  destruct (_parse_date_try groups); eauto.
Qed.

Lemma date_loop_returns patterns name_only :
  exists d, date_loop patterns name_only = Ok d.
Proof.
  induction patterns as [|p ps IH]; simpl; [eauto|].
  destruct (Re.search p name_only); [apply _parse_date_returns | exact IH].
Qed.

Lemma extract_from_filename_returns filename :
  exists md, extract_from_filename filename = Ok md.
Proof.
  unfold extract_from_filename.
  destruct (date_loop_returns date_patterns (fst (OsPath.splitext filename))) as [d ->].
  simpl. eauto.
Qed.

(** ** Dates *)

Lemma date_loop_first_match patterns name_only :
  date_loop patterns name_only
  = match first_date_match patterns name_only with
    | Some m => _parse_date m
    | None => Ok None
    end.
Proof.
  induction patterns as [|p ps IH]; simpl; [reflexivity|].
  now destruct (Re.search p name_only).
Qed.

Lemma extract_from_filename_date filename d :
  date_loop date_patterns (fst (OsPath.splitext filename)) = Ok d ->
  exists md, extract_from_filename filename = Ok md /\ extracted_date md = d.
Proof.
  intros H. unfold extract_from_filename. rewrite H. simpl. eauto.
Qed.

(** C6.  The classifier never raises: [extract_from_filename] returns a
    metadata record for every filename.  When the first date pattern that
    matches hands [_parse_date] a match whose [try] block raises, whatever
    the exception, the extracted date is [None] and nothing is signalled;
    so it is when no date pattern matches.  The [try] block does raise, for
    instance on a year group that is no number.  A filename with nothing to
    find, the empty one, comes back with no tag, no date and no location. *)
Theorem classifier_never_raises (filename : string) :
  (exists md,
      extract_from_filename filename = Ok md
      /\ (forall m e,
            first_date_match date_patterns (fst (OsPath.splitext filename)) = Some m ->
            _parse_date_try m = Raise e ->
            extracted_date md = None)
      /\ (first_date_match date_patterns (fst (OsPath.splitext filename)) = None ->
          extracted_date md = None))
  /\ (forall groups e, _parse_date_try groups = Raise e -> _parse_date groups = Ok None)
  /\ _parse_date_try [Some "15"; Some "03"; Some "ab"] = Raise ValueError
  /\ _parse_date [Some "15"; Some "03"; Some "ab"] = Ok None
  /\ extract_from_filename ""
     = Ok {| original_filename := ""; normalized_name := ""; tags := [];
             extracted_date := None; location := None |}.
Proof.
  assert (Hexcept : forall groups e,
             _parse_date_try groups = Raise e -> _parse_date groups = Ok None).
  { intros groups e H. unfold _parse_date. now rewrite H. }
  split; [|split; [exact Hexcept | repeat split; vm_compute; reflexivity]].
  destruct (date_loop_returns date_patterns (fst (OsPath.splitext filename))) as [d Hd].
  destruct (extract_from_filename_date filename d Hd) as (md & Hmd & Hdate).
  exists md. split; [exact Hmd|].
  rewrite date_loop_first_match in Hd. split.
  - intros m e Hm Hraise. rewrite Hm, (Hexcept m e Hraise) in Hd. congruence.
  - intros Hnone. rewrite Hnone in Hd. congruence.
Qed.

Lemma decimal_char_plain c :
  Py.isdecimal c = true ->
  Py.int_space c = false /\ Ascii.eqb c "-" = false /\ Ascii.eqb c "+" = false.
Proof.
  destruct c as [[] [] [] [] [] [] [] []]; vm_compute; intuition congruence.
Qed.

Lemma int_two_digits d1 d2 :
  Py.isdecimal d1 = true -> Py.isdecimal d2 = true ->
  Py.int (String d1 (String d2 ""))
  = Ok (10 * Py.digit_value d1 + Py.digit_value d2)%Z.
Proof.
  intros H1 H2.
  destruct (decimal_char_plain d1 H1) as (S1 & M1 & P1).
  destruct (decimal_char_plain d2 H2) as (S2 & _ & _).
  unfold Py.int. cbn [Py.lstrip_by]. rewrite S1.
  cbn [Py.rstrip_by]. rewrite S2. rewrite M1, P1.
  cbn [Py.int_digits]. rewrite H1, H2. f_equal; lia.
Qed.

Lemma expand_year_two_digits d1 d2 :
  Py.isdecimal d1 = true -> Py.isdecimal d2 = true ->
  let year := String d1 (String d2 "") in
  expand_year (Some year)
  = Ok ((if (50 <=? 10 * Py.digit_value d1 + Py.digit_value d2)%Z then "19" else "20")
        ++ year).
Proof.
  intros H1 H2 year. unfold expand_year, year.
  cbn [String.length Nat.eqb]. rewrite (int_two_digits d1 d2 H1 H2).
  unfold bind. set (v := (10 * Py.digit_value d1 + Py.digit_value d2)%Z).
  destruct (Z.ltb_spec v 50); destruct (Z.leb_spec 50 v); try lia; reflexivity.
Qed.

(** C8.  A year group of two digits is mapped to 19xx when its value is at
    least 50 and to 20xx otherwise, in the all-digit branch and in the
    month-name branch of [_parse_date] alike, and so in the date
    [extract_from_filename] returns when the first matching pattern captured
    such a year; the year 99 yields 1999 and the year 05 yields 2005. *)
Theorem two_digit_year_rule (day g1 : string) (d1 d2 : ascii) :
  Py.isdecimal d1 = true ->
  Py.isdecimal d2 = true ->
  let year := String d1 (String d2 "") in
  let century :=
    if (50 <=? 10 * Py.digit_value d1 + Py.digit_value d2)%Z then "19" else "20" in
  (exists month,
      _parse_date [Some day; Some g1; Some year]
      = Ok (Some (Py.zfill 2 day ++ "-" ++ month ++ "-" ++ century ++ year))
      /\ forall filename,
          first_date_match date_patterns (fst (OsPath.splitext filename))
          = Some [Some day; Some g1; Some year] ->
          exists md, extract_from_filename filename = Ok md
                     /\ extracted_date md
                        = Some (Py.zfill 2 day ++ "-" ++ month ++ "-" ++ century ++ year))
  /\ (exists md, extract_from_filename "hearing 15-03-99.pdf" = Ok md
                 /\ extracted_date md = Some "15-03-1999")
  /\ (exists md, extract_from_filename "hearing 15-03-05.pdf" = Ok md
                 /\ extracted_date md = Some "15-03-2005").
Proof.
  intros H1 H2 year century.
  assert (Hparse : exists month,
             _parse_date [Some day; Some g1; Some year]
             = Ok (Some (Py.zfill 2 day ++ "-" ++ month ++ "-" ++ century ++ year))).
  { unfold _parse_date, _parse_date_try. simpl str_attr. simpl bind.
    pose proof (expand_year_two_digits d1 d2 H1 H2) as Hy. simpl in Hy.
    fold year in Hy. fold century in Hy.
    destruct (Py.isdigit g1); rewrite Hy; simpl; eauto. }
  destruct Hparse as [month Hparse].
  split; [exists month; split; [exact Hparse|] |].
  - intros filename Hm. apply extract_from_filename_date.
    rewrite date_loop_first_match, Hm. exact Hparse.
  - split; eexists; (split; [vm_compute; reflexivity | reflexivity]).
Qed.

Lemma two_digit_year_rule_witness :
  Py.isdecimal "9" = true
  /\ exists month,
       _parse_date [Some "7"; Some "Mar"; Some "99"]
       = Ok (Some ("07-" ++ month ++ "-1999")).
Proof.
  split; [reflexivity|].
  destruct (two_digit_year_rule "7" "Mar" "9" "9" eq_refl eq_refl)
    as [[month [Hparse _]] _].
  exists month. exact Hparse.
Defined.

(** C2.  The date extracted from [Report-2021-03-15.pdf] is not of the shape
    DD-MM-YYYY: the first pattern does not match, the second (year first)
    does, and [_parse_date] reads its groups as day, month and year, which
    gives [2021-03-2015].  The fourth pattern (month name first) ends in the
    same branch and gives [January-15-2021].  A day-first name comes out
    canonical. *)
Theorem year_first_date_not_canonical :
  (exists md, extract_from_filename "Report-2021-03-15.pdf" = Ok md
              /\ extracted_date md = Some "2021-03-2015"
              /\ canonical_date "2021-03-2015" = false)
  /\ (exists md, extract_from_filename "January 15, 2021 letter.pdf" = Ok md
                 /\ extracted_date md = Some "January-15-2021"
                 /\ canonical_date "January-15-2021" = false)
  /\ (exists md, extract_from_filename "Report-15-03-2021.pdf" = Ok md
                 /\ extracted_date md = Some "15-03-2021"
                 /\ canonical_date "15-03-2021" = true).
Proof.
  repeat split; eexists; (split; [vm_compute; reflexivity | split; reflexivity]).
Qed.

(** ** Scans of small directories *)

(** C3.  The key of the date index is the first seven characters of a date
    written day first, so it holds the day, the month and one digit of the
    year: two letters of March 2021 land in two buckets, and two letters of
    the fifteenth of March of 2021 and of 2022 land in one. *)
Theorem date_key_is_not_year_month :
  (exists r, scan [readable "Letter-15-03-2021.pdf" digest0;
                   readable "Letter-16-03-2021.pdf" digest1] = Ok r
             /\ date_index r
                = [("15-03-2", ["843da78aeb0f"]); ("16-03-2", ["89a73715766d"])])
  /\ (exists r, scan [readable "Letter-15-03-2021.pdf" digest0;
                      readable "Letter-15-03-2022.pdf" digest1] = Ok r
                /\ date_index r = [("15-03-2", ["843da78aeb0f"; "89a73715766d"])]).
Proof.
  split; eexists; (split; [vm_compute; reflexivity | reflexivity]).
Qed.

(** C9.  With exactly ten critical documents, all of them listed, the report
    still ends in a remainder line, which counts zero documents. *)
Theorem ten_critical_documents_remainder_line :
  exists r, scan ten_exhibits = Ok r
            /\ List.length (critical_entries (documents r)) = 10
            /\ critical_documents (statistics r) = 10%Z
            /\ critical_section r
               = "- exhibit 0.pdf" ++ nl ++ "- exhibit 1.pdf" ++ nl
                 ++ "- exhibit 2.pdf" ++ nl ++ "- exhibit 3.pdf" ++ nl
                 ++ "- exhibit 4.pdf" ++ nl ++ "- exhibit 5.pdf" ++ nl
                 ++ "- exhibit 6.pdf" ++ nl ++ "- exhibit 7.pdf" ++ nl
                 ++ "- exhibit 8.pdf" ++ nl ++ "- exhibit 9.pdf" ++ nl
                 ++ "  ... and 0 more" ++ nl
            /\ Py.endswith ("- exhibit 9.pdf" ++ nl ++ "  ... and 0 more" ++ nl)
                 (generate_report r) = true.
Proof.
  eexists. split; [vm_compute; reflexivity|].
  repeat split; vm_compute; reflexivity.
Qed.

(** ** What the matching reads *)

Lemma set_mem_In x s : set_mem x s = true <-> In x s.
Proof.
  unfold set_mem. rewrite existsb_exists. split.
  - intros [y [Hy E]]. apply String.eqb_eq in E. now subst.
  - intros H. exists x. split; [assumption | apply String.eqb_refl].
Qed.

Lemma set_add_In x s t : In t (set_add x s) <-> t = x \/ In t s.
Proof.
  unfold set_add. fold (set_mem x s).
  destruct (set_mem x s) eqn:E.
  - apply set_mem_In in E. split; [tauto|]. intros [->|H]; assumption.
  - rewrite in_app_iff. simpl. split.
    + intros [H|[H|[]]]; [now right | now left].
    + intros [H|H]; [right; left; now symmetry | now left].
Qed.

Lemma set_add_NoDup x s : NoDup s -> NoDup (set_add x s).
Proof.
  intros Hs. unfold set_add. fold (set_mem x s).
  destruct (set_mem x s) eqn:E; [assumption|].
  apply NoDup_app; repeat split; try assumption.
  - constructor; [tauto | constructor].
  - intros y Hy [<-|[]]. apply set_mem_In in Hy. congruence.
Qed.

Lemma pattern_loop_In name_lower tag patterns acc t :
  In t (fold_left (pattern_step name_lower tag) patterns acc)
  <-> In t acc
      \/ (t = tag /\ exists p, In p patterns /\ Re.search p name_lower <> None).
Proof.
  revert acc. induction patterns as [|p ps IH]; intros acc; simpl.
  - split; [tauto|]. intros [H|[_ [p [[] _]]]]. assumption.
  - rewrite IH. unfold pattern_step.
    destruct (Re.search p name_lower) eqn:E.
    + rewrite set_add_In. split.
      * intros [[->|H]|[-> [q [Hq Hm]]]]; [right | now left | right].
        -- split; [reflexivity|]. exists p. split; [now left | congruence].
        -- split; [reflexivity|]. exists q. split; [now right | assumption].
      * intros [H|[-> [q [[<-|Hq] Hm]]]]; [left; now right | left; now left |].
        right. split; [reflexivity|]. now exists q.
    + split.
      * intros [H|[-> [q [Hq Hm]]]]; [now left|].
        right. split; [reflexivity|]. exists q. split; [now right | assumption].
      * intros [H|[-> [q [[<-|Hq] Hm]]]]; [now left | congruence |].
        right. split; [reflexivity|]. now exists q.
Qed.

Lemma pattern_loop_NoDup name_lower tag patterns acc :
  NoDup acc -> NoDup (fold_left (pattern_step name_lower tag) patterns acc).
Proof.
  revert acc. induction patterns as [|p ps IH]; intros acc H; simpl; [assumption|].
  apply IH. unfold pattern_step. destruct (Re.search p name_lower); [|assumption].
  now apply set_add_NoDup.
Qed.

Lemma fold_left_pointwise {A B : Type} (f g : A -> B -> A) (l : list B) :
  (forall a b, f a b = g a b) -> forall a, fold_left f l a = fold_left g l a.
Proof.
  intros H. induction l as [|b l IH]; intros a; simpl; [reflexivity|].
  now rewrite H, IH.
Qed.

Lemma tag_loop_unfold name_lower :
  tag_loop name_lower = fold_left (table_step name_lower) tag_patterns [].
Proof.
  unfold tag_loop. apply fold_left_pointwise. now intros a [tag patterns].
Qed.

Lemma table_loop_In name_lower table acc t :
  In t (fold_left (table_step name_lower) table acc)
  <-> In t acc
      \/ exists patterns p,
           In (t, patterns) table /\ In p patterns /\ Re.search p name_lower <> None.
Proof.
  revert acc. induction table as [|[tag ps] table IH]; intros acc; simpl.
  - split; [tauto|]. intros [H|(? & ? & [] & _)]. assumption.
  - rewrite IH. unfold table_step. simpl fst. simpl snd. rewrite pattern_loop_In. split.
    + intros [[H|[-> (p & Hp & Hm)]]|(ps' & p & Hin & Hp & Hm)].
      * now left.
      * right. exists ps, p. auto.
      * right. exists ps', p. auto.
    + intros [H|(ps' & p & [[= <- <-]|Hin] & Hp & Hm)].
      * left. now left.
      * left. right. split; [reflexivity|]. now exists p.
      * right. now exists ps', p.
Qed.

Lemma table_loop_NoDup name_lower table acc :
  NoDup acc -> NoDup (fold_left (table_step name_lower) table acc).
Proof.
  revert acc. induction table as [|row table IH]; intros acc H; simpl; [assumption|].
  apply IH. now apply pattern_loop_NoDup.
Qed.

Lemma has_critical_marker_spec name_lower :
  has_critical_marker name_lower = true
  <-> exists marker, In marker critical_markers /\ Py.contains marker name_lower = true.
Proof.
  unfold has_critical_marker. apply existsb_exists.
Qed.

(** The tags [extract_from_filename] computes, as a function of the name it
    matches against. *)
Lemma extract_from_filename_fields filename :
  exists md,
    extract_from_filename filename = Ok md
    /\ original_filename md = filename
    /\ normalized_name md = _normalize_filename filename
    /\ tags md
       = (if has_critical_marker (name_lower_of filename)
          then set_add "critical_evidence" (tag_loop (name_lower_of filename))
          else tag_loop (name_lower_of filename))
    /\ location md = location_loop locations (name_lower_of filename).
Proof.
  unfold extract_from_filename, name_lower_of.
  destruct (date_loop_returns date_patterns (fst (OsPath.splitext filename))) as [d ->].
  simpl. eexists. repeat split.
Qed.

Lemma tags_NoDup filename md :
  extract_from_filename filename = Ok md -> NoDup (tags md).
Proof.
  intros H. destruct (extract_from_filename_fields filename) as (md' & H' & _ & _ & Ht & _).
  rewrite H in H'. injection H' as <-. rewrite Ht.
  assert (NoDup (tag_loop (name_lower_of filename))).
  { rewrite tag_loop_unfold. apply table_loop_NoDup. constructor. }
  destruct (has_critical_marker _); [now apply set_add_NoDup | assumption].
Qed.

Lemma location_loop_find locs name_lower :
  location_loop locs name_lower
  = option_map fst
      (find (fun row => existsb (fun keyword => Py.contains keyword name_lower) (snd row))
         locs).
Proof.
  induction locs as [|[loc keywords] locs IH]; simpl; [reflexivity|].
  now destruct (existsb _ keywords).
Qed.

(** C1, as the code has it.  Tags, location and the critical-evidence check
    are matched against the filename without its extension, lowercased; the
    separators stay and white space is not collapsed.  The normalized name is
    computed and stored, and nothing is matched against it. *)
Theorem matching_reads_lowercased_stem (filename : string) :
  exists md,
    extract_from_filename filename = Ok md
    /\ normalized_name md = _normalize_filename filename
    /\ (forall tag,
          In tag (tags md)
          <-> (exists patterns pattern,
                  In (tag, patterns) tag_patterns
                  /\ In pattern patterns
                  /\ Re.search pattern (name_lower_of filename) <> None)
              \/ (tag = "critical_evidence"
                  /\ exists marker,
                       In marker critical_markers
                       /\ Py.contains marker (name_lower_of filename) = true))
    /\ location md
       = option_map fst
           (find (fun row =>
                    existsb (fun keyword => Py.contains keyword (name_lower_of filename))
                      (snd row))
              locations).
Proof.
  destruct (extract_from_filename_fields filename) as (md & H & _ & Hn & Ht & Hl).
  exists md. repeat split; try assumption.
  - rewrite Ht. intros Hin.
    destruct (has_critical_marker (name_lower_of filename)) eqn:E.
    + apply set_add_In in Hin. destruct Hin as [->|Hin].
      * right. split; [reflexivity|]. now apply has_critical_marker_spec.
      * left. rewrite tag_loop_unfold in Hin. apply table_loop_In in Hin.
        destruct Hin as [[]|Hin]. exact Hin.
    + left. rewrite tag_loop_unfold in Hin. apply table_loop_In in Hin.
      destruct Hin as [[]|Hin]. exact Hin.
  - rewrite Ht. intros [Hin|[-> Hm]].
    + assert (In tag (tag_loop (name_lower_of filename))).
      { rewrite tag_loop_unfold. apply table_loop_In. now right. }
      destruct (has_critical_marker _); [apply set_add_In; now right | assumption].
    + apply has_critical_marker_spec in Hm. rewrite Hm. apply set_add_In. now left.
  - rewrite Hl. apply location_loop_find.
Qed.

(** C1, as the specification has it, fails on [mental_health.pdf]: matched
    against the normalized name [mental health] the file would carry the tag
    [mental_health]; the code matches [mental_health], where the underscore
    is no white space, and finds no tag. *)
Lemma mental_health_underscore_untagged :
  exists md,
    extract_from_filename "mental_health.pdf" = Ok md
    /\ normalized_name md = "mental health"
    /\ name_lower_of "mental_health.pdf" = "mental_health"
    /\ tags md = []
    /\ spec_tags "mental_health.pdf" = ["mental_health"].
Proof.
  eexists. split; [vm_compute; reflexivity|]. repeat split.
Qed.

(** ** One file through the scanner *)

Lemma tag_loop_empty name_lower :
  matches_tag_pattern name_lower = false -> tag_loop name_lower = [].
Proof.
  intros H. destruct (tag_loop name_lower) as [|t ts] eqn:E; [reflexivity|].
  assert (Hin : In t (tag_loop name_lower)) by (rewrite E; now left).
  rewrite tag_loop_unfold in Hin. apply table_loop_In in Hin.
  destruct Hin as [[]|(ps & p & Hrow & Hp & Hm)].
  assert (matches_tag_pattern name_lower = true); [|congruence].
  unfold matches_tag_pattern. apply existsb_exists. exists (t, ps). split; [assumption|].
  apply existsb_exists. exists p. split; [assumption|].
  now destruct (Re.search p name_lower).
Qed.

Lemma file_document_returns root file :
  exists md,
    extract_from_filename (file_name file) = Ok md
    /\ exists hash,
        file_document root file
        = Ok (Py.take 12 hash,
              {| doc_meta := md; relative_path := file_relpath file;
                 category := OsPath.basename root; file_hash := hash |}).
Proof.
  destruct (extract_from_filename_returns (file_name file)) as [md Hmd].
  exists md. split; [assumption|].
  unfold file_document. rewrite Hmd. simpl.
  unfold _calculate_file_hash, try_except.
  destruct (file_digest file) as [h|e]; [exists h | exists "hash_error"]; reflexivity.
Qed.

(** C7.  A scanned [.pdf] file whose name matches nothing of the registry
    that makes a tag (no pattern of the tag table, no critical-evidence
    marker) gets the empty tag set; the scanner counts it in
    [total_documents] and leaves [tagged_documents] as it was. *)
Theorem unmatched_file_counted_untagged
    (root : string) (results : analysis_results) (file : dir_file) :
  is_pdf file = true ->
  matches_registry (name_lower_of (file_name file)) = false ->
  exists md results',
    extract_from_filename (file_name file) = Ok md
    /\ tags md = []
    /\ scan_file root results file = Ok results'
    /\ total_documents (statistics results')
       = (total_documents (statistics results) + 1)%Z
    /\ tagged_documents (statistics results') = tagged_documents (statistics results).
Proof.
  intros Hpdf Hreg. apply orb_false_iff in Hreg. destruct Hreg as [Htag Hcrit].
  destruct (file_document_returns root file) as (md & Hmd & hash & Hdoc).
  destruct (extract_from_filename_fields (file_name file)) as (md' & Hmd' & _ & _ & Ht & _).
  rewrite Hmd in Hmd'. injection Hmd' as <-.
  rewrite Hcrit, (tag_loop_empty _ Htag) in Ht.
  exists md. eexists. split; [exact Hmd|]. split; [exact Ht|].
  unfold scan_file. rewrite Hpdf, Hdoc. simpl bind. split; [reflexivity|].
  unfold record_document. simpl. rewrite Ht. simpl. split; reflexivity.
Qed.

Lemma unmatched_file_counted_untagged_witness :
  is_pdf (readable "notes.pdf" digest0) = true
  /\ matches_registry (name_lower_of "notes.pdf") = false
  /\ exists md results',
       extract_from_filename "notes.pdf" = Ok md
       /\ tags md = []
       /\ scan_file "/case/letters" (empty_results "2024-05-01T09:00:00" "/case")
            (readable "notes.pdf" digest0) = Ok results'
       /\ total_documents (statistics results') = 1%Z
       /\ tagged_documents (statistics results') = 0%Z.
Proof.
  split; [reflexivity|]. split; [reflexivity|].
  exact (unmatched_file_counted_untagged "/case/letters"
           (empty_results "2024-05-01T09:00:00" "/case")
           (readable "notes.pdf" digest0) eq_refl eq_refl).
Defined.

(** A critical-evidence marker alone makes a tag: [verdict.pdf] matches no
    pattern of the tag table and is counted as tagged. *)
Lemma marker_only_file_is_tagged :
  matches_tag_pattern (name_lower_of "verdict.pdf") = false
  /\ exists r, scan [readable "verdict.pdf" digest0] = Ok r
               /\ tag_index r = [("critical_evidence", ["843da78aeb0f"])]
               /\ tagged_documents (statistics r) = 1%Z.
Proof.
  split; [reflexivity|]. eexists. split; [vm_compute; reflexivity|]. split; reflexivity.
Qed.

(** ** The scan as a fold over the documents of the PDF files *)

Lemma mapM_app {A B : Type} (f : A -> result B) l1 l2 e1 e2 :
  mapM f l1 = Ok e1 -> mapM f l2 = Ok e2 -> mapM f (l1 ++ l2)%list = Ok (e1 ++ e2)%list.
Proof.
  revert e1. induction l1 as [|a l1 IH]; simpl; intros e1 H1 H2.
  - injection H1 as <-. exact H2.
  - destruct (f a) as [b|]; simpl in *; [|discriminate].
    destruct (mapM f l1) as [bs|]; simpl in *; [|discriminate].
    injection H1 as <-. now rewrite (IH bs eq_refl H2).
Qed.

Lemma mapM_Forall {A B : Type} (f : A -> result B) (P : B -> Prop) l bs :
  (forall a b, f a = Ok b -> P b) -> mapM f l = Ok bs -> Forall P bs.
Proof.
  intros Hf. revert bs. induction l as [|a l IH]; simpl; intros bs H.
  - injection H as <-. constructor.
  - destruct (f a) as [b|] eqn:E; simpl in H; [|discriminate].
    destruct (mapM f l) as [bs'|]; simpl in H; [|discriminate].
    injection H as <-. constructor; [now apply (Hf a) | now apply IH].
Qed.

Lemma mapM_returns {A B : Type} (f : A -> result B) l :
  (forall a, In a l -> exists b, f a = Ok b) -> exists bs, mapM f l = Ok bs.
Proof.
  induction l as [|a l IH]; simpl; intros Hf; [eauto|].
  destruct (Hf a (or_introl eq_refl)) as [b ->].
  destruct IH as [bs ->]; [intros; apply Hf; now right|].
  simpl. eauto.
Qed.

Lemma mapM_length {A B : Type} (f : A -> result B) l bs :
  mapM f l = Ok bs -> List.length bs = List.length l.
Proof.
  revert bs. induction l as [|a l IH]; simpl; intros bs H.
  - now injection H as <-.
  - destruct (f a) as [b|]; simpl in H; [|discriminate].
    destruct (mapM f l) as [bs'|]; simpl in H; [|discriminate].
    injection H as <-. simpl. now rewrite (IH bs').
Qed.

(** One directory of the walk. *)
Lemma scan_directory root files :
  exists entries,
    mapM (fun rf => file_document (fst rf) (snd rf))
      (filter (fun rf => is_pdf (snd rf)) (map (pair root) files)) = Ok entries
    /\ forall results,
        foldM (scan_file root) files results = Ok (fold_left record_document entries results).
Proof.
  induction files as [|file files [entries [Hentries Hscan]]].
  - exists []. split; reflexivity.
  - cbn [map filter snd fst foldM]. unfold scan_file at 1.
    destruct (is_pdf file) eqn:Hpdf.
    + destruct (file_document_returns root file) as (md & _ & hash & Hdoc).
      eexists. cbn [mapM fst snd]. rewrite Hdoc, Hentries. unfold bind at 1 2.
      split; [reflexivity|].
      intros results. unfold bind at 1 2. cbn [fold_left]. apply Hscan.
    + exists entries. split; [assumption|]. intros results.
      unfold bind at 1. apply Hscan.
Qed.

Lemma scan_walk tree :
  exists entries,
    scanned_entries tree = Ok entries
    /\ forall results,
        foldM (fun results '(root, files) => foldM (scan_file root) files results)
          tree results
        = Ok (fold_left record_document entries results).
Proof.
  unfold scanned_entries, pdf_files.
  induction tree as [|[root files] tree [rest [Hrest Hscan]]]; simpl.
  - exists []. split; reflexivity.
  - destruct (scan_directory root files) as [here [Hhere Hdir]].
    exists (here ++ rest)%list. split.
    + rewrite filter_app. now apply mapM_app.
    + intros results. rewrite Hdir. simpl. rewrite Hscan. now rewrite fold_left_app.
Qed.

(** [analyze_directory] returns, and what it returns is the fold of
    [record_document] over the scanned entries. *)
Lemma analyze_directory_entries now directory_path tree :
  exists entries,
    scanned_entries tree = Ok entries
    /\ analyze_directory now directory_path tree
       = Ok (results_of now directory_path entries).
Proof.
  destruct (scan_walk tree) as [entries [He Hscan]].
  exists entries. split; [assumption|]. apply Hscan.
Qed.

Lemma scanned_entries_nodup tree entries :
  scanned_entries tree = Ok entries -> Forall tags_nodup entries.
Proof.
  apply mapM_Forall. intros [root file] e He. simpl in He.
  destruct (file_document_returns root file) as (md & Hmd & hash & Hdoc).
  rewrite Hdoc in He. injection He as <-. unfold tags_nodup. simpl.
  now apply (tags_NoDup (file_name file)).
Qed.

(** ** What the indices hold *)

Lemma bucket_snoc ids id : bucket (ids ++ [id])%list = Some (ids ++ [id])%list.
Proof. now destruct ids. Qed.

Lemma ids_of_bucket key index ids :
  dict_get key index = bucket ids -> ids_of key index = ids.
Proof.
  unfold ids_of. intros ->. now destruct ids.
Qed.

Lemma index_append_get key doc_id index k :
  dict_get k (index_append key doc_id index)
  = if String.eqb k key then Some (ids_of key index ++ [doc_id])%list
    else dict_get k index.
Proof.
  unfold index_append, ids_of.
  destruct (String.eqb_spec k key) as [->|Hne].
  - destruct (dict_get key index); now rewrite dict_get_set_same.
  - destruct (dict_get key index); now rewrite dict_get_set_other.
Qed.

Lemma index_append_keys_NoDup key doc_id index :
  NoDup (dict_keys index) -> NoDup (dict_keys (index_append key doc_id index)).
Proof.
  unfold index_append. destruct (dict_get key index); apply dict_keys_set_NoDup.
Qed.

Lemma tags_append_get tags doc_id index k :
  NoDup tags ->
  dict_get k (fold_left (fun index tag => index_append tag doc_id index) tags index)
  = if set_mem k tags then Some (ids_of k index ++ [doc_id])%list
    else dict_get k index.
Proof.
  intros Hnd. revert index. induction Hnd as [|t ts Hnotin Hnd IH]; intros index.
  - reflexivity.
  - cbn [fold_left]. rewrite IH. unfold set_mem. cbn [existsb]. fold (set_mem k ts).
    destruct (String.eqb_spec k t) as [->|Hne].
    + destruct (set_mem t ts) eqn:E; [apply set_mem_In in E; contradiction|].
      rewrite index_append_get. now rewrite String.eqb_refl.
    + unfold ids_of. rewrite index_append_get.
      apply String.eqb_neq in Hne. now rewrite Hne.
Qed.

Lemma tags_append_keys_NoDup tags doc_id index :
  NoDup (dict_keys index) ->
  NoDup (dict_keys (fold_left (fun index tag => index_append tag doc_id index) tags index)).
Proof.
  revert index. induction tags as [|t ts IH]; intros index H; simpl; [assumption|].
  apply IH. now apply index_append_keys_NoDup.
Qed.

Lemma append_optional_get k doc_id index key :
  dict_get key (append_optional k doc_id index)
  = if has_key key k then Some (ids_of key index ++ [doc_id])%list
    else dict_get key index.
Proof.
  destruct k as [k'|]; simpl; [|reflexivity]. rewrite index_append_get.
  now destruct (String.eqb_spec key k') as [->|].
Qed.

Lemma record_document_location results e :
  location_index (record_document results e)
  = append_optional (location_key e) (fst e) (location_index results).
Proof.
  destruct e as [doc_id doc]. unfold record_document, location_key. simpl.
  destruct (location (doc_meta doc)) as [[|c r]|]; reflexivity.
Qed.

Lemma record_document_date results e :
  date_index (record_document results e)
  = append_optional (date_key e) (fst e) (date_index results).
Proof.
  destruct e as [doc_id doc]. unfold record_document, date_key. simpl.
  destruct (extracted_date (doc_meta doc)) as [[|c r]|]; reflexivity.
Qed.

Section Results.

Variables now directory_path : string.

Local Notation "'results'" := (results_of now directory_path).

Lemma results_snoc entries e :
  results (entries ++ [e]) = record_document (results entries) e.
Proof. unfold results_of. now rewrite fold_left_app. Qed.

Lemma filter_snoc {A : Type} (p : A -> bool) l (a : A) :
  filter p (l ++ [a]) = (filter p l ++ (if p a then [a] else []))%list.
Proof. rewrite filter_app. simpl. now destruct (p a). Qed.

(** The documents mapping holds, under each id, the document of the last
    entry with that id. *)
Lemma results_documents entries id :
  dict_get id (documents (results entries))
  = option_map snd (find (fun e => String.eqb id (fst e)) (rev entries)).
Proof.
  induction entries as [|[id' doc] entries IH] using rev_ind; [reflexivity|].
  rewrite results_snoc, rev_unit. cbn [find fst].
  unfold record_document. cbn [documents].
  destruct (String.eqb_spec id id') as [->|Hne].
  - now rewrite dict_get_set_same.
  - now rewrite dict_get_set_other.
Qed.

(** A bucket of the tag index lists the id of every entry that carries the
    tag, once per entry and in scan order. *)
Lemma results_tag_index entries tag :
  Forall tags_nodup entries ->
  dict_get tag (tag_index (results entries))
  = bucket (map fst (filter (carries tag) entries)).
Proof.
  induction entries as [|[id doc] entries IH] using rev_ind; intros Hnd; [reflexivity|].
  apply Forall_app in Hnd. destruct Hnd as [Hnd He].
  apply Forall_inv in He. unfold tags_nodup in He. simpl in He.
  specialize (IH Hnd).
  rewrite results_snoc, filter_snoc, map_app.
  unfold record_document. cbn [tag_index].
  rewrite (tags_append_get _ _ _ _ He), (ids_of_bucket _ _ _ IH).
  change (carries tag (id, doc)) with (set_mem tag (tags (doc_meta doc))).
  destruct (set_mem tag (tags (doc_meta doc))).
  - cbn [map fst]. now rewrite bucket_snoc.
  - cbn [map]. now rewrite app_nil_r.
Qed.

Lemma results_optional_index
    (proj : analysis_results -> dict (list string))
    (key_of : string * document -> option string) :
  proj (empty_results now directory_path) = [] ->
  (forall r e, proj (record_document r e) = append_optional (key_of e) (fst e) (proj r)) ->
  forall entries key,
    dict_get key (proj (results entries))
    = bucket (map fst (filter (fun e => has_key key (key_of e)) entries)).
Proof.
  intros Hempty Hstep entries key.
  induction entries as [|e entries IH] using rev_ind.
  - unfold results_of. simpl. now rewrite Hempty.
  - rewrite results_snoc, Hstep, filter_snoc, map_app.
    rewrite append_optional_get, (ids_of_bucket _ _ _ IH).
    destruct (has_key key (key_of e)).
    + cbn [map]. now rewrite bucket_snoc.
    + cbn [map]. now rewrite app_nil_r.
Qed.

Lemma results_location_index entries loc :
  dict_get loc (location_index (results entries))
  = bucket (map fst (filter (fun e => has_key loc (location_key e)) entries)).
Proof.
  apply (results_optional_index location_index location_key);
    [reflexivity | apply record_document_location].
Qed.

Lemma results_date_index entries key :
  dict_get key (date_index (results entries))
  = bucket (map fst (filter (fun e => has_key key (date_key e)) entries)).
Proof.
  apply (results_optional_index date_index date_key);
    [reflexivity | apply record_document_date].
Qed.

Lemma append_optional_keys_NoDup k doc_id index :
  NoDup (dict_keys index) -> NoDup (dict_keys (append_optional k doc_id index)).
Proof.
  destruct k; simpl; [apply index_append_keys_NoDup | trivial].
Qed.

(** No key stands twice in an index. *)
Lemma results_keys_NoDup entries :
  NoDup (dict_keys (tag_index (results entries)))
  /\ NoDup (dict_keys (location_index (results entries)))
  /\ NoDup (dict_keys (date_index (results entries))).
Proof.
  induction entries as [|e entries (Ht & Hl & Hd)] using rev_ind.
  - repeat split; constructor.
  - rewrite results_snoc, record_document_location, record_document_date.
    repeat split; try now apply append_optional_keys_NoDup.
    destruct e as [id doc]. unfold record_document. cbn [tag_index].
    now apply tags_append_keys_NoDup.
Qed.

(** The counters count entries. *)
Lemma results_statistics entries :
  let st := statistics (results entries) in
  total_documents st = Z.of_nat (List.length entries)
  /\ tagged_documents st
     = Z.of_nat (List.length (filter (fun e => nonempty (tags (doc_meta (snd e)))) entries))
  /\ dated_documents st
     = Z.of_nat (List.length
                   (filter (fun e => truthy (extracted_date (doc_meta (snd e)))) entries))
  /\ critical_documents st
     = Z.of_nat (List.length (filter (carries "critical_evidence") entries)).
Proof.
  induction entries as [|[id doc] entries IH] using rev_ind.
  - repeat split.
  - cbv zeta in IH. destruct IH as (Ht & Hg & Hd & Hc).
    cbv zeta. rewrite results_snoc, !filter_snoc, !length_app.
    unfold record_document. cbn [statistics total_documents tagged_documents
      dated_documents critical_documents snd]. rewrite Ht, Hg, Hd, Hc.
    change (carries "critical_evidence" (id, doc))
      with (set_mem "critical_evidence" (tags (doc_meta doc))).
    unfold bump.
    repeat split.
    + simpl. lia.
    + destruct (nonempty _); simpl; lia.
    + destruct (truthy _); simpl; lia.
    + destruct (set_mem _ _); simpl; lia.
Qed.

End Results.

(** ** Referential integrity *)

Lemma In_dict_get {V : Type} (k : string) (v : V) (d : dict V) :
  NoDup (dict_keys d) -> In (k, v) d -> dict_get k d = Some v.
Proof.
  unfold dict_keys. induction d as [|[k' v'] d IH]; simpl; intros Hnd Hin; [tauto|].
  inversion Hnd as [|? ? Hnotin Hnd']; subst.
  destruct Hin as [[= -> ->]|Hin].
  - now rewrite String.eqb_refl.
  - destruct (String.eqb_spec k k') as [->|Hne]; [|now apply IH].
    exfalso. apply Hnotin. change k' with (fst (k', v)). now apply in_map.
Qed.

Lemma bucket_Some ids ids' : bucket ids = Some ids' -> ids' = ids /\ ids <> [].
Proof.
  destruct ids; simpl; [discriminate|]. intros [= <-]. split; [reflexivity | discriminate].
Qed.

Lemma entry_id_in_documents now directory_path entries (p : string * document -> bool) id :
  In id (map fst (filter p entries)) ->
  dict_mem id (documents (results_of now directory_path entries)) = true.
Proof.
  intros Hin. apply in_map_iff in Hin. destruct Hin as ([id' doc] & <- & Hin).
  apply filter_In in Hin. destruct Hin as [Hin _].
  unfold dict_mem. rewrite results_documents.
  destruct (find (fun e => String.eqb (fst (id', doc)) (fst e)) (rev entries)) eqn:E;
    [reflexivity|].
  exfalso. apply in_rev in Hin.
  pose proof (find_none _ _ E _ Hin) as Hnone. simpl in Hnone.
  now rewrite String.eqb_refl in Hnone.
Qed.

Lemma results_integrity now directory_path entries key ids id :
  Forall tags_nodup entries ->
  In (key, ids) (tag_index (results_of now directory_path entries))
  \/ In (key, ids) (location_index (results_of now directory_path entries))
  \/ In (key, ids) (date_index (results_of now directory_path entries)) ->
  In id ids ->
  dict_mem id (documents (results_of now directory_path entries)) = true.
Proof.
  intros Hnd Hkey Hid.
  destruct (results_keys_NoDup now directory_path entries) as (Kt & Kl & Kd).
  destruct Hkey as [H|[H|H]].
  - apply (In_dict_get _ _ _ Kt) in H. rewrite results_tag_index in H by assumption.
    apply bucket_Some in H. destruct H as [-> _].
    exact (entry_id_in_documents now directory_path entries _ id Hid).
  - apply (In_dict_get _ _ _ Kl) in H. rewrite results_location_index in H.
    apply bucket_Some in H. destruct H as [-> _].
    exact (entry_id_in_documents now directory_path entries _ id Hid).
  - apply (In_dict_get _ _ _ Kd) in H. rewrite results_date_index in H.
    apply bucket_Some in H. destruct H as [-> _].
    exact (entry_id_in_documents now directory_path entries _ id Hid).
Qed.

(** C5.  Every scan returns, and in what it returns every document id that
    stands in a list of the tag index, of the location index or of the date
    index is a key of the documents mapping. *)
Theorem referential_integrity (now directory_path : string) (tree : walk) :
  exists r,
    analyze_directory now directory_path tree = Ok r
    /\ forall key ids id,
        In (key, ids) (tag_index r)
        \/ In (key, ids) (location_index r)
        \/ In (key, ids) (date_index r) ->
        In id ids ->
        dict_mem id (documents r) = true.
Proof.
  destruct (analyze_directory_entries now directory_path tree) as (entries & He & Hr).
  eexists. split; [exact Hr|].
  intros key ids id. apply results_integrity. now apply (scanned_entries_nodup tree).
Qed.

(** ** The search index *)

Lemma summarize_returns docs doc_id :
  dict_mem doc_id docs = true -> exists s, summarize docs doc_id = Ok s.
Proof.
  unfold dict_mem, summarize. destruct (dict_get doc_id docs); [eauto | discriminate].
Qed.

Lemma add_tag_entry_lookup docs tree tag ids :
  (forall id, In id ids -> dict_mem id docs = true) ->
  exists tree' entry,
    add_tag_entry docs tree (tag, ids) = Ok tree'
    /\ document_count entry = Z.of_nat (List.length ids)
    /\ forall t,
        lookup_tag tree' t = if String.eqb t tag then Some entry else lookup_tag tree t.
Proof.
  intros Hdocs. unfold add_tag_entry.
  destruct (mapM_returns (summarize docs) ids) as [summaries Hs].
  { intros id Hid. apply summarize_returns. now apply Hdocs. }
  rewrite Hs. cbn [bind].
  set (entry := {| document_count := Z.of_nat (List.length summaries);
                   entry_documents := summaries |}).
  eexists. exists entry. split; [reflexivity|].
  split; [unfold entry; cbn [document_count]; now rewrite (mapM_length _ _ _ Hs)|].
  intros t. unfold lookup_tag.
  destruct (String.eqb_spec t tag) as [->|Hne].
  - now rewrite !dict_get_set_same.
  - destruct (String.eqb_spec (_get_tag_category t) (_get_tag_category tag)) as [Hc|Hc].
    + rewrite Hc, dict_get_set_same, dict_get_set_other by assumption.
      now destruct (dict_get (_get_tag_category tag) tree).
    + now rewrite dict_get_set_other.
Qed.

Lemma tag_tree_lookup docs items :
  NoDup (dict_keys items) ->
  (forall tag ids id, In (tag, ids) items -> In id ids -> dict_mem id docs = true) ->
  forall tree,
  exists tree',
    foldM (add_tag_entry docs) items tree = Ok tree'
    /\ forall t,
        match dict_get t items with
        | Some ids =>
            exists entry, lookup_tag tree' t = Some entry
                          /\ document_count entry = Z.of_nat (List.length ids)
        | None => lookup_tag tree' t = lookup_tag tree t
        end.
Proof.
  induction items as [|[tag ids] items IH]; intros Hnd Hdocs tree.
  - exists tree. split; reflexivity.
  - unfold dict_keys in Hnd. cbn [map fst] in Hnd.
    inversion Hnd as [|? ? Hnotin Hnd']; subst.
    destruct (add_tag_entry_lookup docs tree tag ids) as (tree1 & entry & H1 & Hc & Hl).
    { intros id Hid. apply (Hdocs tag ids); [now left | assumption]. }
    destruct (IH Hnd' (fun t i d Hi => Hdocs t i d (or_intror Hi)) tree1) as (tree' & H2 & Hl').
    exists tree'. cbn [foldM]. rewrite H1. cbn [bind]. split; [exact H2|].
    intros t. specialize (Hl' t). specialize (Hl t). cbn [dict_get].
    destruct (String.eqb_spec t tag) as [Heq|Hne].
    + subst t. destruct (dict_get tag items) as [ids'|] eqn:E.
      * exfalso. apply Hnotin. apply dict_get_In in E.
        change tag with (fst (tag, ids')). now apply in_map.
      * exists entry. rewrite Hl', Hl. now split.
    + destruct (dict_get t items); [exact Hl'|]. now rewrite Hl', Hl.
Qed.

(** [create_searchable_index] returns on what a scan returns; its proof
    chains follow the two keys of the tag index, and each tag of the tag
    index has its entry, whose count is the length of the bucket. *)
Lemma create_searchable_index_results now directory_path created entries :
  Forall tags_nodup entries ->
  let r := results_of now directory_path entries in
  exists idx,
    create_searchable_index created r = Ok idx
    /\ proof_chains idx
       = (if dict_mem "housing_denial" (tag_index r) && dict_mem "compensation" (tag_index r)
          then [housing_compensation_chain] else [])
    /\ forall tag,
        match dict_get tag (tag_index r) with
        | Some ids =>
            exists entry, lookup_tag (index_tags idx) tag = Some entry
                          /\ document_count entry = Z.of_nat (List.length ids)
        | None => lookup_tag (index_tags idx) tag = None
        end.
Proof.
  intros Hnd r. unfold create_searchable_index.
  destruct (tag_tree_lookup (documents r) (tag_index r)) with (tree := @nil (string * dict tag_entry))
    as (tree' & Hfold & Hlook).
  - apply results_keys_NoDup.
  - intros tag ids id Hin Hid. apply (results_integrity _ _ _ tag ids); auto.
  - rewrite Hfold. cbn [bind]. eexists. split; [reflexivity|].
    cbn [proof_chains index_tags]. split; [reflexivity|]. exact Hlook.
Qed.

Lemma dict_mem_has_documents now directory_path entries tag :
  Forall tags_nodup entries ->
  dict_mem tag (tag_index (results_of now directory_path entries)) = true
  <-> has_documents tag (results_of now directory_path entries).
Proof.
  intros Hnd. unfold has_documents, dict_mem.
  rewrite (results_tag_index _ _ _ _ Hnd).
  destruct (map fst (filter (carries tag) entries)) as [|id ids]; simpl.
  - split; [discriminate|]. intros (? & ? & [=]).
  - split; [eauto | reflexivity].
Qed.

(** C4.  On what a scan returns, the search index has a proof chain if and
    only if both [housing_denial] and [compensation] stand in the tag index
    with at least one document each; and then it has exactly one, named
    [Housing Denial → Compensation], from [housing_denial] to [compensation]
    by way of [discrimination] and [negligence]. *)
Theorem proof_chain_iff_both_tags (now created directory_path : string) (tree : walk) :
  exists r idx,
    analyze_directory now directory_path tree = Ok r
    /\ create_searchable_index created r = Ok idx
    /\ (proof_chains idx <> []
        <-> has_documents "housing_denial" r /\ has_documents "compensation" r)
    /\ (proof_chains idx = []
        \/ proof_chains idx
           = [ {| chain_name := "Housing Denial → Compensation";
                  start_tag := "housing_denial";
                  end_tag := "compensation";
                  intermediate_tags := ["discrimination"; "negligence"] |} ]).
Proof.
  destruct (analyze_directory_entries now directory_path tree) as (entries & He & Hr).
  pose proof (scanned_entries_nodup tree entries He) as Hnd.
  destruct (create_searchable_index_results now directory_path created entries Hnd)
    as (idx & Hidx & Hchains & _).
  exists (results_of now directory_path entries), idx.
  split; [exact Hr|]. split; [exact Hidx|].
  rewrite Hchains, <- !(dict_mem_has_documents _ _ _ _ Hnd).
  destruct (dict_mem "housing_denial" _); destruct (dict_mem "compensation" _);
    cbn [andb]; split;
    try (now left); try (now right);
    (split; [intros H; try (now split); now contradiction H
            | intros [H1 H2]; try discriminate]).
Qed.

(** ** Files that share a hash *)

Lemma unreadable_file_document root file e :
  file_digest file = Raise e ->
  exists doc, file_document root file = Ok ("hash_error", doc)
              /\ file_hash doc = "hash_error".
Proof.
  intros H. destruct (file_document_returns root file) as (md & Hmd & _).
  unfold file_document. rewrite Hmd, H. cbn [bind _calculate_file_hash try_except].
  eexists. split; reflexivity.
Qed.

(** C10.  The document id of a scanned file is the first twelve characters
    of its hash, [hash_error] for every unreadable file.  The documents
    mapping keeps, under an id, the metadata of the last scanned file with
    that id; the tag, location and date indices get the id once for every
    scanned file, so a bucket repeats an id that several files share; and the
    [document_count] of a tag in the search index is the number of scanned
    files that carry the tag.  Two unreadable files named for damages show
    it: one document, a bucket with the id twice, a count of two. *)
Theorem shared_hash_counts_files (now created directory_path : string) (tree : walk) :
  (exists entries r idx,
      scanned_entries tree = Ok entries
      /\ analyze_directory now directory_path tree = Ok r
      /\ create_searchable_index created r = Ok idx
      /\ (forall id,
            dict_get id (documents r)
            = option_map snd (find (fun e => String.eqb id (fst e)) (rev entries)))
      /\ (forall tag,
            dict_get tag (tag_index r) = bucket (map fst (filter (carries tag) entries)))
      /\ (forall loc,
            dict_get loc (location_index r)
            = bucket (map fst (filter (fun e => has_key loc (location_key e)) entries)))
      /\ (forall key,
            dict_get key (date_index r)
            = bucket (map fst (filter (fun e => has_key key (date_key e)) entries)))
      /\ (forall tag,
            match dict_get tag (tag_index r) with
            | Some _ =>
                exists entry,
                  lookup_tag (index_tags idx) tag = Some entry
                  /\ document_count entry
                     = Z.of_nat (List.length (filter (carries tag) entries))
            | None => lookup_tag (index_tags idx) tag = None
            end))
  /\ (forall root file e,
        file_digest file = Raise e ->
        exists doc, file_document root file = Ok ("hash_error", doc))
  /\ (exists r idx entry doc,
        scan [unreadable "damages first.pdf"; unreadable "damages second.pdf"] = Ok r
        /\ create_searchable_index created r = Ok idx
        /\ documents r = [("hash_error", doc)]
        /\ original_filename (doc_meta doc) = "damages second.pdf"
        /\ tag_index r = [("compensation", ["hash_error"; "hash_error"])]
        /\ lookup_tag (index_tags idx) "compensation" = Some entry
        /\ document_count entry = 2%Z
        /\ map summary_filename (entry_documents entry)
           = ["damages second.pdf"; "damages second.pdf"]).
Proof.
  split; [|split].
  - destruct (analyze_directory_entries now directory_path tree) as (entries & He & Hr).
    pose proof (scanned_entries_nodup tree entries He) as Hnd.
    destruct (create_searchable_index_results now directory_path created entries Hnd)
      as (idx & Hidx & _ & Hcount).
    exists entries, (results_of now directory_path entries), idx.
    split; [exact He|]. split; [exact Hr|]. split; [exact Hidx|].
    split; [apply results_documents|].
    split; [intros tag; now apply results_tag_index|].
    split; [apply results_location_index|].
    split; [apply results_date_index|].
    intros tag. specialize (Hcount tag).
    rewrite (results_tag_index _ _ _ tag Hnd) in *.
    destruct (map fst (filter (carries tag) entries)) as [|id ids] eqn:E;
      cbn [bucket] in *; [exact Hcount|].
    destruct Hcount as (entry & Hl & Hc). exists entry. split; [exact Hl|].
    rewrite Hc, <- E. now rewrite length_map.
  - intros root file e H.
    destruct (unreadable_file_document root file e H) as (doc & Hdoc & _). eauto.
  - do 4 eexists. split; [vm_compute; reflexivity|].
    split; [vm_compute; reflexivity|].
    split; [reflexivity|]. split; [reflexivity|]. split; [reflexivity|].
    split; [vm_compute; reflexivity|]. split; reflexivity.
Qed.

(** ** The normalized name *)

Lemma all_str_map_str (p : ascii -> bool) (f : ascii -> ascii) s :
  Py.all_str p (Py.map_str f s) = Py.all_str (fun c => p (f c)) s.
Proof.
  induction s as [|c s IH]; simpl; [reflexivity|]. now rewrite IH.
Qed.

Lemma all_str_weaken (p q : ascii -> bool) s :
  (forall c, p c = true -> q c = true) ->
  Py.all_str p s = true -> Py.all_str q s = true.
Proof.
  intros Hpq. induction s as [|c s IH]; simpl; [reflexivity|].
  intros H. apply andb_true_iff in H. destruct H as [Hc Hs].
  now rewrite (Hpq c Hc), IH.
Qed.

Lemma all_str_true (p : ascii -> bool) s :
  (forall c, p c = true) -> Py.all_str p s = true.
Proof.
  intros Hp. induction s as [|c s IH]; simpl; [reflexivity|]. now rewrite Hp, IH.
Qed.

Lemma all_str_lstrip_by (p q : ascii -> bool) s :
  Py.all_str p s = true -> Py.all_str p (Py.lstrip_by q s) = true.
Proof.
  induction s as [|c s IH]; simpl; [reflexivity|].
  intros H. destruct (q c); [|exact H].
  apply andb_true_iff in H. now apply IH.
Qed.

Lemma all_str_rstrip_by (p q : ascii -> bool) s :
  Py.all_str p s = true -> Py.all_str p (Py.rstrip_by q s) = true.
Proof.
  induction s as [|c s IH]; simpl; [reflexivity|].
  intros H. apply andb_true_iff in H. destruct H as [Hc Hs]. specialize (IH Hs).
  destruct (Py.rstrip_by q s) as [|d r].
  - destruct (q c); simpl; [reflexivity | now rewrite Hc].
  - change (Py.all_str p (String c (String d r)))
      with (p c && Py.all_str p (String d r)). now rewrite Hc, IH.
Qed.

(** A plain space is the only white space left, and no white space follows
    white space. *)
Lemma sub_space_runs_spaced in_run name :
  Py.all_str (fun c => negb (Py.isspace c) || Ascii.eqb c " ") (sub_space_runs in_run name)
  = true
  /\ Py.contains "  " (sub_space_runs in_run name) = false
  /\ (in_run = true -> Py.startswith " " (sub_space_runs in_run name) = false).
Proof.
  revert in_run. induction name as [|c r IH]; intros in_run.
  - simpl. repeat split; reflexivity.
  - cbn [sub_space_runs]. destruct (Py.isspace c) eqn:Hc.
    + destruct in_run.
      * apply IH.
      * destruct (IH true) as (Ha & Hd & Hs). specialize (Hs eq_refl).
        repeat split; [| |discriminate].
        -- cbn [Py.all_str]. now rewrite Ha.
        -- cbn [Py.contains Py.startswith]. cbn [Ascii.eqb Bool.eqb andb].
           change (Py.startswith " " (sub_space_runs true r)
                   || Py.contains "  " (sub_space_runs true r) = false).
           now rewrite Hs, Hd.
    + destruct (IH false) as (Ha & Hd & _).
      assert (Hne : Ascii.eqb " " c = false).
      { destruct (Ascii.eqb_spec " " c) as [<-|]; [discriminate Hc | reflexivity]. }
      repeat split.
      * cbn [Py.all_str]. now rewrite Hc, Ha.
      * cbn [Py.contains Py.startswith]. now rewrite Hne, Hd.
      * intros _. cbn [Py.startswith]. now rewrite Hne.
Qed.

(** What a strip leaves is a piece of the string. *)
Lemma lstrip_by_suffix q s : exists t, s = t ++ Py.lstrip_by q s.
Proof.
  induction s as [|c s [t IH]]; [now exists ""|]. cbn [Py.lstrip_by].
  destruct (q c); [|now exists ""].
  exists (String c t). simpl. now rewrite <- IH.
Qed.

Lemma rstrip_by_prefix q s : exists t, s = Py.rstrip_by q s ++ t.
Proof.
  induction s as [|c s [t IH]]; [now exists ""|]. cbn [Py.rstrip_by].
  destruct (Py.rstrip_by q s) as [|d r].
  - destruct (q c).
    + now exists (String c s).
    + exists t. simpl. simpl in IH. now rewrite <- IH.
  - exists t. simpl. simpl in IH. now rewrite <- IH.
Qed.

Lemma startswith_app p s t :
  Py.startswith p s = true -> Py.startswith p (s ++ t) = true.
Proof.
  revert s. induction p as [|a p IH]; intros s; [reflexivity|].
  destruct s as [|b s]; simpl; [discriminate|].
  intros H. apply andb_true_iff in H. destruct H as [Hab Hp].
  now rewrite Hab, IH.
Qed.

Lemma contains_app_r p s t : Py.contains p s = true -> Py.contains p (s ++ t) = true.
Proof.
  induction s as [|c s IH].
  - simpl. rewrite orb_false_r. intros H. destruct p; [|discriminate].
    now destruct t.
  - cbn [Py.contains]. intros H. apply orb_true_iff in H.
    change (String c s ++ t) with (String c (s ++ t)). cbn [Py.contains].
    apply orb_true_iff. destruct H as [H|H].
    + left. now apply (startswith_app p (String c s) t).
    + right. now apply IH.
Qed.

Lemma contains_app_l p s t : Py.contains p t = true -> Py.contains p (s ++ t) = true.
Proof.
  intros H. induction s as [|c s IH]; [exact H|].
  change (String c s ++ t) with (String c (s ++ t)). cbn [Py.contains].
  rewrite IH. apply orb_true_r.
Qed.

Lemma contains_strip_false p q s :
  Py.contains p s = false -> Py.contains p (Py.rstrip_by q (Py.lstrip_by q s)) = false.
Proof.
  intros H.
  destruct (Py.contains p (Py.rstrip_by q (Py.lstrip_by q s))) eqn:E; [|reflexivity].
  destruct (rstrip_by_prefix q (Py.lstrip_by q s)) as [t Ht].
  destruct (lstrip_by_suffix q s) as [u Hu].
  apply (contains_app_r _ _ t) in E. rewrite <- Ht in E.
  apply (contains_app_l _ u) in E. rewrite <- Hu in E. congruence.
Qed.

Lemma rstrip_by_idempotent q s : Py.rstrip_by q (Py.rstrip_by q s) = Py.rstrip_by q s.
Proof.
  induction s as [|c s IH]; [reflexivity|]. cbn [Py.rstrip_by].
  destruct (Py.rstrip_by q s) as [|d r] eqn:E.
  - destruct (q c) eqn:Hc; [reflexivity|]. cbn [Py.rstrip_by]. now rewrite Hc.
  - cbn [Py.rstrip_by]. cbn [Py.rstrip_by] in IH. rewrite IH. reflexivity.
Qed.

Lemma lstrip_by_head q s :
  match Py.lstrip_by q s with
  | String c _ => q c = false
  | EmptyString => True
  end.
Proof.
  induction s as [|c s IH]; [exact I|]. cbn [Py.lstrip_by].
  destruct (q c) eqn:Hc; [exact IH | exact Hc].
Qed.

Lemma rstrip_by_head q c s :
  q c = false -> exists r, Py.rstrip_by q (String c s) = String c r.
Proof.
  intros Hc. cbn [Py.rstrip_by]. destruct (Py.rstrip_by q s); [rewrite Hc|]; eauto.
Qed.

Lemma strip_idempotent s : Py.strip (Py.strip s) = Py.strip s.
Proof.
  unfold Py.strip.
  pose proof (lstrip_by_head Py.isspace s) as Hhead.
  destruct (Py.lstrip_by Py.isspace s) as [|c r] eqn:E; [reflexivity|].
  destruct (rstrip_by_head Py.isspace c r Hhead) as [r' Hr]. rewrite Hr.
  cbn [Py.lstrip_by]. rewrite Hhead. rewrite <- Hr. apply rstrip_by_idempotent.
Qed.

Lemma sub_space_runs_no_separator in_run name :
  Py.all_str no_separator name = true ->
  Py.all_str no_separator (sub_space_runs in_run name) = true.
Proof.
  revert in_run. induction name as [|c r IH]; intros in_run; [reflexivity|].
  cbn [Py.all_str sub_space_runs]. intros H. apply andb_true_iff in H.
  destruct H as [Hc Hr]. destruct (Py.isspace c).
  - destruct in_run; [now apply IH|]. cbn [Py.all_str]. now rewrite IH.
  - cbn [Py.all_str]. now rewrite Hc, IH.
Qed.

Lemma sub_separators_no_separator name :
  Py.all_str no_separator (sub_separators name) = true.
Proof.
  unfold sub_separators. rewrite all_str_map_str. apply all_str_true.
  intros c. unfold no_separator. now destruct (one_of "_-." c) eqn:E; [|rewrite E].
Qed.

Lemma normalized_no_separator filename :
  Py.all_str no_separator (_normalize_filename filename) = true.
Proof.
  unfold _normalize_filename, Py.strip. apply all_str_rstrip_by, all_str_lstrip_by.
  apply sub_space_runs_no_separator, sub_separators_no_separator.
Qed.

Lemma normalized_plain_space filename :
  Py.all_str plain_space_only (_normalize_filename filename) = true.
Proof.
  unfold _normalize_filename, Py.strip. apply all_str_rstrip_by, all_str_lstrip_by.
  apply sub_space_runs_spaced.
Qed.

Lemma normalized_no_double_space filename :
  Py.contains "  " (_normalize_filename filename) = false.
Proof.
  unfold _normalize_filename, Py.strip. apply contains_strip_false.
  apply sub_space_runs_spaced.
Qed.

(** X1.  The normalized name of any filename holds none of the separators
    underscore, hyphen and dot, no white space but the plain space, no two
    spaces in a row, and neither starts nor ends with white space. *)
Theorem normalized_name_shape (filename : string) :
  let name := _normalize_filename filename in
  Py.all_str no_separator name = true
  /\ Py.all_str plain_space_only name = true
  /\ Py.contains "  " name = false
  /\ Py.strip name = name.
Proof.
  cbv zeta. split; [apply normalized_no_separator|].
  split; [apply normalized_plain_space|].
  split; [apply normalized_no_double_space|].
  unfold _normalize_filename. apply strip_idempotent.
Qed.

Lemma rfind_from_absent c i last s :
  Py.all_str (fun a => negb (Ascii.eqb a c)) s = true -> Py.rfind_from c i last s = last.
Proof.
  revert i. induction s as [|a s IH]; intros i; [reflexivity|].
  cbn [Py.all_str Py.rfind_from]. intros H. apply andb_true_iff in H.
  destruct H as [Ha Hs]. apply negb_true_iff in Ha. rewrite Ha. now apply IH.
Qed.

Lemma rfind_from_lower c i last s :
  (-1 <= last)%Z -> (0 <= i)%Z -> (-1 <= Py.rfind_from c i last s)%Z.
Proof.
  revert i last. induction s as [|a s IH]; intros i last Hl Hi; [exact Hl|].
  cbn [Py.rfind_from]. apply IH; [|lia]. destruct (Ascii.eqb a c); lia.
Qed.

Lemma no_separator_not_dot s :
  Py.all_str no_separator s = true ->
  Py.all_str (fun a => negb (Ascii.eqb a ".")) s = true.
Proof.
  apply all_str_weaken. intros c Hc.
  destruct (Ascii.eqb_spec c ".") as [->|]; [discriminate Hc | reflexivity].
Qed.

Lemma splitext_no_dot p :
  Py.all_str (fun a => negb (Ascii.eqb a ".")) p = true -> OsPath.splitext p = (p, "").
Proof.
  intros H. unfold OsPath.splitext, Py.rfind at 2.
  rewrite (rfind_from_absent "." 0 (-1) p H).
  pose proof (rfind_from_lower "/" 0 (-1) p ltac:(lia) ltac:(lia)) as Hsep.
  fold (Py.rfind "/" p) in Hsep.
  destruct (Z.ltb_spec (Py.rfind "/" p) (-1)); [lia | reflexivity].
Qed.

Lemma sub_separators_fixed s :
  Py.all_str no_separator s = true -> sub_separators s = s.
Proof.
  unfold sub_separators. induction s as [|c s IH]; [reflexivity|].
  cbn [Py.all_str Py.map_str]. intros H. apply andb_true_iff in H.
  destruct H as [Hc Hs]. unfold no_separator in Hc. apply negb_true_iff in Hc.
  now rewrite Hc, IH.
Qed.

Lemma sub_space_runs_fixed in_run s :
  Py.all_str plain_space_only s = true ->
  Py.contains "  " s = false ->
  (in_run = true -> Py.startswith " " s = false) ->
  sub_space_runs in_run s = s.
Proof.
  revert in_run. induction s as [|c s IH]; intros in_run Hplain Hdouble Hstart;
    [reflexivity|].
  cbn [Py.all_str] in Hplain. apply andb_true_iff in Hplain.
  destruct Hplain as [Hc Hs].
  cbn [Py.contains] in Hdouble. apply orb_false_iff in Hdouble.
  destruct Hdouble as [Hhere Hrest].
  cbn [sub_space_runs]. unfold plain_space_only in Hc.
  destruct (Py.isspace c) eqn:Hsp.
  - cbn [negb orb] in Hc. apply Ascii.eqb_eq in Hc. subst c.
    destruct in_run; [specialize (Hstart eq_refl); discriminate Hstart|].
    f_equal. apply IH; try assumption. intros _.
    cbn [Py.startswith] in Hhere. exact Hhere.
  - f_equal. apply IH; try assumption. discriminate.
Qed.

(** X2.  Normalizing is idempotent: the normalized name of a normalized name
    is that name again. *)
Theorem normalize_filename_idempotent (filename : string) :
  _normalize_filename (_normalize_filename filename) = _normalize_filename filename.
Proof.
  pose proof (normalized_no_separator filename) as Hsep.
  pose proof (normalized_plain_space filename) as Hplain.
  pose proof (normalized_no_double_space filename) as Hdouble.
  assert (Hstrip : Py.strip (_normalize_filename filename) = _normalize_filename filename).
  { unfold _normalize_filename. apply strip_idempotent. }
  set (name := _normalize_filename filename) in *.
  unfold _normalize_filename at 1.
  rewrite (splitext_no_dot name (no_separator_not_dot name Hsep)). cbn [fst].
  rewrite (sub_separators_fixed name Hsep).
  rewrite (sub_space_runs_fixed false name Hplain Hdouble); [exact Hstrip | discriminate].
Qed.

(** ** The vocabulary of the classifier *)

Lemma tag_patterns_keys :
  (map fst tag_patterns ++ ["critical_evidence"])%list = tag_vocabulary.
Proof. reflexivity. Qed.

Lemma tags_in_vocabulary filename md tag :
  extract_from_filename filename = Ok md -> In tag (tags md) -> In tag tag_vocabulary.
Proof.
  intros Hmd Hin.
  destruct (extract_from_filename_fields filename) as (md' & Hmd' & _ & _ & Ht & _).
  rewrite Hmd in Hmd'. injection Hmd' as <-.
  rewrite <- tag_patterns_keys. apply in_or_app.
  assert (Hloop : In tag (tag_loop (name_lower_of filename)) ->
                  In tag (map fst tag_patterns)).
  { rewrite tag_loop_unfold. intros H. apply table_loop_In in H.
    destruct H as [[]|(ps & p & Hrow & _)].
    change tag with (fst (tag, ps)). now apply in_map. }
  rewrite Ht in Hin. destruct (has_critical_marker _).
  - apply set_add_In in Hin. destruct Hin as [->|Hin]; [right; now left | left; auto].
  - left; auto.
Qed.

Lemma vocabulary_has_category tag :
  In tag tag_vocabulary -> In (_get_tag_category tag) categories.
Proof.
  unfold tag_vocabulary. intros H.
  repeat (destruct H as [<-|H]; [vm_compute; tauto|]). destruct H.
Qed.

Lemma location_loop_in_table locs name_lower loc :
  location_loop locs name_lower = Some loc -> In loc (map fst locs).
Proof.
  induction locs as [|[l keywords] locs IH]; simpl; [discriminate|].
  destruct (existsb _ keywords); [intros [= ->]; now left | right; now apply IH].
Qed.

(** X3.  Whatever the filename, the classifier returns a duplicate-free set
    of tags drawn from the eleven tags of the pattern table and
    [critical_evidence]; each of them has a category of its own in the
    category table, never the default [other]; and the location, when there
    is one, is one of the three of the location table. *)
Theorem classifier_closed_vocabulary (filename : string) :
  exists md,
    extract_from_filename filename = Ok md
    /\ NoDup (tags md)
    /\ (forall tag,
          In tag (tags md) ->
          In tag tag_vocabulary
          /\ In (_get_tag_category tag) categories
          /\ _get_tag_category tag <> "other")
    /\ (forall loc,
          location md = Some loc -> In loc ["thurrock"; "ellingham"; "ak_housing"]).
Proof.
  destruct (extract_from_filename_fields filename) as (md & Hmd & _ & _ & _ & Hl).
  exists md. split; [exact Hmd|].
  split; [now apply (tags_NoDup filename)|]. split.
  - intros tag Hin. pose proof (tags_in_vocabulary filename md tag Hmd Hin) as Hv.
    pose proof (vocabulary_has_category tag Hv) as Hc.
    repeat split; try assumption.
    intros Hother. rewrite Hother in Hc. unfold categories in Hc.
    repeat (destruct Hc as [Hc|Hc]; [discriminate Hc|]). destruct Hc.
  - intros loc Hloc. rewrite Hl in Hloc.
    apply location_loop_in_table in Hloc. exact Hloc.
Qed.

(** ** Dates of the day-first shape *)

Lemma zfill2_one a :
  Py.isdecimal a = true -> Py.zfill 2 (String a "") = String "0" (String a "").
Proof.
  intros H. destruct (decimal_char_plain a H) as (_ & Hm & Hp).
  unfold Py.zfill. cbn [String.length Nat.sub Py.repeat_char]. now rewrite Hm, Hp.
Qed.

Lemma zfill2_two a b : Py.zfill 2 (String a (String b "")) = String a (String b "").
Proof.
  unfold Py.zfill. cbn [String.length Nat.sub Py.repeat_char].
  now destruct (Ascii.eqb a "+" || Ascii.eqb a "-").
Qed.

Lemma isdigit_of_decimal s :
  s <> "" -> Py.all_str Py.isdecimal s = true -> Py.isdigit s = true.
Proof.
  intros Hne H. unfold Py.isdigit. destruct s as [|c r]; [contradiction|].
  apply (all_str_weaken Py.isdecimal); [|exact H].
  intros a Ha. unfold Py.isdigit_char. now rewrite Ha.
Qed.

(** A string of one or two decimal digits, filled to two. *)
Lemma zfill2_digits s :
  Py.all_str Py.isdecimal s = true ->
  1 <= String.length s <= 2 ->
  exists a b,
    Py.zfill 2 s = String a (String b "")
    /\ Py.isdecimal a = true /\ Py.isdecimal b = true.
Proof.
  intros Hd Hlen. destruct s as [|a [|b [|c r]]]; simpl in Hlen; try lia.
  - cbn [Py.all_str] in Hd. rewrite andb_true_r in Hd.
    exists "0"%char, a. rewrite (zfill2_one a Hd). now repeat split.
  - cbn [Py.all_str] in Hd. rewrite andb_true_r in Hd.
    apply andb_true_iff in Hd. destruct Hd as [Ha Hb].
    exists a, b. rewrite zfill2_two. now repeat split.
Qed.

(** A year group of two or four decimal digits, expanded to four. *)
Lemma expand_year_digits year :
  Py.all_str Py.isdecimal year = true ->
  String.length year = 2 \/ String.length year = 4 ->
  exists y1 y2 y3 y4,
    expand_year (Some year) = Ok (String y1 (String y2 (String y3 (String y4 ""))))
    /\ forallb Py.isdecimal [y1; y2; y3; y4] = true.
Proof.
  intros Hd [Hlen|Hlen].
  - destruct year as [|a [|b [|c r]]]; simpl in Hlen; try lia.
    cbn [Py.all_str] in Hd. rewrite andb_true_r in Hd.
    apply andb_true_iff in Hd. destruct Hd as [Ha Hb].
    pose proof (expand_year_two_digits a b Ha Hb) as He. cbv zeta in He. rewrite He.
    destruct (50 <=? 10 * Py.digit_value a + Py.digit_value b)%Z;
      [exists "1"%char, "9"%char, a, b | exists "2"%char, "0"%char, a, b];
      (split; [reflexivity|]); cbn [forallb]; now rewrite Ha, Hb.
  - destruct year as [|a [|b [|c [|d [|e r]]]]]; simpl in Hlen; try lia.
    cbn [Py.all_str] in Hd. rewrite andb_true_r in Hd.
    exists a, b, c, d. split; [reflexivity|]. cbn [forallb]. now rewrite andb_true_r.
Qed.

Lemma canonical_date_parts a b c d y1 y2 y3 y4 :
  Py.isdecimal a = true -> Py.isdecimal b = true ->
  Py.isdecimal c = true -> Py.isdecimal d = true ->
  forallb Py.isdecimal [y1; y2; y3; y4] = true ->
  canonical_date
    (String a (String b "") ++ "-" ++ String c (String d "") ++ "-"
     ++ String y1 (String y2 (String y3 (String y4 ""))))
  = true.
Proof.
  intros Ha Hb Hc Hd Hy. unfold canonical_date.
  cbn [append list_ascii_of_string forallb] in *.
  rewrite Ha, Hb, Hc, Hd. cbn [andb]. rewrite Hy. reflexivity.
Qed.

(** X4.  Groups of the day-first shape, a day and a month of one or two
    decimal digits and a year of two or four, make [_parse_date] return a
    date of the canonical shape DD-MM-YYYY: day and month filled with a zero
    to two digits, the year expanded to four. *)
Theorem day_first_groups_give_canonical_date (day month year : string) :
  Py.all_str Py.isdecimal day = true -> 1 <= String.length day <= 2 ->
  Py.all_str Py.isdecimal month = true -> 1 <= String.length month <= 2 ->
  Py.all_str Py.isdecimal year = true ->
  String.length year = 2 \/ String.length year = 4 ->
  exists yyyy,
    expand_year (Some year) = Ok yyyy
    /\ _parse_date [Some day; Some month; Some year]
       = Ok (Some (Py.zfill 2 day ++ "-" ++ Py.zfill 2 month ++ "-" ++ yyyy))
    /\ canonical_date (Py.zfill 2 day ++ "-" ++ Py.zfill 2 month ++ "-" ++ yyyy) = true.
Proof.
  intros Hday Hdlen Hmonth Hmlen Hyear Hylen.
  destruct (zfill2_digits day Hday Hdlen) as (a & b & Hzd & Ha & Hb).
  destruct (zfill2_digits month Hmonth Hmlen) as (c & d & Hzm & Hc & Hd).
  destruct (expand_year_digits year Hyear Hylen) as (y1 & y2 & y3 & y4 & Hy & Hys).
  eexists. split; [exact Hy|]. split.
  - unfold _parse_date, _parse_date_try. cbn [str_attr bind].
    rewrite isdigit_of_decimal; [|destruct month; simpl in Hmlen; [lia | discriminate]
                                 |exact Hmonth].
    rewrite Hy. reflexivity.
  - rewrite Hzd, Hzm. now apply canonical_date_parts.
Qed.

Lemma day_first_groups_give_canonical_date_witness :
  _parse_date [Some "5"; Some "3"; Some "21"] = Ok (Some "05-03-2021")
  /\ canonical_date "05-03-2021" = true.
Proof.
  destruct (day_first_groups_give_canonical_date "5" "3" "21"
              eq_refl ltac:(simpl; lia) eq_refl ltac:(simpl; lia) eq_refl
              (or_introl eq_refl)) as (yyyy & Hy & Hparse & Hcanon).
  injection Hy as <-. split; [exact Hparse | exact Hcanon].
Defined.

(** ** The counters and the documents mapping of a scan *)

Lemma filter_length_mono {A : Type} (p q : A -> bool) l :
  (forall a, p a = true -> q a = true) ->
  List.length (filter p l) <= List.length (filter q l).
Proof.
  intros Hpq. induction l as [|a l IH]; simpl; [lia|].
  destruct (p a) eqn:Hp.
  - rewrite (Hpq a Hp). simpl. lia.
  - destruct (q a); simpl; lia.
Qed.

Lemma scanned_entries_length tree entries :
  scanned_entries tree = Ok entries ->
  List.length entries = List.length (pdf_files tree).
Proof. apply mapM_length. Qed.

(** X5.  After a scan [total_documents] is the number of files of the walk
    whose name ends in [.pdf], whatever the case of the letters; the other
    three counters count some of these files each: the critical documents
    are among the tagged ones, and no counter exceeds the total. *)
Theorem scan_counters_bounded (now directory_path : string) (tree : walk) :
  exists r,
    analyze_directory now directory_path tree = Ok r
    /\ total_documents (statistics r) = Z.of_nat (List.length (pdf_files tree))
    /\ (0 <= critical_documents (statistics r) <= tagged_documents (statistics r))%Z
    /\ (tagged_documents (statistics r) <= total_documents (statistics r))%Z
    /\ (0 <= dated_documents (statistics r) <= total_documents (statistics r))%Z.
Proof.
  destruct (analyze_directory_entries now directory_path tree) as (entries & He & Hr).
  eexists. split; [exact Hr|].
  destruct (results_statistics now directory_path entries) as (Ht & Hg & Hd & Hc).
  cbv zeta in *. rewrite Ht, Hg, Hd, Hc, <- (scanned_entries_length tree entries He).
  assert (Hcg : List.length (filter (carries "critical_evidence") entries)
                <= List.length
                     (filter (fun e => nonempty (tags (doc_meta (snd e)))) entries)).
  { apply filter_length_mono. intros e H. unfold carries in H. apply set_mem_In in H.
    destruct (tags (doc_meta (snd e))); [destruct H | reflexivity]. }
  pose proof (filter_length_le (fun e => nonempty (tags (doc_meta (snd e)))) entries) as Hg'.
  pose proof (filter_length_le (fun e => truthy (extracted_date (doc_meta (snd e)))) entries)
    as Hd'.
  split; [reflexivity|]. clear Ht Hg Hd Hc.
  set (n := List.length entries) in *.
  set (g := List.length (filter (fun e => nonempty (tags (doc_meta (snd e)))) entries)) in *.
  set (d := List.length (filter (fun e => truthy (extracted_date (doc_meta (snd e)))) entries))
    in *.
  set (c := List.length (filter (carries "critical_evidence") entries)) in *.
  lia.
Qed.

Lemma pdf_files_filtered tree :
  pdf_files (map (fun dir => (fst dir, filter is_pdf (snd dir))) tree) = pdf_files tree.
Proof.
  unfold pdf_files, walk_files.
  induction tree as [|[root files] tree IH]; [reflexivity|].
  cbn [map flat_map fst snd]. rewrite !filter_app, IH. f_equal.
  induction files as [|file files IHf]; [reflexivity|].
  cbn [filter map]. destruct (is_pdf file) eqn:Hpdf.
  - cbn [map filter snd]. rewrite Hpdf. now rewrite IHf.
  - cbn [snd]. rewrite Hpdf. exact IHf.
Qed.

Lemma analyze_directory_pdf_files now directory_path tree1 tree2 :
  pdf_files tree1 = pdf_files tree2 ->
  analyze_directory now directory_path tree1 = analyze_directory now directory_path tree2.
Proof.
  intros Hpdf.
  destruct (analyze_directory_entries now directory_path tree1) as (e1 & He1 & ->).
  destruct (analyze_directory_entries now directory_path tree2) as (e2 & He2 & ->).
  unfold scanned_entries in *. rewrite Hpdf in He1. rewrite He1 in He2.
  now injection He2 as ->.
Qed.

(** X6.  Files whose name does not end in [.pdf] leave no trace: a scan of a
    walk and a scan of the same walk without them return the same result. *)
Theorem other_files_leave_no_trace (now directory_path : string) (tree : walk) :
  analyze_directory now directory_path
    (map (fun dir => (fst dir, filter is_pdf (snd dir))) tree)
  = analyze_directory now directory_path tree.
Proof.
  apply analyze_directory_pdf_files, pdf_files_filtered.
Qed.

Lemma take_length n s : String.length (Py.take n s) <= n.
Proof.
  revert s. induction n as [|n IH]; intros s; [destruct s; simpl; lia|].
  destruct s as [|c s]; simpl; [lia|]. specialize (IH s). lia.
Qed.

Lemma dict_set_length {V : Type} (k : string) (v : V) (d : dict V) :
  List.length (dict_set k v d) <= S (List.length d).
Proof.
  induction d as [|[k' v'] d IH]; simpl; [lia|].
  destruct (String.eqb k k'); simpl; lia.
Qed.

Lemma scanned_entries_id_of_hash tree entries :
  scanned_entries tree = Ok entries -> Forall id_of_hash entries.
Proof.
  apply mapM_Forall. intros [root file] e He. cbn [fst snd] in He.
  destruct (file_document_returns root file) as (md & _ & hash & Hdoc).
  rewrite Hdoc in He. injection He as <-. reflexivity.
Qed.

Lemma results_documents_keys now directory_path entries :
  NoDup (dict_keys (documents (results_of now directory_path entries)))
  /\ List.length (documents (results_of now directory_path entries))
     <= List.length entries.
Proof.
  induction entries as [|[id doc] entries [IHk IHl]] using rev_ind.
  - split; [constructor | simpl; lia].
  - rewrite results_snoc. unfold record_document. cbn [documents].
    split; [now apply dict_keys_set_NoDup|].
    rewrite length_app. cbn [List.length].
    pose proof (dict_set_length id doc
                  (documents (results_of now directory_path entries))). lia.
Qed.

Lemma results_documents_In now directory_path entries id doc :
  In (id, doc) (documents (results_of now directory_path entries)) ->
  In (id, doc) entries.
Proof.
  intros Hin.
  apply In_dict_get in Hin; [|apply results_documents_keys].
  rewrite results_documents in Hin.
  destruct (find (fun e => String.eqb id (fst e)) (rev entries)) as [[id' doc']|] eqn:E;
    [|discriminate].
  apply find_some in E. destruct E as [Hrev Heq]. cbn [fst] in Heq.
  apply String.eqb_eq in Heq. subst id'. cbn [option_map snd] in Hin.
  injection Hin as <-. now apply in_rev.
Qed.

(** X7.  In the documents mapping of a scan no id stands twice, every
    document is stored under the first twelve characters of its own hash (so
    an id has at most twelve characters), and the mapping has at most as
    many documents as [total_documents] counts. *)
Theorem documents_keyed_by_hash_prefix (now directory_path : string) (tree : walk) :
  exists r,
    analyze_directory now directory_path tree = Ok r
    /\ NoDup (dict_keys (documents r))
    /\ (forall id doc,
          In (id, doc) (documents r) ->
          id = Py.take 12 (file_hash doc) /\ String.length id <= 12)
    /\ (Z.of_nat (List.length (documents r)) <= total_documents (statistics r))%Z.
Proof.
  destruct (analyze_directory_entries now directory_path tree) as (entries & He & Hr).
  eexists. split; [exact Hr|].
  destruct (results_documents_keys now directory_path entries) as [Hk Hl].
  split; [exact Hk|]. split.
  - intros id doc Hin. apply results_documents_In in Hin.
    pose proof (scanned_entries_id_of_hash tree entries He) as Hall.
    rewrite Forall_forall in Hall. specialize (Hall _ Hin).
    unfold id_of_hash in Hall. cbn [fst snd] in Hall.
    split; [exact Hall|]. rewrite Hall. apply take_length.
  - destruct (results_statistics now directory_path entries) as (Ht & _).
    rewrite Ht. lia.
Qed.

(** ** The critical documents in the search index and in the report *)

Lemma string_app_assoc (a b c : string) : (a ++ b) ++ c = a ++ (b ++ c).
Proof. induction a as [|x a IH]; simpl; [reflexivity | now rewrite IH]. Qed.

Lemma critical_filenames_cons doc_id doc rest :
  critical_filenames ((doc_id, doc) :: rest)
  = if set_mem "critical_evidence" (tags (doc_meta doc))
    then original_filename (doc_meta doc) :: critical_filenames rest
    else critical_filenames rest.
Proof.
  unfold critical_filenames, critical_entries. cbn [flat_map].
  destruct (set_mem "critical_evidence" (tags (doc_meta doc))); reflexivity.
Qed.

Lemma critical_loop_lines items total :
  forall count,
    (0 <= count < 10)%Z ->
    let room := Z.to_nat (10 - count) in
    critical_loop items count total
    = bullet_lines (firstn room (critical_filenames items))
      ++ (if (room <=? List.length (critical_filenames items))%nat
          then remainder_line total else "").
Proof.
  induction items as [|[doc_id doc] items IH]; intros count Hcount room.
  - unfold room. destruct (Z.to_nat (10 - count)) eqn:E; [lia|]. reflexivity.
  - cbn [critical_loop]. rewrite critical_filenames_cons.
    destruct (set_mem "critical_evidence" (tags (doc_meta doc))).
    + destruct (Z.leb_spec 10 (count + 1)) as [Hfull|Hmore].
      * assert (Hroom : room = 1) by (unfold room; lia). rewrite Hroom.
        cbn [firstn bullet_lines List.length Nat.leb].
        unfold remainder_line. rewrite !string_app_assoc. reflexivity.
      * specialize (IH (count + 1)%Z ltac:(lia)). cbv zeta in IH.
        assert (Hroom : room = S (Z.to_nat (10 - (count + 1)))) by (unfold room; lia).
        rewrite Hroom, IH. cbn [firstn bullet_lines List.length Nat.leb].
        now rewrite !string_app_assoc.
    + apply IH. exact Hcount.
Qed.

(** X8.  For any analysis result the critical-evidence section of the report
    lists the first ten critical documents of the mapping, one line each in
    the order of the mapping, all of them when there are fewer than ten; from
    ten critical documents on, and only then, a last line gives the counter
    [critical_documents] less ten as the number of further ones. *)
Theorem critical_section_lists_first_ten (results : analysis_results) :
  let names := critical_filenames (documents results) in
  critical_section results
  = bullet_lines (firstn 10 names)
    ++ (if (10 <=? List.length names)%nat
        then remainder_line (critical_documents (statistics results))
        else "").
Proof.
  cbv zeta. unfold critical_section.
  exact (critical_loop_lines (documents results) _ 0%Z ltac:(lia)).
Qed.

Lemma critical_entries_dict_set doc_id doc docs :
  List.length (critical_entries (dict_set doc_id doc docs))
  <= List.length (critical_entries docs)
     + (if set_mem "critical_evidence" (tags (doc_meta doc)) then 1 else 0).
Proof.
  unfold critical_entries.
  induction docs as [|[k v] docs IH]; cbn [dict_set flat_map].
  - rewrite app_nil_r. destruct (set_mem _ _); simpl; lia.
  - destruct (String.eqb doc_id k); cbn [flat_map]; rewrite !length_app.
    + destruct (set_mem "critical_evidence" (tags (doc_meta doc)));
        destruct (set_mem "critical_evidence" (tags (doc_meta v))); simpl; lia.
    + lia.
Qed.

Lemma results_critical_count now directory_path entries :
  (Z.of_nat (List.length (critical_entries (documents (results_of now directory_path entries))))
   <= critical_documents (statistics (results_of now directory_path entries)))%Z.
Proof.
  induction entries as [|[id doc] entries IH] using rev_ind; [simpl; lia|].
  rewrite results_snoc. unfold record_document.
  cbn [documents statistics critical_documents].
  pose proof (critical_entries_dict_set id doc
                (documents (results_of now directory_path entries))) as Hset.
  unfold bump. destruct (set_mem "critical_evidence" (tags (doc_meta doc))); lia.
Qed.

Lemma create_searchable_index_fields created r idx :
  create_searchable_index created r = Ok idx ->
  index_critical_documents idx = critical_entries (documents r)
  /\ index_total_documents idx = total_documents (statistics r)
  /\ search_aliases idx = aliases.
Proof.
  unfold create_searchable_index.
  destruct (foldM (add_tag_entry (documents r)) (tag_index r) []); cbn [bind];
    [|discriminate].
  intros [= <-]. repeat split.
Qed.

Lemma critical_entries_In docs entry :
  In entry (critical_entries docs) ->
  importance entry = "high"
  /\ In "critical_evidence" (critical_tags entry)
  /\ exists doc,
       In (critical_id entry, doc) docs
       /\ critical_filename entry = original_filename (doc_meta doc)
       /\ critical_tags entry = tags (doc_meta doc).
Proof.
  unfold critical_entries. intros Hin. apply in_flat_map in Hin.
  destruct Hin as ([id doc] & Hdoc & Hin).
  destruct (set_mem "critical_evidence" (tags (doc_meta doc))) eqn:E; [|destruct Hin].
  destruct Hin as [<-|[]]. cbn. split; [reflexivity|].
  split; [now apply set_mem_In|]. now exists doc.
Qed.

(** X9.  The list of critical documents of the search index holds the
    documents of the mapping that carry [critical_evidence], each marked
    [high]; after a scan it is never longer than the counter
    [critical_documents] says, which counts files, so the number of further
    documents the report gives from ten critical documents on is never
    negative. *)
Theorem critical_list_within_counter (now created directory_path : string) (tree : walk) :
  exists r idx,
    analyze_directory now directory_path tree = Ok r
    /\ create_searchable_index created r = Ok idx
    /\ (forall entry,
          In entry (index_critical_documents idx) ->
          importance entry = "high"
          /\ In "critical_evidence" (critical_tags entry)
          /\ exists doc,
               In (critical_id entry, doc) (documents r)
               /\ critical_filename entry = original_filename (doc_meta doc)
               /\ critical_tags entry = tags (doc_meta doc))
    /\ (Z.of_nat (List.length (index_critical_documents idx))
        <= critical_documents (statistics r))%Z
    /\ (10 <= List.length (critical_filenames (documents r)) ->
        (0 <= critical_documents (statistics r) - 10)%Z).
Proof.
  destruct (analyze_directory_entries now directory_path tree) as (entries & He & Hr).
  pose proof (scanned_entries_nodup tree entries He) as Hnd.
  destruct (create_searchable_index_results now directory_path created entries Hnd)
    as (idx & Hidx & _).
  destruct (create_searchable_index_fields _ _ _ Hidx) as (Hcrit & _).
  pose proof (results_critical_count now directory_path entries) as Hcount.
  exists (results_of now directory_path entries), idx.
  split; [exact Hr|]. split; [exact Hidx|]. rewrite Hcrit.
  split; [intros entry; apply critical_entries_In|].
  split; [exact Hcount|].
  unfold critical_filenames. rewrite length_map. lia.
Qed.

(** ** The tag distribution of the report *)

Lemma insert_by_count_perm x l : Permutation (insert_by_count x l) (x :: l).
Proof.
  induction l as [|y l IH]; cbn [insert_by_count]; [reflexivity|].
  destruct (snd y <=? snd x)%Z; [reflexivity|].
  rewrite IH. apply perm_swap.
Qed.

Lemma insert_by_count_sorted x l :
  StronglySorted count_ge l -> StronglySorted count_ge (insert_by_count x l).
Proof.
  induction 1 as [|y l Hsorted IH Hall]; cbn [insert_by_count].
  - repeat constructor.
  - destruct (Z.leb_spec (snd y) (snd x)) as [Hle|Hgt].
    + constructor; [now constructor|]. constructor; [exact Hle|].
      apply (Forall_impl (count_ge x)) in Hall; [exact Hall|].
      intros z Hz. unfold count_ge in *. lia.
    + constructor; [exact IH|].
      eapply Permutation_Forall; [symmetry; apply insert_by_count_perm|].
      constructor; [unfold count_ge; lia | exact Hall].
Qed.

Lemma insert_by_count_filter c x l :
  filter (has_count c) (insert_by_count x l) = filter (has_count c) (x :: l).
Proof.
  induction l as [|y l IH]; cbn [insert_by_count]; [reflexivity|].
  destruct (Z.leb_spec (snd y) (snd x)) as [Hle|Hgt]; [reflexivity|].
  cbn [filter] in *. rewrite IH. unfold has_count.
  destruct (Z.eqb_spec (snd x) c); destruct (Z.eqb_spec (snd y) c);
    try reflexivity. lia.
Qed.

Lemma sort_by_count_facts l :
  Permutation (sort_by_count l) l
  /\ StronglySorted count_ge (sort_by_count l)
  /\ forall c, filter (has_count c) (sort_by_count l) = filter (has_count c) l.
Proof.
  unfold sort_by_count. induction l as [|x l (Hperm & Hsorted & Hstable)]; cbn [fold_right].
  - repeat split; constructor.
  - split; [|split].
    + rewrite insert_by_count_perm. now constructor.
    + now apply insert_by_count_sorted.
    + intros c. rewrite insert_by_count_filter. cbn [filter]. now rewrite Hstable.
Qed.

(** X10.  The tag distribution of the report has one line for every tag of
    the tag index, in the order of descending document count; tags of equal
    count stay in the order of the tag index. *)
Theorem tag_distribution_sorted_stable (results : analysis_results) :
  exists lines,
    tag_distribution results = String.concat "" (map tag_line lines)
    /\ Permutation lines (tag_counts results)
    /\ StronglySorted count_ge lines
    /\ forall c, filter (has_count c) lines = filter (has_count c) (tag_counts results).
Proof.
  exists (sort_by_count (tag_counts results)).
  split; [|apply sort_by_count_facts].
  unfold tag_distribution, tag_counts. f_equal. apply map_ext. now intros [tag count].
Qed.

(** ** The tag hierarchy of the search index *)

Lemma dict_set_nonempty {V : Type} (k : string) (v : V) (d : dict V) :
  dict_set k v d <> [].
Proof.
  destruct d as [|[k' v'] d]; simpl; [discriminate|].
  destruct (String.eqb k k'); discriminate.
Qed.

Lemma add_tag_entry_categorized (P : string -> Prop) docs tree tag ids tree' :
  P tag ->
  well_categorized P tree ->
  add_tag_entry docs tree (tag, ids) = Ok tree' ->
  well_categorized P tree' /\ (NoDup (dict_keys tree) -> NoDup (dict_keys tree')).
Proof.
  intros Htag Hwell. unfold add_tag_entry.
  destruct (mapM (summarize docs) ids) as [summaries|]; cbn [bind]; [|discriminate].
  intros [= <-]. split; [|apply dict_keys_set_NoDup].
  intros c inner Hin. apply dict_set_In in Hin. destruct Hin as [[-> ->]|Hin].
  - split; [apply dict_set_nonempty|].
    intros t entry Ht. apply dict_set_In in Ht. destruct Ht as [[-> _]|Ht]; [now split|].
    destruct (dict_get (_get_tag_category tag) tree) as [inner|] eqn:E; [|destruct Ht].
    apply dict_get_In in E. destruct (Hwell _ _ E) as [_ Hinner].
    now apply (Hinner t entry).
  - now apply Hwell.
Qed.

Lemma tag_tree_categorized (P : string -> Prop) docs items :
  (forall tag ids, In (tag, ids) items -> P tag) ->
  forall tree tree',
    well_categorized P tree ->
    NoDup (dict_keys tree) ->
    foldM (add_tag_entry docs) items tree = Ok tree' ->
    well_categorized P tree' /\ NoDup (dict_keys tree').
Proof.
  induction items as [|[tag ids] items IH]; intros HP tree tree' Hwell Hnd; cbn [foldM].
  - intros [= <-]. now split.
  - destruct (add_tag_entry docs tree (tag, ids)) as [tree1|] eqn:E; cbn [bind];
      [|discriminate].
    destruct (add_tag_entry_categorized P docs tree tag ids tree1) as [Hwell1 Hnd1];
      [apply (HP tag ids); now left | exact Hwell | exact E |].
    apply IH; [intros t i Hin; apply (HP t i); now right | exact Hwell1 | auto].
Qed.

Lemma results_tag_index_vocabulary now directory_path tree entries tag ids :
  scanned_entries tree = Ok entries ->
  In (tag, ids) (tag_index (results_of now directory_path entries)) ->
  In tag tag_vocabulary.
Proof.
  intros He Hin.
  pose proof (scanned_entries_nodup tree entries He) as Hnd.
  apply In_dict_get in Hin; [|apply results_keys_NoDup].
  rewrite (results_tag_index _ _ _ _ Hnd) in Hin.
  destruct (filter (carries tag) entries) as [|e es] eqn:E; [discriminate|].
  assert (Hcar : In e (filter (carries tag) entries)) by (rewrite E; now left).
  apply filter_In in Hcar. destruct Hcar as [Hentry Hcar].
  unfold carries in Hcar. apply set_mem_In in Hcar.
  assert (Hall : Forall (fun e => forall t, In t (tags (doc_meta (snd e))) ->
                                            In t tag_vocabulary) entries).
  { revert He. apply mapM_Forall. intros [root file] e' He'. cbn [fst snd] in He'.
    destruct (file_document_returns root file) as (md & Hmd & hash & Hdoc).
    rewrite Hdoc in He'. injection He' as <-. cbn [snd doc_meta].
    intros t. now apply (tags_in_vocabulary (file_name file)). }
  rewrite Forall_forall in Hall. now apply (Hall e).
Qed.

(** X11.  After a scan the tag hierarchy of the search index has each
    category once and only categories of the category table, never [other];
    no category stands there without a tag, and every tag stands under its
    own category and is one of the classifier's vocabulary. *)
Theorem search_index_categories (now created directory_path : string) (tree : walk) :
  exists r idx,
    analyze_directory now directory_path tree = Ok r
    /\ create_searchable_index created r = Ok idx
    /\ NoDup (dict_keys (index_tags idx))
    /\ forall cat_name inner,
        In (cat_name, inner) (index_tags idx) ->
        In cat_name categories
        /\ inner <> []
        /\ forall tag entry,
            In (tag, entry) inner ->
            _get_tag_category tag = cat_name /\ In tag tag_vocabulary.
Proof.
  destruct (analyze_directory_entries now directory_path tree) as (entries & He & Hr).
  pose proof (scanned_entries_nodup tree entries He) as Hnd.
  destruct (create_searchable_index_results now directory_path created entries Hnd)
    as (idx & Hidx & _).
  exists (results_of now directory_path entries), idx.
  split; [exact Hr|]. split; [exact Hidx|].
  unfold create_searchable_index in Hidx.
  destruct (foldM (add_tag_entry (documents (results_of now directory_path entries)))
              (tag_index (results_of now directory_path entries)) [])
    as [tag_tree|] eqn:Hfold; cbn [bind] in Hidx; [|discriminate].
  injection Hidx as <-. cbn [index_tags].
  destruct (tag_tree_categorized (fun tag => In tag tag_vocabulary)
              (documents (results_of now directory_path entries))
              (tag_index (results_of now directory_path entries))
              (fun tag ids => results_tag_index_vocabulary now directory_path tree
                                entries tag ids He)
              [] tag_tree) as [Hwell Hkeys]; [intros c i [] | constructor | exact Hfold |].
  split; [exact Hkeys|].
  intros c inner Hin. destruct (Hwell c inner Hin) as [Hne Htags].
  split; [|split; assumption].
  destruct inner as [|[tag entry] inner]; [contradiction|].
  destruct (Htags tag entry (or_introl eq_refl)) as [<- Hv].
  now apply vocabulary_has_category.
Qed.

Lemma mapM_summarize docs ids summaries :
  mapM (summarize docs) ids = Ok summaries ->
  map summary_id summaries = ids /\ Forall (summary_of docs) summaries.
Proof.
  revert summaries. induction ids as [|id ids IH]; cbn [mapM]; intros summaries H.
  - injection H as <-. split; [reflexivity | constructor].
  - unfold summarize at 1 in H.
    destruct (dict_get id docs) as [doc|] eqn:E; cbn [bind] in H; [|discriminate].
    destruct (mapM (summarize docs) ids) as [rest|]; cbn [bind] in H; [|discriminate].
    injection H as <-. destruct (IH rest eq_refl) as [Hids Hall].
    split; [cbn [map summary_id]; now rewrite Hids|].
    constructor; [|exact Hall]. exists doc. cbn. now repeat split.
Qed.

Lemma add_tag_entry_summaries docs tree tag ids tree' :
  add_tag_entry docs tree (tag, ids) = Ok tree' ->
  exists entry,
    mapM (summarize docs) ids = Ok (entry_documents entry)
    /\ forall t,
        lookup_tag tree' t = if String.eqb t tag then Some entry else lookup_tag tree t.
Proof.
  unfold add_tag_entry.
  destruct (mapM (summarize docs) ids) as [summaries|]; cbn [bind]; [|discriminate].
  intros [= <-].
  exists {| document_count := Z.of_nat (List.length summaries);
            entry_documents := summaries |}.
  split; [reflexivity|]. intros t. unfold lookup_tag.
  destruct (String.eqb_spec t tag) as [->|Hne].
  - now rewrite !dict_get_set_same.
  - destruct (String.eqb_spec (_get_tag_category t) (_get_tag_category tag)) as [Hc|Hc].
    + rewrite Hc, dict_get_set_same, dict_get_set_other by assumption.
      now destruct (dict_get (_get_tag_category tag) tree).
    + now rewrite dict_get_set_other.
Qed.

Lemma tag_tree_summaries docs items :
  NoDup (dict_keys items) ->
  forall tree tree',
    foldM (add_tag_entry docs) items tree = Ok tree' ->
    forall t,
      match dict_get t items with
      | Some ids =>
          exists entry, lookup_tag tree' t = Some entry
                        /\ mapM (summarize docs) ids = Ok (entry_documents entry)
      | None => lookup_tag tree' t = lookup_tag tree t
      end.
Proof.
  induction items as [|[tag ids] items IH]; intros Hnd tree tree'; cbn [foldM].
  - intros [= <-] t. reflexivity.
  - unfold dict_keys in Hnd. cbn [map fst] in Hnd.
    inversion Hnd as [|? ? Hnotin Hnd']; subst.
    destruct (add_tag_entry docs tree (tag, ids)) as [tree1|] eqn:E; cbn [bind];
      [|discriminate].
    intros Hfold t. specialize (IH Hnd' tree1 tree' Hfold t).
    destruct (add_tag_entry_summaries docs tree tag ids tree1 E) as (entry & Hs & Hl).
    specialize (Hl t). cbn [dict_get].
    destruct (String.eqb_spec t tag) as [Heq|Hne].
    + subst t. destruct (dict_get tag items) as [ids'|] eqn:E'.
      * exfalso. apply Hnotin. apply dict_get_In in E'.
        change tag with (fst (tag, ids')). now apply in_map.
      * exists entry. rewrite IH, Hl. now split.
    + destruct (dict_get t items); [exact IH|]. now rewrite IH, Hl.
Qed.

(** X12.  After a scan the entry of a tag in the search index lists one
    summary for every id of the tag's bucket, in the order of the bucket; each
    summary gives the filename, path, date and location of the document that
    the documents mapping holds under that id.  A tag without a bucket has no
    entry. *)
Theorem search_index_summaries (now created directory_path : string) (tree : walk) :
  exists r idx,
    analyze_directory now directory_path tree = Ok r
    /\ create_searchable_index created r = Ok idx
    /\ forall tag,
        match dict_get tag (tag_index r) with
        | Some ids =>
            exists entry,
              lookup_tag (index_tags idx) tag = Some entry
              /\ map summary_id (entry_documents entry) = ids
              /\ Forall (summary_of (documents r)) (entry_documents entry)
        | None => lookup_tag (index_tags idx) tag = None
        end.
Proof.
  destruct (analyze_directory_entries now directory_path tree) as (entries & He & Hr).
  pose proof (scanned_entries_nodup tree entries He) as Hnd.
  destruct (create_searchable_index_results now directory_path created entries Hnd)
    as (idx & Hidx & _).
  exists (results_of now directory_path entries), idx.
  split; [exact Hr|]. split; [exact Hidx|].
  unfold create_searchable_index in Hidx.
  destruct (foldM (add_tag_entry (documents (results_of now directory_path entries)))
              (tag_index (results_of now directory_path entries)) [])
    as [tag_tree|] eqn:Hfold; cbn [bind] in Hidx; [|discriminate].
  injection Hidx as <-. cbn [index_tags]. intros tag.
  pose proof (tag_tree_summaries _ _
                (proj1 (results_keys_NoDup now directory_path entries))
                [] tag_tree Hfold tag) as Hlook.
  destruct (dict_get tag (tag_index (results_of now directory_path entries)))
    as [ids|]; [|exact Hlook].
  destruct Hlook as (entry & Hl & Hs). exists entry. split; [exact Hl|].
  now apply mapM_summarize.
Qed.

(** ** The metadata files *)

Lemma group_document_lookup by_category item cat_name filename :
  lookup_record (group_document by_category item) cat_name filename
  = if filed_as cat_name filename item then Some (record_of item)
    else lookup_record by_category cat_name filename.
Proof.
  destruct item as [doc_id doc]. unfold group_document, lookup_record, filed_as, record_of.
  cbn [fst snd].
  destruct (String.eqb_spec cat_name (category doc)) as [->|Hc]; cbn [andb].
  - rewrite dict_get_set_same.
    destruct (String.eqb_spec filename (original_filename (doc_meta doc))) as [->|Hf].
    + now rewrite dict_get_set_same.
    + rewrite dict_get_set_other by assumption.
      now destruct (dict_get (category doc) by_category).
  - now rewrite dict_get_set_other.
Qed.

Lemma group_fold_lookup docs cat_name filename :
  lookup_record (fold_left group_document docs []) cat_name filename
  = option_map record_of (find (filed_as cat_name filename) (rev docs)).
Proof.
  induction docs as [|item docs IH] using rev_ind; [reflexivity|].
  rewrite fold_left_app, rev_unit. cbn [fold_left find].
  rewrite group_document_lookup.
  destruct (filed_as cat_name filename item); [reflexivity | exact IH].
Qed.

(** X13.  In the grouping [generate_metadata_files] makes, under a category
    and a filename stands the record of the last document of the mapping that
    has this category and this filename, with its id, tags, date, location
    and hash; where the mapping has no such document nothing stands.
    Documents of one filename in directories of one name thus share a place,
    and the later one takes it. *)
Theorem documents_grouped_by_category
    (results : analysis_results) (cat_name filename : string) :
  lookup_record (group_by_category results) cat_name filename
  = option_map record_of
      (find (filed_as cat_name filename) (rev (documents results))).
Proof.
  unfold group_by_category. apply group_fold_lookup.
Qed.

Lemma group_document_keys by_category item :
  (NoDup (dict_keys by_category) -> NoDup (dict_keys (group_document by_category item)))
  /\ forall cat_name inner,
      In (cat_name, inner) (group_document by_category item) ->
      (cat_name = category (snd item) /\ inner <> [])
      \/ In (cat_name, inner) by_category.
Proof.
  destruct item as [doc_id doc]. unfold group_document. cbn [snd].
  split; [apply dict_keys_set_NoDup|].
  intros c inner Hin. apply dict_set_In in Hin.
  destruct Hin as [[-> ->]|Hin]; [left | now right].
  split; [reflexivity | apply dict_set_nonempty].
Qed.

Lemma group_fold_keys docs :
  NoDup (dict_keys (fold_left group_document docs []))
  /\ forall cat_name inner,
      In (cat_name, inner) (fold_left group_document docs []) ->
      inner <> [] /\ exists item, In item docs /\ category (snd item) = cat_name.
Proof.
  induction docs as [|item docs [IHk IHc]] using rev_ind.
  - split; [constructor | intros c inner []].
  - rewrite fold_left_app. cbn [fold_left].
    destruct (group_document_keys (fold_left group_document docs []) item) as [Hk Hc].
    split; [now apply Hk|].
    intros c inner Hin. destruct (Hc c inner Hin) as [[-> Hne]|Hold].
    + split; [exact Hne|]. exists item. split; [apply in_or_app; right; now left|].
      reflexivity.
    + destruct (IHc c inner Hold) as [Hne (it & Hit & Hcat)].
      split; [exact Hne|]. exists it. split; [apply in_or_app; now left | exact Hcat].
Qed.

Lemma write_loop_events step items events outcome :
  write_loop step items = (events, outcome) ->
  forall ev,
    In ev events -> exists item evs o, In item items /\ step item = (evs, o) /\ In ev evs.
Proof.
  revert events outcome. induction items as [|item items IH]; cbn [write_loop];
    intros events outcome H ev Hev.
  - injection H as <- <-. destruct Hev.
  - destruct (step item) as [evs [u|e]] eqn:E.
    + destruct (write_loop step items) as [more o] eqn:E'.
      injection H as <- <-. apply in_app_or in Hev. destruct Hev as [Hev|Hev].
      * exists item, evs, (Ok u). split; [now left|]. now split.
      * destruct (IH more o eq_refl ev Hev) as (it & evs' & o' & Hit & Hstep & Hin).
        exists it, evs', o'. split; [now right|]. now split.
    + injection H as <- <-. exists item, evs, (Raise e). split; [now left|]. now split.
Qed.

(** X14.  Whatever the file system answers, [generate_metadata_files] writes
    nothing but files named [metadata.json] in the directory of a category
    under the output directory; the category is the one of some document of
    the mapping, its directory exists and the write of that file went well;
    the file holds the grouping of that category, which is never empty. *)
Theorem metadata_files_written_per_category
    (path_exists : string -> bool) (write_json : string -> result unit)
    (results : analysis_results) (output_dir : string) :
  forall path content,
    In (Written path content)
       (fst (generate_metadata_files path_exists write_json results output_dir)) ->
    exists cat_name,
      path = path_join (path_join output_dir cat_name) "metadata.json"
      /\ path_exists (path_join output_dir cat_name) = true
      /\ write_json path = Ok tt
      /\ dict_get cat_name (group_by_category results) = Some content
      /\ content <> []
      /\ exists item, In item (documents results) /\ category (snd item) = cat_name.
Proof.
  intros path content Hin. unfold generate_metadata_files in Hin.
  destruct (write_loop _ (group_by_category results)) as [events outcome] eqn:E.
  cbn [fst] in Hin.
  destruct (write_loop_events _ _ _ _ E _ Hin) as ([c inner] & evs & o & Hitem & Hstep & Hev).
  unfold write_category in Hstep.
  destruct (path_exists (path_join output_dir c)) eqn:Hex;
    [|injection Hstep as <- _; destruct Hev].
  destruct (write_json (path_join (path_join output_dir c) "metadata.json"))
    as [[]|e] eqn:Hw; [|injection Hstep as <- _; destruct Hev].
  injection Hstep as <- _. destruct Hev as [Hev|[Hev|[]]]; [|discriminate Hev].
  injection Hev as <- <-. exists c.
  unfold group_by_category in *.
  destruct (group_fold_keys (documents results)) as [Hk Hc].
  destruct (Hc c inner Hitem) as [Hne Hdoc].
  repeat split; try assumption.
  now apply In_dict_get.
Qed.

Lemma metadata_files_written_per_category_witness :
  exists content,
    In (Written "/case/letters/metadata.json" content)
       (fst (generate_metadata_files (fun _ => true) (fun _ => Ok tt) one_letter "/case"))
    /\ exists cat_name,
         "/case/letters/metadata.json"
         = path_join (path_join "/case" cat_name) "metadata.json"
         /\ dict_get cat_name (group_by_category one_letter) = Some content
         /\ content <> [].
Proof.
  eexists. split; [left; reflexivity|].
  destruct (metadata_files_written_per_category (fun _ => true) (fun _ => Ok tt)
              one_letter "/case" _ _ (or_introl eq_refl))
    as (c & Hpath & _ & _ & Hget & Hne & _).
  exists c. now repeat split.
Defined.

(** ** The order of the walk *)

Lemma mapM_Permutation {A B : Type} (f : A -> result B) l1 l2 :
  (forall a, exists b, f a = Ok b) ->
  Permutation l1 l2 ->
  forall e1 e2, mapM f l1 = Ok e1 -> mapM f l2 = Ok e2 -> Permutation e1 e2.
Proof.
  intros Htotal Hperm.
  induction Hperm as [|x l l' Hperm IH|x y l|l l' l'' H1 IH1 H2 IH2]; intros e1 e2 H1' H2'.
  - cbn in H1', H2'. injection H1' as <-. injection H2' as <-. constructor.
  - cbn [mapM] in H1', H2'. destruct (f x) as [b|]; cbn [bind] in *; [|discriminate].
    destruct (mapM f l) as [bs|]; cbn [bind] in *; [|discriminate].
    destruct (mapM f l') as [bs'|]; cbn [bind] in *; [|discriminate].
    injection H1' as <-. injection H2' as <-. constructor. now apply IH.
  - cbn [mapM] in H1', H2'.
    destruct (f x) as [bx|]; destruct (f y) as [by_|]; cbn [bind] in *; try discriminate.
    destruct (mapM f l) as [bs|]; cbn [bind] in *; [|discriminate].
    injection H1' as <-. injection H2' as <-. apply perm_swap.
  - destruct (mapM_returns f l') as [e' He']; [intros a _; apply Htotal|].
    transitivity e'; [now apply IH1 | now apply IH2].
Qed.

Lemma filter_Permutation {A : Type} (p : A -> bool) l l' :
  Permutation l l' -> Permutation (filter p l) (filter p l').
Proof.
  induction 1 as [|x l l' H IH|x y l|l l' l'' H1 IH1 H2 IH2]; cbn [filter].
  - constructor.
  - destruct (p x); [now constructor | exact IH].
  - destruct (p x); destruct (p y); try reflexivity. apply perm_swap.
  - now transitivity (filter p l').
Qed.

Lemma stats_eq (s1 s2 : stats) :
  total_documents s1 = total_documents s2 ->
  tagged_documents s1 = tagged_documents s2 ->
  dated_documents s1 = dated_documents s2 ->
  critical_documents s1 = critical_documents s2 ->
  s1 = s2.
Proof. destruct s1, s2; cbn. congruence. Qed.

Lemma results_documents_mem now directory_path entries id :
  dict_mem id (documents (results_of now directory_path entries)) = true
  <-> In id (map fst entries).
Proof.
  unfold dict_mem. rewrite results_documents. split.
  - destruct (find (fun e => String.eqb id (fst e)) (rev entries)) as [e|] eqn:E;
      [|discriminate].
    intros _. apply find_some in E. destruct E as [Hin Heq].
    apply String.eqb_eq in Heq. subst id. apply in_map. now apply in_rev.
  - intros Hin. apply in_map_iff in Hin. destruct Hin as (e & <- & Hin).
    destruct (find (fun e0 => String.eqb (fst e) (fst e0)) (rev entries)) eqn:E;
      [reflexivity|].
    apply in_rev in Hin. pose proof (find_none _ _ E _ Hin) as Hnone. cbn in Hnone.
    now rewrite String.eqb_refl in Hnone.
Qed.

Lemma file_document_total rf : exists e, file_document (fst rf) (snd rf) = Ok e.
Proof.
  destruct (file_document_returns (fst rf) (snd rf)) as (md & _ & hash & H). eauto.
Qed.

(** X15.  The order in which the walk yields the PDF files does not matter
    to what a scan counts and indexes: two walks with the same PDF files in
    the same directories give the same four counters, the same ids in the
    documents mapping, and under every key of the tag, location and date
    index the same ids up to their order. *)
Theorem scan_order_independent (now directory_path : string) (tree1 tree2 : walk) :
  Permutation (pdf_files tree1) (pdf_files tree2) ->
  exists r1 r2,
    analyze_directory now directory_path tree1 = Ok r1
    /\ analyze_directory now directory_path tree2 = Ok r2
    /\ statistics r1 = statistics r2
    /\ (forall id, dict_mem id (documents r1) = true <-> dict_mem id (documents r2) = true)
    /\ (forall tag, Permutation (ids_of tag (tag_index r1)) (ids_of tag (tag_index r2)))
    /\ (forall loc,
          Permutation (ids_of loc (location_index r1)) (ids_of loc (location_index r2)))
    /\ (forall key, Permutation (ids_of key (date_index r1)) (ids_of key (date_index r2))).
Proof.
  intros Hperm.
  destruct (analyze_directory_entries now directory_path tree1) as (e1 & He1 & Hr1).
  destruct (analyze_directory_entries now directory_path tree2) as (e2 & He2 & Hr2).
  pose proof (scanned_entries_nodup tree1 e1 He1) as Hnd1.
  pose proof (scanned_entries_nodup tree2 e2 He2) as Hnd2.
  assert (He : Permutation e1 e2).
  { exact (mapM_Permutation _ _ _ file_document_total Hperm e1 e2 He1 He2). }
  exists (results_of now directory_path e1), (results_of now directory_path e2).
  split; [exact Hr1|]. split; [exact Hr2|].
  assert (Hlen : forall p : string * document -> bool,
             List.length (filter p e1) = List.length (filter p e2)).
  { intros p. apply Permutation_length. now apply filter_Permutation. }
  split; [|split; [|split; [|split]]].
  - destruct (results_statistics now directory_path e1) as (T1 & G1 & D1 & C1).
    destruct (results_statistics now directory_path e2) as (T2 & G2 & D2 & C2).
    apply stats_eq.
    + rewrite T1, T2. f_equal. now apply Permutation_length.
    + rewrite G1, G2. f_equal. apply Hlen.
    + rewrite D1, D2. f_equal. apply Hlen.
    + rewrite C1, C2. f_equal. apply Hlen.
  - intros id. rewrite !results_documents_mem.
    split; apply Permutation_in; [|symmetry]; now apply Permutation_map.
  - intros tag.
    rewrite (ids_of_bucket _ _ _ (results_tag_index now directory_path e1 tag Hnd1)).
    rewrite (ids_of_bucket _ _ _ (results_tag_index now directory_path e2 tag Hnd2)).
    now apply Permutation_map, filter_Permutation.
  - intros loc.
    rewrite (ids_of_bucket _ _ _ (results_location_index now directory_path e1 loc)).
    rewrite (ids_of_bucket _ _ _ (results_location_index now directory_path e2 loc)).
    now apply Permutation_map, filter_Permutation.
  - intros key.
    rewrite (ids_of_bucket _ _ _ (results_date_index now directory_path e1 key)).
    rewrite (ids_of_bucket _ _ _ (results_date_index now directory_path e2 key)).
    now apply Permutation_map, filter_Permutation.
Qed.

Lemma scan_order_independent_witness :
  exists r1 r2,
    scan [readable "damages first.pdf" digest0; readable "verdict.pdf" digest1] = Ok r1
    /\ scan [readable "verdict.pdf" digest1; readable "damages first.pdf" digest0] = Ok r2
    /\ statistics r1 = statistics r2
    /\ (forall tag, Permutation (ids_of tag (tag_index r1)) (ids_of tag (tag_index r2))).
Proof.
  destruct (scan_order_independent "2024-05-01T09:00:00" "/case"
              [("/case/letters",
                [readable "damages first.pdf" digest0; readable "verdict.pdf" digest1])]
              [("/case/letters",
                [readable "verdict.pdf" digest1; readable "damages first.pdf" digest0])]
              (perm_swap _ _ _))
    as (r1 & r2 & H1 & H2 & Hs & _ & Ht & _).
  exists r1, r2. now repeat split.
Defined.

(** ** What a match captures *)

Lemma string_length_app (s t : string) :
  String.length (s ++ t) = String.length s + String.length t.
Proof. induction s as [|c s IH]; cbn; [reflexivity | now rewrite IH]. Qed.

Lemma take_app_exact s t : Py.take (String.length s) (s ++ t) = s.
Proof. induction s as [|c s IH]; cbn; [now destruct t | now rewrite IH]. Qed.

Lemma take_consumed s t :
  Py.take (String.length (s ++ t) - String.length t) (s ++ t) = s.
Proof.
  rewrite string_length_app.
  replace (String.length s + String.length t - String.length t) with (String.length s)
    by lia.
  apply take_app_exact.
Qed.

Lemma lookup_In i cs text : Re.lookup i cs = Some text -> In (i, text) cs.
Proof.
  induction cs as [|[j t] cs IH]; cbn; [discriminate|].
  destruct (Nat.eqb_spec i j) as [->|Hne].
  - intros [= ->]. now left.
  - intros H. right. now apply IH.
Qed.

Lemma rep_sound p lo hi s :
  forall n prev cs k res,
    Re.rep p lo hi n prev s cs k = Some res ->
    exists text prev' s',
      s = text ++ s'
      /\ Py.all_str p text = true
      /\ lo <= n + String.length text
      /\ (forall h, hi = Some h -> n <= h -> n + String.length text <= h)
      /\ k prev' s' cs = Some res.
Proof.
  induction s as [|a s IH]; intros n prev cs k res; cbn [Re.rep].
  - destruct (Nat.leb_spec lo n) as [Hle|Hgt]; [|discriminate]. intros H.
    exists "", prev, "". cbn. repeat split; auto; intros; lia.
  - assert (Hstop : (if (lo <=? n)%nat then k prev (String a s) cs else None) = Some res ->
                    exists text prev' s',
                      String a s = text ++ s'
                      /\ Py.all_str p text = true
                      /\ lo <= n + String.length text
                      /\ (forall h, hi = Some h -> n <= h -> n + String.length text <= h)
                      /\ k prev' s' cs = Some res).
    { destruct (Nat.leb_spec lo n) as [Hle|Hgt]; [|discriminate]. intros H.
      exists "", prev, (String a s). cbn. repeat split; auto; intros; lia. }
    destruct (p a && Re.under hi n) eqn:Hpa; [|exact Hstop].
    destruct (Re.rep p lo hi (S n) (Some a) s cs k) as [m|] eqn:E; [|exact Hstop].
    intros [= <-].
    destruct (IH _ _ _ _ _ E) as (text & prev' & s' & -> & Hall & Hlo & Hhi & Hk).
    apply andb_true_iff in Hpa. destruct Hpa as [Hpa Hunder].
    exists (String a text), prev', s'. cbn [append Py.all_str String.length].
    rewrite Hpa, Hall. repeat split; auto; [lia|].
    intros h -> Hn. cbn [Re.under] in Hunder. apply Nat.ltb_lt in Hunder.
    specialize (Hhi h eq_refl). lia.
Qed.

Lemma run_sound G r :
  respects G r ->
  forall prev s cs k res,
    captures_in G cs ->
    Re.run r prev s cs k = Some res ->
    run_ends G r s cs k res.
Proof.
  unfold run_ends.
  induction r as [|c|p|r1 IH1 r2 IH2|r1 IH1 r2 IH2|r1 IH1|p lo hi|i r1 IH1|];
    intros Hres prev s cs k res Hcs; cbn [Re.run].
  - (* Eps *)
    intros H. exists "", prev, s, cs. repeat split; auto. intros i [[]|Hi]; exact Hi.
  - (* Chr *)
    destruct s as [|a s]; [discriminate|].
    destruct (Ascii.eqb_spec a c) as [->|]; [|discriminate].
    intros H. exists (String c ""), (Some c), s, cs.
    repeat split; auto. intros i [[]|Hi]; exact Hi.
  - (* Cls *)
    destruct s as [|a s]; [discriminate|]. destruct (p a) eqn:Hpa; [|discriminate].
    intros H. exists (String a ""), (Some a), s, cs.
    split; [reflexivity|]. split; [now exists a|].
    repeat split; auto. intros i [[]|Hi]; exact Hi.
  - (* Cat *)
    destruct Hres as [Hres1 Hres2]. intros H.
    destruct (IH1 Hres1 _ _ _ _ _ Hcs H) as (t1 & p1 & s1 & cs1 & -> & Ha1 & Hc1 & Hb1 & Hk1).
    destruct (IH2 Hres2 _ _ _ _ _ Hc1 Hk1) as (t2 & p2 & s2 & cs2 & -> & Ha2 & Hc2 & Hb2 & Hk2).
    exists (t1 ++ t2), p2, s2, cs2. split; [now rewrite string_app_assoc|].
    split; [now exists t1, t2|]. split; [exact Hc2|]. split; [|exact Hk2].
    intros i Hi. apply Hb2. cbn [binds] in Hi. destruct Hi as [Hi|Hi].
    + apply in_app_or in Hi. destruct Hi as [Hi|Hi]; [right; apply Hb1; now left | now left].
    + right. apply Hb1. now right.
  - (* Alt *)
    destruct Hres as [Hres1 Hres2].
    destruct (Re.run r1 prev s cs k) as [m|] eqn:E.
    + intros [= <-].
      destruct (IH1 Hres1 _ _ _ _ _ Hcs E) as (t & p' & s' & cs' & -> & Ha & Hc & Hb & Hk).
      exists t, p', s', cs'. split; [reflexivity|]. split; [now left|].
      repeat split; auto. intros i [[]|Hi]. apply Hb. now right.
    + intros H.
      destruct (IH2 Hres2 _ _ _ _ _ Hcs H) as (t & p' & s' & cs' & -> & Ha & Hc & Hb & Hk).
      exists t, p', s', cs'. split; [reflexivity|]. split; [now right|].
      repeat split; auto. intros i [[]|Hi]. apply Hb. now right.
  - (* Opt *)
    cbn [respects] in Hres. destruct (Re.run r1 prev s cs k) as [m|] eqn:E.
    + intros [= <-].
      destruct (IH1 Hres _ _ _ _ _ Hcs E) as (t & p' & s' & cs' & -> & Ha & Hc & Hb & Hk).
      exists t, p', s', cs'. split; [reflexivity|]. split; [now right|].
      repeat split; auto. intros i [[]|Hi]. apply Hb. now right.
    + intros H. exists "", prev, s, cs. split; [reflexivity|]. split; [now left|].
      repeat split; auto. intros i [[]|Hi]; exact Hi.
  - (* Rep *)
    intros H.
    destruct (rep_sound _ _ _ _ _ _ _ _ _ H) as (t & p' & s' & -> & Ha & Hlo & Hhi & Hk).
    exists t, p', s', cs. split; [reflexivity|]. split.
    + cbn [lang]. repeat split; auto. intros h Hh. specialize (Hhi h Hh). lia.
    + repeat split; auto. intros i [[]|Hi]; exact Hi.
  - (* Grp *)
    destruct Hres as [Hclass Hres]. intros H.
    destruct (IH1 Hres _ _ _ _ _ Hcs H) as (t & p' & s' & cs' & -> & Ha & Hc & Hb & Hk).
    rewrite take_consumed in Hk.
    exists t, p', s', ((i, t) :: cs'). split; [reflexivity|]. split; [exact Ha|].
    split; [|split; [|exact Hk]].
    + intros j text [[= <- <-]|Hin]; [now apply Hclass | now apply Hc].
    + intros j Hj. cbn [Re.lookup]. destruct (j =? i)%nat eqn:Eji; [discriminate|].
      apply Hb. cbn [binds] in Hj. destruct Hj as [[Hj|Hj]|Hj]; [|now left | now right].
      subst j. now rewrite Nat.eqb_refl in Eji.
  - (* Bnd *)
    destruct (xorb _ _); [|discriminate].
    intros H. exists "", prev, s, cs. repeat split; auto. intros i [[]|Hi]; exact Hi.
Qed.

Lemma search_from_sound G r :
  respects G r ->
  forall s prev cs,
    Re.search_from r prev s = Some cs ->
    captures_in G cs /\ forall i, In i (binds r) -> Re.lookup i cs <> None.
Proof.
  intros Hres.
  assert (Hrun : forall prev s cs,
             Re.run r prev s [] Re.accept = Some cs ->
             captures_in G cs /\ forall i, In i (binds r) -> Re.lookup i cs <> None).
  { intros prev s cs E.
    destruct (run_sound G r Hres prev s [] Re.accept cs
                (fun i t (H : In (i, t) []) => match H with end) E)
      as (t & p' & s' & cs' & _ & _ & Hc & Hb & Hk).
    unfold Re.accept in Hk. injection Hk as <-.
    split; [exact Hc|]. intros i Hi. apply Hb. now left. }
  induction s as [|a s IH]; intros prev cs; cbn [Re.search_from].
  - destruct (Re.run r prev "" [] Re.accept) as [m|] eqn:E; [|discriminate].
    intros [= <-]. now apply (Hrun prev "").
  - destruct (Re.run r prev (String a s) [] Re.accept) as [m|] eqn:E.
    + intros [= <-]. now apply (Hrun prev (String a s)).
    + apply IH.
Qed.

(** The three groups of a match of a pattern that binds them. *)
Lemma search_three_groups G r s m :
  respects G r ->
  binds r = [1; 2; 3] ->
  Re.group_count r = 3 ->
  Re.search r s = Some m ->
  exists g1 g2 g3, m = [Some g1; Some g2; Some g3] /\ G 1 g1 /\ G 2 g2 /\ G 3 g3.
Proof.
  intros Hres Hbinds Hcount. unfold Re.search.
  destruct (Re.search_from r None s) as [cs|] eqn:E; [|discriminate].
  intros [= <-]. rewrite Hcount. cbn [seq map].
  destruct (search_from_sound G r Hres s None cs E) as [Hcs Hbound].
  rewrite Hbinds in Hbound.
  destruct (Re.lookup 1 cs) as [g1|] eqn:E1; [|now destruct (Hbound 1 ltac:(cbn; tauto))].
  destruct (Re.lookup 2 cs) as [g2|] eqn:E2; [|now destruct (Hbound 2 ltac:(cbn; tauto))].
  destruct (Re.lookup 3 cs) as [g3|] eqn:E3; [|now destruct (Hbound 3 ltac:(cbn; tauto))].
  exists g1, g2, g3. split; [reflexivity|].
  apply lookup_In in E1, E2, E3. repeat split; now apply Hcs.
Qed.

Lemma lang_digits lo hi text :
  lang (Re.digits lo hi) text -> decimal_text lo hi text.
Proof.
  cbn. intros (Hall & Hlo & Hhi). split; [exact Hall|].
  split; [exact Hlo | now apply Hhi].
Qed.

Lemma date_patterns_respect p :
  In p date_patterns ->
  respects date_groups p /\ binds p = [1; 2; 3] /\ Re.group_count p = 3.
Proof.
  assert (Hyear : forall lo hi text, lang (Re.digits lo hi) text -> date_groups 3 text).
  { intros lo hi text Htext _. now apply (lang_digits lo hi text). }
  assert (Hother : forall i text, i <> 3 -> date_groups i text).
  { intros i text Hi Heq. contradiction. }
  unfold date_patterns. intros H.
  repeat (destruct H as [<-|H];
          [split; [|split; reflexivity];
           cbn [respects Re.cat]; repeat split;
           intros text Htext;
           solve [apply Hother; discriminate | exact (Hyear _ _ text Htext)]|]).
  destruct H.
Qed.

(** Every match of a date pattern has its three groups, the third made of
    decimal digits. *)
Lemma date_pattern_groups p s m :
  In p date_patterns ->
  Re.search p s = Some m ->
  exists g1 g2 g3,
    m = [Some g1; Some g2; Some g3] /\ Py.all_str Py.isdecimal g3 = true.
Proof.
  intros Hp Hm. destruct (date_patterns_respect p Hp) as (Hres & Hbinds & Hcount).
  destruct (search_three_groups date_groups p s m Hres Hbinds Hcount Hm)
    as (g1 & g2 & g3 & -> & _ & _ & H3).
  exists g1, g2, g3. split; [reflexivity | now apply H3].
Qed.

Lemma first_date_match_groups patterns s m :
  (forall p, In p patterns -> In p date_patterns) ->
  first_date_match patterns s = Some m ->
  exists g1 g2 g3,
    m = [Some g1; Some g2; Some g3] /\ Py.all_str Py.isdecimal g3 = true.
Proof.
  induction patterns as [|p ps IH]; cbn [first_date_match]; intros Hsub; [discriminate|].
  destruct (Re.search p s) as [m'|] eqn:E.
  - intros [= <-]. apply (date_pattern_groups p s); [apply Hsub; now left | exact E].
  - apply IH. intros q Hq. apply Hsub. now right.
Qed.

Lemma expand_year_decimal year :
  Py.all_str Py.isdecimal year = true -> exists y, expand_year (Some year) = Ok y.
Proof.
  intros Hd. unfold expand_year.
  destruct (String.length year =? 2)%nat eqn:Hlen; [|eauto].
  apply Nat.eqb_eq in Hlen.
  destruct year as [|a [|b [|c r]]]; cbn in Hlen; try lia.
  cbn [Py.all_str] in Hd. rewrite andb_true_r in Hd.
  apply andb_true_iff in Hd. destruct Hd as [Ha Hb].
  rewrite (int_two_digits a b Ha Hb). cbn [bind]. eauto.
Qed.

Lemma _parse_date_try_returns g1 g2 g3 :
  Py.all_str Py.isdecimal g3 = true ->
  exists d, _parse_date_try [Some g1; Some g2; Some g3] = Ok (Some d).
Proof.
  intros Hd. destruct (expand_year_decimal g3 Hd) as [y Hy].
  unfold _parse_date_try. cbn [str_attr bind].
  destruct (Py.isdigit g2); rewrite Hy; cbn [bind str_attr]; eauto.
Qed.

(** X16.  The [except] clause of [_parse_date] never fires on a filename:
    whichever date pattern matches first, its match has the three groups and
    a year group of decimal digits, the [try] block returns a date, and that
    date is the extracted one.  So a date is extracted exactly when some date
    pattern matches the filename without its extension. *)
Theorem date_extracted_iff_pattern_matches (filename : string) :
  exists md,
    extract_from_filename filename = Ok md
    /\ (forall m,
          first_date_match date_patterns (fst (OsPath.splitext filename)) = Some m ->
          exists g1 g2 g3 d,
            m = [Some g1; Some g2; Some g3]
            /\ Py.all_str Py.isdecimal g3 = true
            /\ _parse_date_try m = Ok (Some d)
            /\ extracted_date md = Some d)
    /\ (extracted_date md = None
        <-> first_date_match date_patterns (fst (OsPath.splitext filename)) = None).
Proof.
  destruct (date_loop_returns date_patterns (fst (OsPath.splitext filename))) as [d Hd].
  destruct (extract_from_filename_date filename d Hd) as (md & Hmd & Hdate).
  exists md. split; [exact Hmd|].
  rewrite date_loop_first_match in Hd.
  assert (Hmatch : forall m,
             first_date_match date_patterns (fst (OsPath.splitext filename)) = Some m ->
             exists g1 g2 g3 d',
               m = [Some g1; Some g2; Some g3]
               /\ Py.all_str Py.isdecimal g3 = true
               /\ _parse_date_try m = Ok (Some d')
               /\ extracted_date md = Some d').
  { intros m Hm.
    destruct (first_date_match_groups date_patterns _ m (fun p H => H) Hm)
      as (g1 & g2 & g3 & -> & Hg3).
    destruct (_parse_date_try_returns g1 g2 g3 Hg3) as [d' Hd'].
    exists g1, g2, g3, d'. repeat split; try assumption.
    rewrite Hm in Hd. unfold _parse_date in Hd. rewrite Hd' in Hd.
    cbn [try_except] in Hd. congruence. }
  split; [exact Hmatch|]. split.
  - intros Hnone.
    destruct (first_date_match date_patterns (fst (OsPath.splitext filename))) as [m|] eqn:E;
      [|reflexivity].
    destruct (Hmatch m eq_refl) as (_ & _ & _ & d' & _ & _ & _ & Hsome). congruence.
  - intros Hnone. rewrite Hnone in Hd. congruence.
Qed.

Lemma day_first_pattern_respects :
  respects day_first_groups day_first_pattern
  /\ binds day_first_pattern = [1; 2; 3]
  /\ Re.group_count day_first_pattern = 3.
Proof.
  split; [|split; reflexivity].
  cbn [day_first_pattern date_patterns nth respects Re.cat].
  repeat match goal with
         | |- _ /\ _ => split
         | |- True => exact I
         | |- respects _ _ => exact I
         end;
    intros text Htext; unfold day_first_groups; (split; [|split]);
    intros Heq; try discriminate Heq; exact (lang_digits _ _ _ Htext).
Qed.

Lemma date_loop_day_first s m :
  Re.search day_first_pattern s = Some m -> date_loop date_patterns s = _parse_date m.
Proof.
  intros H. unfold date_patterns. cbn [date_loop].
  change (Re.cat [Bnd; Grp 1 (digits 1 2); date_sep; Grp 2 (digits 1 2); date_sep;
                  Grp 3 (digits 2 4); Bnd]) with day_first_pattern.
  now rewrite H.
Qed.

Lemma three_digit_year_not_canonical a b c d year :
  String.length year = 3 ->
  canonical_date (String a (String b "") ++ "-" ++ String c (String d "") ++ "-" ++ year)
  = false.
Proof.
  destruct year as [|y1 [|y2 [|y3 [|y4 r]]]]; cbn [String.length]; try lia.
  reflexivity.
Qed.

(** X17.  When the first date pattern, day first, matches the filename
    without its extension, the extracted date is the day and the month of
    the match filled to two digits and the year, expanded to four digits
    when it has two; it has the canonical shape DD-MM-YYYY unless the year
    group has three digits, which the pattern allows and [_parse_date] leaves
    as they are. *)
Theorem day_first_match_gives_date (filename : string) (m : match_object) :
  Re.search day_first_pattern (fst (OsPath.splitext filename)) = Some m ->
  exists day month year yyyy md,
    m = [Some day; Some month; Some year]
    /\ decimal_text 1 2 day /\ decimal_text 1 2 month /\ decimal_text 2 4 year
    /\ expand_year (Some year) = Ok yyyy
    /\ extract_from_filename filename = Ok md
    /\ extracted_date md
       = Some (Py.zfill 2 day ++ "-" ++ Py.zfill 2 month ++ "-" ++ yyyy)
    /\ (canonical_date (Py.zfill 2 day ++ "-" ++ Py.zfill 2 month ++ "-" ++ yyyy) = true
        <-> String.length year <> 3).
Proof.
  intros Hm.
  destruct day_first_pattern_respects as (Hres & Hbinds & Hcount).
  destruct (search_three_groups day_first_groups _ _ m Hres Hbinds Hcount Hm)
    as (day & month & year & -> & H1 & H2 & H3).
  destruct H1 as [H1 _]. specialize (H1 eq_refl). destruct H1 as [Hday Hdlen].
  destruct H2 as (_ & H2 & _). specialize (H2 eq_refl). destruct H2 as [Hmonth Hmlen].
  destruct H3 as (_ & _ & H3). specialize (H3 eq_refl). destruct H3 as [Hyear Hylen].
  destruct (zfill2_digits day Hday Hdlen) as (a & b & Hzd & Ha & Hb).
  destruct (zfill2_digits month Hmonth Hmlen) as (c & d & Hzm & Hc & Hd).
  destruct (expand_year_decimal year Hyear) as [yyyy Hy].
  assert (Hparse : _parse_date [Some day; Some month; Some year]
                   = Ok (Some (Py.zfill 2 day ++ "-" ++ Py.zfill 2 month ++ "-" ++ yyyy))).
  { unfold _parse_date, _parse_date_try. cbn [str_attr bind].
    rewrite isdigit_of_decimal; [|destruct month; cbn in Hmlen; [lia | discriminate]
                                 |exact Hmonth].
    rewrite Hy. reflexivity. }
  destruct (extract_from_filename_date filename _
              (eq_trans (date_loop_day_first _ _ Hm) Hparse)) as (md & Hmd & Hdate).
  exists day, month, year, yyyy, md.
  repeat (split; [first [reflexivity | assumption | now split]|]).
  rewrite Hzd, Hzm.
  destruct (Nat.eq_dec (String.length year) 3) as [H3|H3].
  - assert (yyyy = year) as ->.
    { unfold expand_year in Hy. rewrite H3 in Hy. cbn in Hy. congruence. }
    rewrite (three_digit_year_not_canonical a b c d year H3).
    split; [discriminate | contradiction].
  - split; [intros _; exact H3 | intros _].
    destruct (expand_year_digits year Hyear ltac:(lia)) as (y1 & y2 & y3 & y4 & Hy' & Hys).
    rewrite Hy in Hy'. injection Hy' as ->. now apply canonical_date_parts.
Qed.

Lemma day_first_match_gives_date_witness :
  exists md,
    extract_from_filename "Report-5-3-21.pdf" = Ok md
    /\ extracted_date md = Some "05-03-2021"
    /\ canonical_date "05-03-2021" = true.
Proof.
  destruct (day_first_match_gives_date "Report-5-3-21.pdf"
              [Some "5"; Some "3"; Some "21"] eq_refl)
    as (day & month & year & yyyy & md & Hm & _ & _ & _ & Hy & Hmd & Hdate & Hcanon).
  injection Hm as <- <- <-. injection Hy as <-.
  exists md. split; [exact Hmd|]. split; [exact Hdate|].
  apply Hcanon. discriminate.
Defined.

(** ** The keys and buckets of the indices *)

Lemma scanned_entries_location tree entries e loc :
  scanned_entries tree = Ok entries ->
  In e entries ->
  location_key e = Some loc ->
  In loc ["thurrock"; "ellingham"; "ak_housing"].
Proof.
  intros He Hin Hkey.
  assert (Hall : Forall (fun e => forall l, location (doc_meta (snd e)) = Some l ->
                                            In l (map fst locations)) entries).
  { revert He. apply mapM_Forall. intros [root file] e' He'. cbn [fst snd] in He'.
    destruct (file_document_returns root file) as (md & Hmd & hash & Hdoc).
    rewrite Hdoc in He'. injection He' as <-. cbn [snd doc_meta]. intros l Hl.
    destruct (extract_from_filename_fields (file_name file)) as (md' & Hmd' & _ & _ & _ & Hloc).
    rewrite Hmd in Hmd'. injection Hmd' as <-. rewrite Hloc in Hl.
    now apply location_loop_in_table in Hl. }
  rewrite Forall_forall in Hall. apply (Hall e Hin).
  unfold location_key in Hkey.
  destruct (location (doc_meta (snd e))) as [l|]; [|discriminate].
  destruct (truthy (Some l)); [|discriminate]. congruence.
Qed.

(** X18.  In the three indices of a scan no key stands twice and no bucket
    is empty; the keys of the tag index are tags of the classifier's
    vocabulary, the keys of the location index are locations of the location
    table, and a key of the date index has at most seven characters. *)
Theorem scan_index_keys (now directory_path : string) (tree : walk) :
  exists r,
    analyze_directory now directory_path tree = Ok r
    /\ NoDup (dict_keys (tag_index r))
    /\ NoDup (dict_keys (location_index r))
    /\ NoDup (dict_keys (date_index r))
    /\ (forall key ids,
          In (key, ids) (tag_index r) \/ In (key, ids) (location_index r)
          \/ In (key, ids) (date_index r) ->
          ids <> [])
    /\ (forall tag ids, In (tag, ids) (tag_index r) -> In tag tag_vocabulary)
    /\ (forall loc ids,
          In (loc, ids) (location_index r) ->
          In loc ["thurrock"; "ellingham"; "ak_housing"])
    /\ (forall key ids, In (key, ids) (date_index r) -> String.length key <= 7).
Proof.
  destruct (analyze_directory_entries now directory_path tree) as (entries & He & Hr).
  pose proof (scanned_entries_nodup tree entries He) as Hnd.
  destruct (results_keys_NoDup now directory_path entries) as (Kt & Kl & Kd).
  eexists. split; [exact Hr|]. split; [exact Kt|]. split; [exact Kl|]. split; [exact Kd|].
  split; [|split; [|split]].
  - intros key ids [H|[H|H]].
    + apply (In_dict_get _ _ _ Kt) in H. rewrite (results_tag_index _ _ _ _ Hnd) in H.
      apply bucket_Some in H. destruct H as [-> Hne]. exact Hne.
    + apply (In_dict_get _ _ _ Kl) in H. rewrite results_location_index in H.
      apply bucket_Some in H. destruct H as [-> Hne]. exact Hne.
    + apply (In_dict_get _ _ _ Kd) in H. rewrite results_date_index in H.
      apply bucket_Some in H. destruct H as [-> Hne]. exact Hne.
  - intros tag ids. now apply (results_tag_index_vocabulary now directory_path tree).
  - intros loc ids H. apply (In_dict_get _ _ _ Kl) in H.
    rewrite results_location_index in H. apply bucket_Some in H. destruct H as [_ Hne].
    destruct (filter (fun e => has_key loc (location_key e)) entries) as [|e es] eqn:E;
      [contradiction|].
    assert (Hin : In e (filter (fun e => has_key loc (location_key e)) entries))
      by (rewrite E; now left).
    apply filter_In in Hin. destruct Hin as [Hin Hkey].
    destruct (location_key e) as [l|] eqn:El; [|discriminate].
    cbn [has_key] in Hkey. apply String.eqb_eq in Hkey. subst l.
    now apply (scanned_entries_location tree entries e).
  - intros key ids H. apply (In_dict_get _ _ _ Kd) in H.
    rewrite results_date_index in H. apply bucket_Some in H. destruct H as [_ Hne].
    destruct (filter (fun e => has_key key (date_key e)) entries) as [|e es] eqn:E;
      [contradiction|].
    assert (Hin : In e (filter (fun e => has_key key (date_key e)) entries))
      by (rewrite E; now left).
    apply filter_In in Hin. destruct Hin as [_ Hkey].
    unfold date_key in Hkey.
    destruct (extracted_date (doc_meta (snd e))) as [d|]; [|discriminate].
    destruct (truthy (Some d)); [|discriminate].
    cbn [has_key] in Hkey. apply String.eqb_eq in Hkey. subst key. apply take_length.
Qed.

(** ** The case of the letters *)

Lemma lower_char_facts c :
  Ascii.eqb (Py.lower_char c) "." = Ascii.eqb c "."
  /\ Ascii.eqb (Py.lower_char c) "/" = Ascii.eqb c "/"
  /\ Py.lower_char (Py.lower_char c) = Py.lower_char c.
Proof.
  destruct c as [[] [] [] [] [] [] [] []]; vm_compute; repeat split.
Qed.

Lemma rfind_from_lower_str c i last s :
  (forall a, Ascii.eqb (Py.lower_char a) c = Ascii.eqb a c) ->
  Py.rfind_from c i last (Py.lower s) = Py.rfind_from c i last s.
Proof.
  intros Hc. unfold Py.lower. revert i last.
  induction s as [|a s IH]; intros i last; [reflexivity|].
  cbn [Py.map_str Py.rfind_from]. now rewrite Hc, IH.
Qed.

Lemma take_map_str f n s : Py.take n (Py.map_str f s) = Py.map_str f (Py.take n s).
Proof.
  revert s. induction n as [|n IH]; intros [|c s]; cbn; try reflexivity. now rewrite IH.
Qed.

Lemma drop_map_str f n s : Py.drop n (Py.map_str f s) = Py.map_str f (Py.drop n s).
Proof.
  revert s. induction n as [|n IH]; intros [|c s]; cbn; try reflexivity. apply IH.
Qed.

Lemma has_non_dot_lower p n :
  OsPath.has_non_dot (Py.lower p) n = OsPath.has_non_dot p n.
Proof.
  unfold Py.lower. revert p. induction n as [|n IH]; intros [|c p]; cbn; try reflexivity.
  destruct (lower_char_facts c) as (Hdot & _). now rewrite Hdot, IH.
Qed.

Lemma splitext_lower p :
  fst (OsPath.splitext (Py.lower p)) = Py.lower (fst (OsPath.splitext p)).
Proof.
  unfold OsPath.splitext, Py.rfind.
  rewrite !rfind_from_lower_str by (intros a; apply lower_char_facts).
  destruct (_ <? _)%Z; [|reflexivity].
  unfold Py.lower at 1. rewrite drop_map_str. fold (Py.lower (Py.drop
    (Z.to_nat (Py.rfind_from "/" 0 (-1) p + 1)) p)).
  rewrite has_non_dot_lower.
  destruct (OsPath.has_non_dot _ _); cbn [fst]; [|reflexivity].
  unfold Py.lower. apply take_map_str.
Qed.

Lemma lower_idempotent s : Py.lower (Py.lower s) = Py.lower s.
Proof.
  unfold Py.lower. induction s as [|c s IH]; cbn; [reflexivity|].
  destruct (lower_char_facts c) as (_ & _ & Hc). now rewrite Hc, IH.
Qed.

Lemma name_lower_of_lower filename :
  name_lower_of (Py.lower filename) = name_lower_of filename.
Proof.
  unfold name_lower_of. now rewrite splitext_lower, lower_idempotent.
Qed.

(** X19.  Tags and location do not depend on the case of the letters of the
    filename: the lowercased filename gets the same tags and the same
    location.  The date does: the patterns with a month name are matched
    against the name as it is written, so [15 MARCH 2021.pdf] has no date
    where [15 March 2021.pdf] has one. *)
Theorem tags_and_location_ignore_case (filename : string) :
  (exists md md',
      extract_from_filename filename = Ok md
      /\ extract_from_filename (Py.lower filename) = Ok md'
      /\ tags md' = tags md
      /\ location md' = location md)
  /\ (exists md, extract_from_filename "15 March 2021.pdf" = Ok md
                 /\ extracted_date md = Some "15-03-2021")
  /\ (exists md, extract_from_filename "15 MARCH 2021.pdf" = Ok md
                 /\ extracted_date md = None).
Proof.
  split.
  - destruct (extract_from_filename_fields filename) as (md & Hmd & _ & _ & Ht & Hl).
    destruct (extract_from_filename_fields (Py.lower filename))
      as (md' & Hmd' & _ & _ & Ht' & Hl').
    exists md, md'. rewrite name_lower_of_lower in Ht', Hl'.
    repeat split; congruence.
  - split; eexists; (split; [vm_compute; reflexivity | reflexivity]).
Qed.

(** ** The temporal distribution of the report *)

Lemma insert_str_perm x l : Permutation (insert_str x l) (x :: l).
Proof.
  induction l as [|y l IH]; cbn [insert_str]; [reflexivity|].
  destruct (String.leb x y); [reflexivity|]. rewrite IH. apply perm_swap.
Qed.

Lemma insert_str_sorted x l : Sorted str_le l -> Sorted str_le (insert_str x l).
Proof.
  induction 1 as [|y l Hsorted IH Hhd]; cbn [insert_str].
  - repeat constructor.
  - destruct (String.leb x y) eqn:E.
    + constructor; [now constructor|]. now constructor.
    + constructor; [exact IH|].
      assert (Hyx : str_le y x).
      { destruct (String.leb_total x y) as [H|H]; [congruence | exact H]. }
      destruct l as [|z l]; cbn [insert_str]; [now constructor|].
      apply HdRel_inv in Hhd. destruct (String.leb x z); now constructor.
Qed.

Lemma sorted_facts l : Permutation (sorted l) l /\ Sorted str_le (sorted l).
Proof.
  unfold sorted. induction l as [|x l [Hperm Hsorted]]; cbn [fold_right].
  - split; constructor.
  - split; [rewrite insert_str_perm; now constructor | now apply insert_str_sorted].
Qed.

(** X20.  The temporal distribution of the report is empty when the date
    index is; otherwise it names as earliest and latest the first and the
    last key of the date index sorted by code points, and gives the number of
    keys as the number of months. *)
Theorem temporal_distribution_of_sorted_keys (results : analysis_results) :
  (date_index results = [] -> temporal_distribution results = "")
  /\ (date_index results <> [] ->
      exists first rest,
        Permutation (first :: rest) (dict_keys (date_index results))
        /\ Sorted str_le (first :: rest)
        /\ temporal_distribution results
           = "- Earliest: " ++ first ++ nl
             ++ "- Latest: " ++ last rest first ++ nl
             ++ "- Date range spans: "
             ++ Py.str_of_int (Z.of_nat (List.length (date_index results)))
             ++ " months" ++ nl).
Proof.
  unfold temporal_distribution. split.
  - intros ->. reflexivity.
  - intros Hne.
    destruct (sorted_facts (dict_keys (date_index results))) as [Hperm Hsorted].
    destruct (sorted (dict_keys (date_index results))) as [|first rest] eqn:E.
    + apply Permutation_nil in Hperm. unfold dict_keys in Hperm.
      apply map_eq_nil in Hperm. contradiction.
    + exists first, rest. split; [exact Hperm|]. split; [exact Hsorted|].
      unfold count_of. rewrite (Permutation_length Hperm).
      unfold dict_keys. rewrite length_map.
      replace (last (first :: rest) first) with (last rest first); [reflexivity|].
      destruct rest; reflexivity.
Qed.

(** ** When the index builder raises *)

Lemma mapM_summarize_outcome docs ids :
  (forall id, In id ids -> dict_mem id docs = true)
  \/ mapM (summarize docs) ids = Raise KeyError.
Proof.
  induction ids as [|id ids IH]; [left; intros id []|].
  cbn [mapM]. unfold summarize at 1. unfold dict_mem.
  destruct (dict_get id docs) as [doc|] eqn:E; cbn [bind]; [|now right].
  destruct IH as [IH|IH].
  - left. intros id' [<-|Hin]; [unfold dict_mem; now rewrite E | now apply IH].
  - right. now rewrite IH.
Qed.

Lemma tag_tree_outcome docs items :
  forall tree,
    (forall tag ids id, In (tag, ids) items -> In id ids -> dict_mem id docs = true)
    \/ foldM (add_tag_entry docs) items tree = Raise KeyError.
Proof.
  induction items as [|[tag ids] items IH]; intros tree; [left; intros ? ? ? []|].
  cbn [foldM]. unfold add_tag_entry at 1.
  destruct (mapM_summarize_outcome docs ids) as [Hids|Hraise].
  - destruct (mapM_returns (summarize docs) ids) as [summaries Hs].
    { intros id Hid. apply summarize_returns. now apply Hids. }
    rewrite Hs. cbn [bind].
    match goal with |- _ \/ foldM _ _ ?t = _ => destruct (IH t) as [Hrest|Hrest] end.
    + left. intros t i d [[= <- <-]|Hin] Hd; [now apply Hids | now apply (Hrest t i)].
    + now right.
  - right. now rewrite Hraise.
Qed.

Lemma tag_tree_returns docs items tree tree' :
  foldM (add_tag_entry docs) items tree = Ok tree' ->
  forall tag ids id, In (tag, ids) items -> In id ids -> dict_mem id docs = true.
Proof.
  intros H. destruct (tag_tree_outcome docs items tree) as [Hall|Hraise];
    [exact Hall | congruence].
Qed.

Lemma tag_tree_total docs items :
  (forall tag ids id, In (tag, ids) items -> In id ids -> dict_mem id docs = true) ->
  forall tree, exists tree', foldM (add_tag_entry docs) items tree = Ok tree'.
Proof.
  induction items as [|[tag ids] items IH]; intros Hall tree; cbn [foldM]; [eauto|].
  unfold add_tag_entry at 1.
  destruct (mapM_returns (summarize docs) ids) as [summaries Hs].
  { intros id Hid. apply summarize_returns. apply (Hall tag ids); [now left | exact Hid]. }
  rewrite Hs. cbn [bind]. apply IH. intros t i d Hin. apply (Hall t i d). now right.
Qed.

(** X21.  On any analysis result, [create_searchable_index] returns an index
    exactly when every document id in the buckets of the tag index is a key
    of the documents mapping; when one is missing it raises, and what it
    raises is [KeyError]. *)
Theorem index_builder_needs_integrity (created : string) (results : analysis_results) :
  ((exists idx, create_searchable_index created results = Ok idx)
   <-> forall tag ids id,
         In (tag, ids) (tag_index results) -> In id ids ->
         dict_mem id (documents results) = true)
  /\ forall e, create_searchable_index created results = Raise e -> e = KeyError.
Proof.
  unfold create_searchable_index. split; [split|].
  - intros [idx H].
    destruct (foldM (add_tag_entry (documents results)) (tag_index results) [])
      as [tag_tree|] eqn:E; cbn [bind] in H; [|discriminate].
    exact (tag_tree_returns _ _ _ _ E).
  - intros Hall.
    destruct (tag_tree_total (documents results) (tag_index results) Hall [])
      as [tag_tree ->].
    cbn [bind]. eauto.
  - intros e.
    destruct (tag_tree_outcome (documents results) (tag_index results) []) as [Hall|Hraise].
    + destruct (tag_tree_total (documents results) (tag_index results) Hall [])
        as [tag_tree ->].
      cbn [bind]. discriminate.
    + rewrite Hraise. cbn [bind]. congruence.
Qed.
